(** * GenAI roadmap agent: a shallow embedding of the repository

    The pipeline of [roadmap_agent.py] (model client, output normalizer,
    profile extractor, persona classifier, three-step planner, formatter)
    is embedded function by function, and so are the upload reader of
    [file_text_utils.py] and the script [list_gemini_models.py].  The
    text-generation service, the interpreter's [repr], [json.dumps], the
    PDF backend, the file system and the document readers are external to
    the repository: they are fields of environment records, and every
    statement is proved for every environment. *)

From Stdlib Require Import List ZArith NArith QArith Lia Bool String Ascii.
From Stdlib Require Import DecimalString.
Import ListNotations.
Close Scope Q_scope.

(** ** Python strings

    A Python [str] is a sequence of Unicode code points.  Code points beyond
    Latin-1 matter here: a JSON text in ASCII can denote them through
    [\uXXXX] escapes, and [str.strip] removes some of them. *)

Definition codepoint := N.
Definition pystr := list codepoint.

(** A string literal of the source, all of which are ASCII. *)
Fixpoint lit (s : string) : pystr :=
  match s with
  | EmptyString => []
  | String a r => N_of_ascii a :: lit r
  end.

Definition nl : pystr := [10%N].
Definition dq : pystr := [34%N].

Fixpoint pystr_eqb (a b : pystr) : bool :=
  match a, b with
  | [], [] => true
  | x :: a', y :: b' => N.eqb x y && pystr_eqb a' b'
  | _, _ => false
  end.

(** [str.isspace] on one code point: the characters [str.strip()] removes. *)
Definition py_isspace (c : codepoint) : bool :=
  ((9 <=? c) && (c <=? 13) || (28 <=? c) && (c <=? 32) || (c =? 133)
   || (c =? 160) || (c =? 5760) || (8192 <=? c) && (c <=? 8202)
   || (c =? 8232) || (c =? 8233) || (c =? 8239) || (c =? 8287)
   || (c =? 12288))%N.

Fixpoint lstrip (s : pystr) : pystr :=
  match s with
  | [] => []
  | c :: r => if py_isspace c then lstrip r else s
  end.

Definition rstrip (s : pystr) : pystr := rev (lstrip (rev s)).

(** [s.strip()] *)
Definition strip (s : pystr) : pystr := rstrip (lstrip s).

(** [s.startswith(p)] *)
Fixpoint startswith (s p : pystr) : bool :=
  match p, s with
  | [], _ => true
  | x :: p', y :: s' => N.eqb x y && startswith s' p'
  | _ :: _, [] => false
  end.

(** [s.endswith(p)] *)
Definition endswith (s p : pystr) : bool := startswith (rev s) (rev p).

(** [s[:-n]] for a positive [n] *)
Definition drop_last (n : nat) (s : pystr) : pystr :=
  firstn (List.length s - n) s.

(** [sep.join(parts)] *)
Fixpoint join (sep : pystr) (parts : list pystr) : pystr :=
  match parts with
  | [] => []
  | [p] => p
  | p :: rest => p ++ sep ++ join sep rest
  end.

(** [c * n] for a one-character string *)
Definition repeat_char (c : codepoint) (n : nat) : pystr := repeat c n.

(** [str(z)] for an [int] *)
Definition str_of_int (z : Z) : pystr := lit (NilZero.string_of_int (Z.to_int z)).

(** ** The output normalizer, [clean_json_output] *)

Definition fence : pystr := lit "```".

(** The class [[a-zA-Z]] of the regular expression. *)
Definition is_ascii_letter (c : codepoint) : bool :=
  ((65 <=? c) && (c <=? 90) || (97 <=? c) && (c <=? 122))%N.

Fixpoint drop_while (p : codepoint -> bool) (s : pystr) : pystr :=
  match s with
  | [] => []
  | c :: r => if p c then drop_while p r else s
  end.

(** [re.sub(r'^```[a-zA-Z]*\n?', '', s)]: the pattern is anchored at the
    start, so at most one match is replaced; the star is greedy and the
    class does not contain the newline, so the match is the fence, the
    longest run of letters after it, and one newline if it follows. *)
Definition sub_fence_prefix (s : pystr) : pystr :=
  if startswith s fence then
    match drop_while is_ascii_letter (skipn 3 s) with
    | 10%N :: r => r
    | r => r
    end
  else s.

Definition clean_json_output (output : pystr) : pystr :=
  let output := strip output in
  let output :=
    if startswith output fence then
      let output := sub_fence_prefix output in
      if endswith output fence then drop_last 3 output else output
    else output in
  strip output.

(** ** JSON values

    What [json.loads] builds: [None], [bool], [int], [float], [str], [list]
    and [dict].  A [dict] keeps its keys in insertion order, so it is an
    association list without repeated keys.  A [float] is kept as the
    literal that denotes it; its conversion to binary64 is not modelled. *)

#[local] Unset Elimination Schemes.
Inductive json : Type :=
| JNull
| JBool (b : bool)
| JInt (z : Z)
| JFloat (literal : pystr)
| JStr (s : pystr)
| JList (items : list json)
| JDict (pairs : list (pystr * json)).
#[local] Set Elimination Schemes.

(** [d.get(key)]: the lookup inside a [dict]. *)
Fixpoint dict_get (d : list (pystr * json)) (key : pystr) : option json :=
  match d with
  | [] => None
  | (k, v) :: r => if pystr_eqb k key then Some v else dict_get r key
  end.

(** [d[key] = v]: an existing key keeps its place and takes the new value. *)
Fixpoint dict_set (d : list (pystr * json)) (key : pystr) (v : json)
  : list (pystr * json) :=
  match d with
  | [] => [(key, v)]
  | (k, v0) :: r =>
      if pystr_eqb k key then (k, v) :: r else (k, v0) :: dict_set r key v
  end.

(** [dict(pairs)] *)
Definition dict_of_pairs (ps : list (pystr * json)) : list (pystr * json) :=
  fold_left (fun d kv => dict_set d (fst kv) (snd kv)) ps [].

(** ** [json.loads]

    The decoder of the interpreter's [json] package, which the repository
    calls with its defaults: whitespace is space, tab, newline and carriage
    return; strings are strict (no raw control character); the constants
    [NaN], [Infinity] and [-Infinity] are accepted; a repeated key keeps its
    last value.  Two limits of the interpreter are not modelled: the
    recursion limit on nesting and the digit limit on integers. *)

Definition is_json_ws (c : codepoint) : bool :=
  ((c =? 32) || (c =? 9) || (c =? 10) || (c =? 13))%N.

Fixpoint skip_ws (s : pystr) : pystr :=
  match s with
  | [] => []
  | c :: r => if is_json_ws c then skip_ws r else s
  end.

Definition is_digit (c : codepoint) : bool := ((48 <=? c) && (c <=? 57))%N.

(** The longest prefix of [s] whose characters satisfy [p], and the rest. *)
Fixpoint span (p : codepoint -> bool) (s : pystr) : pystr * pystr :=
  match s with
  | [] => ([], [])
  | c :: r =>
      if p c then let (a, b) := span p r in (c :: a, b) else ([], s)
  end.

Definition digits_value (ds : pystr) : Z :=
  fold_left (fun acc c => 10 * acc + (Z.of_N c - 48))%Z ds 0%Z.

Definition hex_value (c : codepoint) : option N :=
  (if (48 <=? c) && (c <=? 57) then Some (c - 48)
   else if (65 <=? c) && (c <=? 70) then Some (c - 55)
   else if (97 <=? c) && (c <=? 102) then Some (c - 87)
   else None)%N.

(** The four hexadecimal digits after [\u]. *)
Definition hex4 (a b c d : codepoint) : option N :=
  match hex_value a, hex_value b, hex_value c, hex_value d with
  | Some x, Some y, Some z, Some w => Some (((x * 16 + y) * 16 + z) * 16 + w)%N
  | _, _, _, _ => None
  end.

Definition is_high_surrogate (u : N) : bool := ((55296 <=? u) && (u <=? 56319))%N.
Definition is_low_surrogate (u : N) : bool := ((56320 <=? u) && (u <=? 57343))%N.

(** The character a one-letter escape denotes. *)
Definition simple_escape (c : codepoint) : option codepoint :=
  (if c =? 34 then Some 34 else if c =? 92 then Some 92
   else if c =? 47 then Some 47 else if c =? 98 then Some 8
   else if c =? 102 then Some 12 else if c =? 110 then Some 10
   else if c =? 114 then Some 13 else if c =? 116 then Some 9
   else None)%N.

(** A decoded character of a string, marked when a [\uXXXX] escape gave
    it: only such escapes are joined into surrogate pairs. *)
Definition decoded := (bool * codepoint)%type.

(** The characters of a string up to its closing quote, escapes decoded
    one by one; [s] starts after the opening quote, and the rest starts
    after the closing one.  A raw control character, an unknown escape and
    a missing closing quote are errors. *)
Fixpoint scan_chars (s : pystr) : option (list decoded * pystr) :=
  match s with
  | [] => None
  | c :: r =>
      if (c =? 34)%N then Some ([], r)
      else if (c <? 32)%N then None
      else if (c =? 92)%N then
        match r with
        | [] => None
        | e :: r1 =>
            if (e =? 117)%N then
              match r1 with
              | h1 :: h2 :: h3 :: h4 :: r2 =>
                  match hex4 h1 h2 h3 h4 with
                  | None => None
                  | Some u =>
                      match scan_chars r2 with
                      | Some (cs, rest) => Some ((true, u) :: cs, rest)
                      | None => None
                      end
                  end
              | _ => None
              end
            else
              match simple_escape e with
              | None => None
              | Some x =>
                  match scan_chars r1 with
                  | Some (cs, rest) => Some ((false, x) :: cs, rest)
                  | None => None
                  end
              end
        end
      else
        match scan_chars r with
        | Some (cs, rest) => Some ((false, c) :: cs, rest)
        | None => None
        end
  end.

(** An escaped high surrogate directly followed by an escaped low surrogate
    is one character; every other character stands for itself. *)
Fixpoint join_surrogates (cs : list decoded) : pystr :=
  match cs with
  | [] => []
  | (escaped, u) :: tl =>
      match tl with
      | (true, u2) :: tl2 =>
          if escaped && is_high_surrogate u && is_low_surrogate u2 then
            (65536 + (u - 55296) * 1024 + (u2 - 56320))%N :: join_surrogates tl2
          else u :: join_surrogates tl
      | _ => u :: join_surrogates tl
      end
  end.

(** [scanstring]: [s] starts after the opening quote; the result is the
    decoded string and what follows the closing quote. *)
Definition scanstring (s : pystr) : option (pystr * pystr) :=
  match scan_chars s with
  | Some (cs, rest) => Some (join_surrogates cs, rest)
  | None => None
  end.

(** The decoder's number pattern, part by part: an optional minus sign;
    then a single zero, or a nonzero digit and any digits; then optionally
    a dot and one or more digits; then optionally [e] or [E], an optional
    sign and one or more digits.  Each part gives the text it matched and
    the rest. *)
Definition number_sign (s : pystr) : pystr * pystr :=
  match s with
  | c :: r => if (c =? 45)%N then ([c], r) else ([], s)
  | [] => ([], s)
  end.

Definition number_int (s : pystr) : option (pystr * pystr) :=
  match s with
  | [] => None
  | c :: r =>
      if (c =? 48)%N then Some ([c], r)
      else if is_digit c then let (ds, rest) := span is_digit r in Some (c :: ds, rest)
      else None
  end.

Definition number_frac (s : pystr) : pystr * pystr :=
  match s with
  | c :: r =>
      if (c =? 46)%N then
        let (ds, rest) := span is_digit r in
        match ds with [] => ([], s) | _ => (c :: ds, rest) end
      else ([], s)
  | [] => ([], s)
  end.

Definition number_exp (s : pystr) : pystr * pystr :=
  match s with
  | e :: r =>
      if ((e =? 101) || (e =? 69))%N then
        let (sg, r1) :=
          match r with
          | g :: r' => if ((g =? 43) || (g =? 45))%N then ([g], r') else ([], r)
          | [] => ([], r)
          end in
        let (ds, rest) := span is_digit r1 in
        match ds with [] => ([], s) | _ => (e :: sg ++ ds, rest) end
      else ([], s)
  | [] => ([], s)
  end.

(** The number at the start of [s]: an [int] when neither a fraction nor
    an exponent was matched, a [float] otherwise. *)
Definition match_number (s : pystr) : option (json * pystr) :=
  let (sign, s1) := number_sign s in
  match number_int s1 with
  | None => None
  | Some (ip, s2) =>
      let (frac, s3) := number_frac s2 in
      let (exp, s4) := number_exp s3 in
      match frac, exp with
      | [], [] =>
          Some (JInt (match sign with
                      | [] => digits_value ip
                      | _ => - digits_value ip
                      end)%Z, s4)
      | _, _ => Some (JFloat (sign ++ ip ++ frac ++ exp), s4)
      end
  end.

(** The result of a scanner run bounded by [fuel]. *)
Inductive scanned (A : Type) : Type :=
| Scanned (a : A)
| SyntaxError
| OutOfFuel.
Arguments Scanned {A} a.
Arguments SyntaxError {A}.
Arguments OutOfFuel {A}.

(** [scan_once], with [JSONArray] and [JSONObject]: [parse_array] starts at
    an element, [parse_object] after the opening quote of a key. *)
Fixpoint scan_once (fuel : nat) (s : pystr) : scanned (json * pystr) :=
  match fuel with
  | O => OutOfFuel
  | S f =>
      match s with
      | [] => SyntaxError
      | c :: r =>
          if (c =? 34)%N then
            match scanstring r with
            | Some (str, rest) => Scanned (JStr str, rest)
            | None => SyntaxError
            end
          else if (c =? 123)%N then
            match skip_ws r with
            | x :: r1 =>
                if (x =? 125)%N then Scanned (JDict [], r1)
                else if (x =? 34)%N then parse_object f [] r1
                else SyntaxError
            | [] => SyntaxError
            end
          else if (c =? 91)%N then
            match skip_ws r with
            | x :: r1 =>
                if (x =? 93)%N then Scanned (JList [], r1)
                else parse_array f [] (x :: r1)
            | [] => SyntaxError
            end
          else if startswith s (lit "null") then Scanned (JNull, skipn 4 s)
          else if startswith s (lit "true") then Scanned (JBool true, skipn 4 s)
          else if startswith s (lit "false") then Scanned (JBool false, skipn 5 s)
          else
            match match_number s with
            | Some res => Scanned res
            | None =>
                if startswith s (lit "NaN") then
                  Scanned (JFloat (lit "NaN"), skipn 3 s)
                else if startswith s (lit "Infinity") then
                  Scanned (JFloat (lit "Infinity"), skipn 8 s)
                else if startswith s (lit "-Infinity") then
                  Scanned (JFloat (lit "-Infinity"), skipn 9 s)
                else SyntaxError
            end
      end
  end

with parse_array (fuel : nat) (acc : list json) (s : pystr)
  : scanned (json * pystr) :=
  match fuel with
  | O => OutOfFuel
  | S f =>
      match scan_once f s with
      | Scanned (v, r) =>
          match skip_ws r with
          | x :: r1 =>
              if (x =? 93)%N then Scanned (JList (rev (v :: acc)), r1)
              else if (x =? 44)%N then parse_array f (v :: acc) (skip_ws r1)
              else SyntaxError
          | [] => SyntaxError
          end
      | SyntaxError => SyntaxError
      | OutOfFuel => OutOfFuel
      end
  end

with parse_object (fuel : nat) (acc : list (pystr * json)) (s : pystr)
  : scanned (json * pystr) :=
  match fuel with
  | O => OutOfFuel
  | S f =>
      match scanstring s with
      | None => SyntaxError
      | Some (key, r) =>
          match skip_ws r with
          | x :: r1 =>
              if (x =? 58)%N then
                match scan_once f (skip_ws r1) with
                | Scanned (v, r2) =>
                    match skip_ws r2 with
                    | y :: r3 =>
                        if (y =? 125)%N then
                          Scanned (JDict (dict_of_pairs (rev ((key, v) :: acc))), r3)
                        else if (y =? 44)%N then
                          match skip_ws r3 with
                          | q :: r4 =>
                              if (q =? 34)%N then parse_object f ((key, v) :: acc) r4
                              else SyntaxError
                          | [] => SyntaxError
                          end
                        else SyntaxError
                    | [] => SyntaxError
                    end
                | SyntaxError => SyntaxError
                | OutOfFuel => OutOfFuel
                end
              else SyntaxError
          | [] => SyntaxError
          end
      end
  end.

(** [json.loads(s)]: [None] stands for the [JSONDecodeError] raised.  The
    fuel is more than any text needs, as is proved below, so a [None] is
    always a syntax error. *)
Definition json_loads (s : pystr) : option json :=
  match scan_once (S (2 * List.length s)) (skip_ws s) with
  | Scanned (v, rest) =>
      match skip_ws rest with
      | [] => Some v
      | _ :: _ => None
      end
  | SyntaxError => None
  | OutOfFuel => None
  end.

(** ** Exceptions, effects and the environment *)

(** The exceptions the pipeline can meet; all are subclasses of
    [Exception], so every [except Exception] clause catches them. *)
Inductive exn : Type :=
| JSONDecodeError (doc : pystr)
| AttributeError (type_name attr : pystr)
| TypeError_not_iterable (type_name : pystr)
| RemoteError (message : pystr)
| OSError (path : pystr).

Inductive outcome (A : Type) : Type :=
| Ret (a : A)
| Raise (e : exn).
Arguments Ret {A} a.
Arguments Raise {A} e.

(** One call of [generate_content]: the prompt and the generation
    parameters ([temperature] is a decimal fraction). *)
Record request : Type := {
  req_prompt : pystr;
  req_temperature : Q;
  req_max_output_tokens : Z
}.

(** A piece of a printed f-string: text, or [str(e)] of an exception. *)
Inductive fpart : Type :=
| Text (s : pystr)
| ExnText (e : exn).

(** What the PDF canvas is asked to do, in order.  The page is US letter,
    612 by 792 points; every coordinate the code computes is a whole number
    of points. *)
Inductive canvas_op : Type :=
| SetFont (name : pystr) (size : Z)
| DrawString (x y : Z) (text : pystr)
| ShowPage.

Definition canvas := list canvas_op.

(** The state the program can change: the requests sent to the model so
    far, the lines printed, the files written. *)
Record world : Type := {
  calls : list request;
  stdout : list (list fpart);
  files : list (pystr * canvas)
}.

(** What the repository takes from outside. *)
Record Env : Type := {
  (** [generate_content(prompt, generation_config).text]: the text of the
      model's answer, or the exception the call raised; it may depend on
      the requests sent before. *)
  remote : list request -> request -> outcome pystr;
  (** [json.dumps(v, indent=2)] *)
  json_dumps : json -> pystr;
  (** [str(v)] of a [float], a [list] or a [dict] *)
  py_repr : json -> pystr;
  (** whether the [float] a literal denotes is zero *)
  float_is_zero : pystr -> bool;
  (** [REPORTLAB_AVAILABLE], fixed when the module is imported *)
  REPORTLAB_AVAILABLE : bool;
  (** [simpleSplit(text, fontName, fontSize, maxWidth)] *)
  simpleSplit : pystr -> pystr -> Z -> Z -> list pystr;
  (** whether a file can be written at a path *)
  fs_writable : pystr -> bool;
  (** the name [NamedTemporaryFile] gives a file with this suffix *)
  temp_file_name : pystr -> pystr
}.

(** A computation that reads and changes the world and returns or raises. *)
Definition M (A : Type) : Type := world -> outcome A * world.

Class Monad (m : Type -> Type) : Type := {
  ret : forall A, A -> m A;
  bind : forall A B, m A -> (A -> m B) -> m B
}.
Arguments ret {m _ A} _.
Arguments bind {m _ A B} _ _.

#[export] Instance outcome_monad : Monad outcome := {
  ret := fun A a => Ret a;
  bind := fun A B c k => match c with Ret a => k a | Raise e => Raise e end
}.

#[export] Instance M_monad : Monad M := {
  ret := fun A a w => (Ret a, w);
  bind := fun A B c k w =>
    match c w with
    | (Ret a, w') => k a w'
    | (Raise e, w') => (Raise e, w')
    end
}.

Declare Scope monad_scope.
Delimit Scope monad_scope with monad.
Notation "x <- c ;; k" := (bind c (fun x => k))
  (at level 61, c at next level, right associativity) : monad_scope.
Notation "c ;; k" := (bind c (fun _ => k))
  (at level 61, right associativity) : monad_scope.
Open Scope monad_scope.

(** A pure computation that may raise, run inside [M]. *)
Definition lift {A} (c : outcome A) : M A := fun w => (c, w).

(** [try: body  except Exception as e: handler(e)]; what [body] did to the
    world before it raised stays done. *)
Definition try_except {A} (body : M A) (handler : exn -> M A) : M A :=
  fun w =>
    match body w with
    | (Ret a, w') => (Ret a, w')
    | (Raise e, w') => handler e w'
    end.

(** [print(line)]; writing to the standard output is taken to succeed. *)
Definition print (line : list fpart) : M unit :=
  fun w => (Ret tt,
            {| calls := calls w; stdout := stdout w ++ [line]; files := files w |}).

(** [json.loads], raising. *)
Definition loads (s : pystr) : outcome json :=
  match json_loads s with
  | Some v => Ret v
  | None => Raise (JSONDecodeError s)
  end.

Definition type_name_of (v : json) : pystr :=
  match v with
  | JNull => lit "NoneType"
  | JBool _ => lit "bool"
  | JInt _ => lit "int"
  | JFloat _ => lit "float"
  | JStr _ => lit "str"
  | JList _ => lit "list"
  | JDict _ => lit "dict"
  end.

(** [v.get(key, default)]: only a [dict] has the method. *)
Definition py_get (v : json) (key : pystr) (default : json) : outcome json :=
  match v with
  | JDict d => Ret (match dict_get d key with Some x => x | None => default end)
  | _ => Raise (AttributeError (type_name_of v) (lit "get"))
  end.

(** [for x in v]: a [list] yields its items, a [str] its characters, a
    [dict] its keys; nothing else is iterable. *)
Definition py_iter (v : json) : outcome (list json) :=
  match v with
  | JList l => Ret l
  | JStr s => Ret (map (fun c => JStr [c]) s)
  | JDict d => Ret (map (fun kv => JStr (fst kv)) d)
  | _ => Raise (TypeError_not_iterable (type_name_of v))
  end.

(** A [for] loop whose body updates a state [S] and may raise. *)
Fixpoint for_each {S : Type} (items : list json) (body : json -> S -> outcome S)
  (s : S) : outcome S :=
  match items with
  | [] => Ret s
  | x :: rest =>
      match body x s with
      | Ret s' => for_each rest body s'
      | Raise e => Raise e
      end
  end.

(** The text of an f-string whose lines are [lines]:
    it opens and closes with a line break. *)
Definition template (lines : list pystr) : pystr :=
  nl ++ List.concat (map (fun l => l ++ nl) lines).

Definition default_temperature : Q := (4 # 10)%Q.
Definition default_max_output_tokens : Z := 2048.

Section Pipeline.

Variable env : Env.

(** [str(v)], as an f-string formats a value. *)
Definition py_str (v : json) : pystr :=
  match v with
  | JStr s => s
  | JInt z => str_of_int z
  | JNull => lit "None"
  | JBool true => lit "True"
  | JBool false => lit "False"
  | JFloat _ | JList _ | JDict _ => py_repr env v
  end.

(** *** [GeminiAPI] *)

(** [self.model.generate_content(...)] followed by [response.text]. *)
Definition generate_content (req : request) : M pystr :=
  fun w => (remote env (calls w) req,
            {| calls := calls w ++ [req]; stdout := stdout w; files := files w |}).

Definition generate (prompt : pystr) (temperature : Q) (max_output_tokens : Z)
  : M pystr :=
  try_except
    (response_text <- generate_content
        {| req_prompt := prompt;
           req_temperature := temperature;
           req_max_output_tokens := max_output_tokens |} ;;
     ret (strip response_text))
    (fun e =>
       print [Text (lit "[GeminiAPI] Error: "); ExnText e] ;;
       ret []).

(** [self.gemini.generate(prompt)], with the default parameters. *)
Definition gemini_generate (prompt : pystr) : M pystr :=
  generate prompt default_temperature default_max_output_tokens.

(** *** [UserUnderstanding] *)

Definition extract_user_data_prompt (resume_text interview_summary_text goals_text : pystr) : pystr :=
  template
    [ lit "You are an expert career coach and GenAI learning consultant. Given the following user inputs:";
      [];
      lit "Resume:";
      resume_text;
      [];
      lit "Interview Summary:";
      interview_summary_text;
      [];
      lit "Personal Goals:";
      goals_text;
      [];
      lit "Extract the following as a JSON object:";
      lit "- domain: User's professional domain/field";
      lit "- skills: { 'technical': [list with proficiency], 'soft': [list] }";
      lit "- goals: List of specific goals";
      lit "- learning_preference: One of ['project-based', 'video-based', 'reading', 'mixed']";
      lit "- weekly_availability_hours: Integer estimate";
      [];
      lit "Output ONLY the JSON object. Do not include any explanation." ].

Definition extract_user_data
  (resume_text interview_summary_text goals_text : pystr) : M json :=
  let prompt :=
    extract_user_data_prompt resume_text interview_summary_text goals_text in
  output <- gemini_generate prompt ;;
  try_except
    (let output_clean := clean_json_output output in
     user_data <- lift (loads output_clean) ;;
     ret user_data)
    (fun e =>
       print [Text (lit "[UserUnderstanding] Failed to parse JSON: "); ExnText e;
              Text (nl ++ lit "Raw output: "); Text output] ;;
       ret (JDict [])).

Definition extract_user_data_trace_prompt (resume_text interview_summary_text goals_text : pystr) : pystr :=
  template
    [ lit "You are an expert career coach and GenAI learning consultant. Given the following user inputs:";
      [];
      lit "Resume:";
      resume_text;
      [];
      lit "Interview Summary:";
      interview_summary_text;
      [];
      lit "Personal Goals:";
      goals_text;
      [];
      lit "Extract the following as a JSON object:";
      lit "- domain: User's professional domain/field";
      lit "- skills: { 'technical': [list with proficiency], 'soft': [list] }";
      lit "- goals: List of specific goals";
      lit "- learning_preference: One of ['project-based', 'video-based', 'reading', 'mixed']";
      lit "- weekly_availability_hours: Integer estimate";
      [];
      lit "Output ONLY the JSON object. Do not include any explanation." ].

Definition extract_user_data_trace
  (resume_text interview_summary_text goals_text : pystr)
  : M (json * pystr * pystr) :=
  let prompt :=
    extract_user_data_trace_prompt resume_text interview_summary_text goals_text in
  output <- gemini_generate prompt ;;
  user_data <-
    try_except
      (let output_clean := clean_json_output output in
       user_data <- lift (loads output_clean) ;;
       ret user_data)
      (fun e =>
         print [Text (lit "[UserUnderstanding] Failed to parse JSON: "); ExnText e;
                Text (nl ++ lit "Raw output: "); Text output] ;;
         ret (JDict [])) ;;
  ret (user_data, prompt, output).

(** *** [PersonaClassifier] *)

Definition categories : list pystr :=
  [ lit "College student";
    lit "Working professional (tech)";
    lit "Working professional (non-tech)";
    lit "Marketing/Sales background";
    lit "Non-tech aiming to enter tech";
    lit "Senior professional (10+ years experience)" ].

Definition classify_persona_prompt (user_data : json) : pystr :=
  template
    [ lit "Given the following user profile data (JSON):";
      json_dumps env user_data;
      [];
      lit "Classify the user into ONE of these categories:";
      lit "- " ++ join (lit ", ") categories;
      [];
      lit "Respond as a JSON object:";
      lit "{";
      lit "  " ++ dq ++ lit "persona" ++ dq ++ lit ": <category>,";
      lit "  " ++ dq ++ lit "justification" ++ dq ++ lit ": <brief justification for your choice>";
      lit "}" ].

Definition classify_persona (user_data : json) : M (json * json) :=
  let prompt := classify_persona_prompt user_data in
  output <- gemini_generate prompt ;;
  try_except
    (let output_clean := clean_json_output output in
     result <- lift (loads output_clean) ;;
     persona <- lift (py_get result (lit "persona") (JStr [])) ;;
     justification <- lift (py_get result (lit "justification") (JStr [])) ;;
     ret (persona, justification))
    (fun e =>
       print [Text (lit "[PersonaClassifier] Failed to parse JSON: "); ExnText e;
              Text (nl ++ lit "Raw output: "); Text output] ;;
       ret (JStr [], JStr [])).

Definition classify_persona_trace_prompt (user_data : json) : pystr :=
  template
    [ lit "Given the following user profile data (JSON):";
      json_dumps env user_data;
      [];
      lit "Classify the user into ONE of these categories:";
      lit "- " ++ join (lit ", ") categories;
      [];
      lit "Respond as a JSON object:";
      lit "{";
      lit "  " ++ dq ++ lit "persona" ++ dq ++ lit ": <category>,";
      lit "  " ++ dq ++ lit "justification" ++ dq ++ lit ": <brief justification for your choice>";
      lit "}" ].

Definition classify_persona_trace (user_data : json)
  : M (json * json * pystr * pystr) :=
  let prompt := classify_persona_trace_prompt user_data in
  output <- gemini_generate prompt ;;
  pj <-
    try_except
      (let output_clean := clean_json_output output in
       result <- lift (loads output_clean) ;;
       persona <- lift (py_get result (lit "persona") (JStr [])) ;;
       justification <- lift (py_get result (lit "justification") (JStr [])) ;;
       ret (persona, justification))
      (fun e =>
         print [Text (lit "[PersonaClassifier] Failed to parse JSON: "); ExnText e;
                Text (nl ++ lit "Raw output: "); Text output] ;;
         ret (JStr [], JStr [])) ;;
  ret (fst pj, snd pj, prompt, output).

(** *** [RoadmapPlanner]

    [plan_roadmap] runs three steps and assembles the record; each step is
    one definition here, named after the comment that opens it in the
    source. *)

Definition plan_roadmap_think_prompt (user_data persona : json) : pystr :=
  template
    [ lit "You are an expert GenAI curriculum designer. Given the user's profile and persona below, identify the most relevant GenAI topics/use-cases for them. For each topic, include a brief justification of why it is relevant for this user.";
      [];
      lit "User Profile:";
      json_dumps env user_data;
      lit "Persona: " ++ py_str persona;
      [];
      lit "Respond as a JSON array of objects:";
      lit "[";
      lit "  {" ++ dq ++ lit "topic" ++ dq ++ lit ": <topic>, " ++ dq ++ lit "justification" ++ dq ++ lit ": <why this topic is relevant>}, ...";
      lit "]" ].

(** Step 1: Think - Identify topics *)
Definition plan_roadmap_think (user_data persona : json) : M json :=
  let think_prompt := plan_roadmap_think_prompt user_data persona in
  topics_output <- gemini_generate think_prompt ;;
  try_except
    (lift (loads (clean_json_output topics_output)))
    (fun e =>
       print [Text (lit "[RoadmapPlanner][Think] Failed to parse topics JSON: ");
              ExnText e; Text (nl ++ lit "Raw output: "); Text topics_output] ;;
       ret (JList [])).

Definition plan_roadmap_plan_prompt (topics : json) : pystr :=
  template
    [ lit "Given the user's profile and the following topics (with justifications):";
      json_dumps env topics;
      [];
      lit "Propose a suitable roadmap duration (choose one: 21, 30, or 45 days) and structure the roadmap into levels (e.g., Foundations, Hands-on, Application). Assign topics to levels. Justify your choices based on the user's background, goals, and weekly availability.";
      [];
      lit "Respond as a JSON object:";
      lit "{";
      lit "  " ++ dq ++ lit "duration_days" ++ dq ++ lit ": <21|30|45>,";
      lit "  " ++ dq ++ lit "levels" ++ dq ++ lit ": [";
      lit "    {" ++ dq ++ lit "level" ++ dq ++ lit ": <int>, " ++ dq ++ lit "title" ++ dq ++ lit ": <level title>, " ++ dq ++ lit "topics" ++ dq ++ lit ": [<topic>, ...], " ++ dq ++ lit "justification" ++ dq ++ lit ": <why this structure/leveling>}, ...";
      lit "  ],";
      lit "  " ++ dq ++ lit "structure_justification" ++ dq ++ lit ": <overall justification>";
      lit "}" ].

(** Step 2: Plan - Duration and Structure *)
Definition plan_roadmap_plan (topics : json) : M json :=
  let plan_prompt := plan_roadmap_plan_prompt topics in
  structure_output <- gemini_generate plan_prompt ;;
  try_except
    (lift (loads (clean_json_output structure_output)))
    (fun e =>
       print [Text (lit "[RoadmapPlanner][Plan] Failed to parse structure JSON: ");
              ExnText e; Text (nl ++ lit "Raw output: "); Text structure_output] ;;
       ret (JDict [])).

Definition plan_roadmap_activities_prompt (user_data persona structure : json) : pystr :=
  template
    [ lit "Given the roadmap structure below, the user's learning preference, and their weekly availability, detail the specific learning activities for each topic. Estimate the hours required per activity so that the total fits within the duration and weekly hours. For each activity, provide a justification.";
      [];
      lit "User Profile:";
      json_dumps env user_data;
      lit "Persona: " ++ py_str persona;
      lit "Roadmap Structure:";
      json_dumps env structure;
      [];
      lit "Respond as a JSON object in this format:";
      lit "{";
      lit "  " ++ dq ++ lit "levels" ++ dq ++ lit ": [";
      lit "    {";
      lit "      " ++ dq ++ lit "level" ++ dq ++ lit ": <int>,";
      lit "      " ++ dq ++ lit "title" ++ dq ++ lit ": <level title>,";
      lit "      " ++ dq ++ lit "estimated_hours" ++ dq ++ lit ": <int>,";
      lit "      " ++ dq ++ lit "topics" ++ dq ++ lit ": [";
      lit "        {";
      lit "          " ++ dq ++ lit "topic" ++ dq ++ lit ": <topic>,";
      lit "          " ++ dq ++ lit "activity" ++ dq ++ lit ": <activity description>,";
      lit "          " ++ dq ++ lit "estimated_hours" ++ dq ++ lit ": <int>,";
      lit "          " ++ dq ++ lit "justification" ++ dq ++ lit ": <why this activity/topic for this user>";
      lit "        }, ...";
      lit "      ]";
      lit "    }, ...";
      lit "  ],";
      lit "  " ++ dq ++ lit "total_estimated_hours" ++ dq ++ lit ": <int>";
      lit "}" ].

(** Step 3: Plan - Activities and Time Allocation *)
Definition plan_roadmap_activities (user_data persona structure : json) : M json :=
  let activities_prompt :=
    plan_roadmap_activities_prompt user_data persona structure in
  activities_output <- gemini_generate activities_prompt ;;
  try_except
    (lift (loads (clean_json_output activities_output)))
    (fun e =>
       print [Text (lit "[RoadmapPlanner][Activities] Failed to parse activities JSON: ");
              ExnText e; Text (nl ++ lit "Raw output: "); Text activities_output] ;;
       ret (JDict [])).

(** Assemble final roadmap_data: the dictionary display evaluates its
    values in the order written. *)
Definition plan_roadmap_assemble (user_data persona structure activities : json)
  : outcome json :=
  domain <- py_get user_data (lit "domain") (JStr []) ;;
  goals <- py_get user_data (lit "goals") (JList []) ;;
  weekly <- py_get user_data (lit "weekly_availability_hours") (JInt 0) ;;
  duration_days <- py_get structure (lit "duration_days") (JInt 30) ;;
  total <- py_get activities (lit "total_estimated_hours") (JInt 0) ;;
  levels <- py_get activities (lit "levels") (JList []) ;;
  ret (JDict
    [ (lit "user_profile_summary",
       JDict [ (lit "persona", persona);
               (lit "domain", domain);
               (lit "goals", goals);
               (lit "weekly_availability_hours", weekly) ]);
      (lit "roadmap",
       JDict [ (lit "title",
                JStr (lit "Personalized GenAI Roadmap for " ++ py_str persona));
               (lit "duration_days", duration_days);
               (lit "total_estimated_hours", total);
               (lit "levels", levels) ]) ]).

Definition plan_roadmap (user_data persona : json) : M json :=
  topics <- plan_roadmap_think user_data persona ;;
  structure <- plan_roadmap_plan topics ;;
  activities <- plan_roadmap_activities user_data persona structure ;;
  lift (plan_roadmap_assemble user_data persona structure activities).

Definition identify_topics_prompt (user_data : json) : pystr :=
  template
    [ lit "You are an expert GenAI curriculum designer. Given the user's profile below, identify the most relevant GenAI topics/use-cases for them. For each topic, include a brief justification of why it is relevant for this user.";
      [];
      lit "User Profile:";
      json_dumps env user_data;
      [];
      lit "Respond as a JSON array of objects:";
      lit "[";
      lit "  {" ++ dq ++ lit "topic" ++ dq ++ lit ": <topic>, " ++ dq ++ lit "justification" ++ dq ++ lit ": <why this topic is relevant>}, ...";
      lit "]" ].

Definition identify_topics (user_data : json) : M json :=
  let prompt := identify_topics_prompt user_data in
  output <- gemini_generate prompt ;;
  topics <-
    try_except
      (lift (loads (clean_json_output output)))
      (fun e =>
         print [Text (lit "[RoadmapPlanner][identify_topics] Failed to parse topics JSON: ");
                ExnText e; Text (nl ++ lit "Raw output: "); Text output] ;;
         ret (JList [])) ;;
  ret topics.

Definition identify_topics_trace_prompt (user_data : json) : pystr :=
  template
    [ lit "You are an expert GenAI curriculum designer. Given the user's profile below, identify the most relevant GenAI topics/use-cases for them. For each topic, include a brief justification of why it is relevant for this user.";
      [];
      lit "User Profile:";
      json_dumps env user_data;
      [];
      lit "Respond as a JSON array of objects:";
      lit "[";
      lit "  {" ++ dq ++ lit "topic" ++ dq ++ lit ": <topic>, " ++ dq ++ lit "justification" ++ dq ++ lit ": <why this topic is relevant>}, ...";
      lit "]" ].

Definition identify_topics_trace (user_data : json) : M (json * pystr * pystr) :=
  let prompt := identify_topics_trace_prompt user_data in
  output <- gemini_generate prompt ;;
  topics <-
    try_except
      (lift (loads (clean_json_output output)))
      (fun e =>
         print [Text (lit "[RoadmapPlanner][identify_topics_trace] Failed to parse topics JSON: ");
                ExnText e; Text (nl ++ lit "Raw output: "); Text output] ;;
         ret (JList [])) ;;
  ret (topics, prompt, output).

Definition plan_roadmap_trace_think_prompt (user_data persona : json) : pystr :=
  template
    [ lit "You are an expert GenAI curriculum designer. Given the user's profile and persona below, identify the most relevant GenAI topics/use-cases for them. For each topic, include a brief justification of why it is relevant for this user.";
      [];
      lit "User Profile:";
      json_dumps env user_data;
      lit "Persona: " ++ py_str persona;
      [];
      lit "Respond as a JSON array of objects:";
      lit "[";
      lit "  {" ++ dq ++ lit "topic" ++ dq ++ lit ": <topic>, " ++ dq ++ lit "justification" ++ dq ++ lit ": <why this topic is relevant>}, ...";
      lit "]" ].

Definition plan_roadmap_trace_think_prompt_given (user_data persona : json) : pystr :=
  template
    [ lit "You are an expert GenAI curriculum designer. Given the user's profile and persona below, identify the most relevant GenAI topics/use-cases for them. For each topic, include a brief justification of why it is relevant for this user.";
      [];
      lit "User Profile:";
      json_dumps env user_data;
      lit "Persona: " ++ py_str persona;
      [];
      lit "Respond as a JSON array of objects:";
      lit "[";
      lit "  {" ++ dq ++ lit "topic" ++ dq ++ lit ": <topic>, " ++ dq ++ lit "justification" ++ dq ++ lit ": <why this topic is relevant>}, ...";
      lit "]" ].

(** Whether a value counts as true in [x if topics else y]. *)
Definition py_truthy (v : json) : bool :=
  match v with
  | JNull => false
  | JBool b => b
  | JInt z => negb (Z.eqb z 0)
  | JFloat l => negb (float_is_zero env l)
  | JStr s => match s with [] => false | _ => true end
  | JList l => match l with [] => false | _ => true end
  | JDict d => match d with [] => false | _ => true end
  end.

(** Step 1 of [plan_roadmap_trace]: [topics] is [None] unless the caller
    computed the topics beforehand. *)
Definition plan_roadmap_trace_think (user_data persona : json) (topics : option json)
  : M (json * pystr * pystr) :=
  match topics with
  | None =>
      let think_prompt := plan_roadmap_trace_think_prompt user_data persona in
      topics_output <- gemini_generate think_prompt ;;
      topics <-
        try_except
          (lift (loads (clean_json_output topics_output)))
          (fun e =>
             print [Text (lit "[RoadmapPlanner][Think] Failed to parse topics JSON: ");
                    ExnText e; Text (nl ++ lit "Raw output: "); Text topics_output] ;;
             ret (JList [])) ;;
      ret (topics, think_prompt, topics_output)
  | Some topics =>
      let think_prompt := plan_roadmap_trace_think_prompt_given user_data persona in
      let topics_output :=
        if py_truthy topics then json_dumps env topics else lit "[]" in
      ret (topics, think_prompt, topics_output)
  end.

Definition plan_roadmap_trace_plan_prompt (topics : json) : pystr :=
  template
    [ lit "Given the user's profile and the following topics (with justifications):";
      json_dumps env topics;
      [];
      lit "Propose a suitable roadmap duration (choose one: 21, 30, or 45 days) and structure the roadmap into levels (e.g., Foundations, Hands-on, Application). Assign topics to levels. Justify your choices based on the user's background, goals, and weekly availability.";
      [];
      lit "Respond as a JSON object:";
      lit "{";
      lit "  " ++ dq ++ lit "duration_days" ++ dq ++ lit ": <21|30|45>,";
      lit "  " ++ dq ++ lit "levels" ++ dq ++ lit ": [";
      lit "    {" ++ dq ++ lit "level" ++ dq ++ lit ": <int>, " ++ dq ++ lit "title" ++ dq ++ lit ": <level title>, " ++ dq ++ lit "topics" ++ dq ++ lit ": [<topic>, ...], " ++ dq ++ lit "justification" ++ dq ++ lit ": <why this structure/leveling>}, ...";
      lit "  ],";
      lit "  " ++ dq ++ lit "structure_justification" ++ dq ++ lit ": <overall justification>";
      lit "}" ].

Definition plan_roadmap_trace_plan (topics : json) : M (json * pystr * pystr) :=
  let plan_prompt := plan_roadmap_trace_plan_prompt topics in
  structure_output <- gemini_generate plan_prompt ;;
  structure <-
    try_except
      (lift (loads (clean_json_output structure_output)))
      (fun e =>
         print [Text (lit "[RoadmapPlanner][Plan] Failed to parse structure JSON: ");
                ExnText e; Text (nl ++ lit "Raw output: "); Text structure_output] ;;
         ret (JDict [])) ;;
  ret (structure, plan_prompt, structure_output).

Definition plan_roadmap_trace_activities_prompt (user_data persona structure : json) : pystr :=
  template
    [ lit "Given the roadmap structure below, the user's learning preference, and their weekly availability, detail the specific learning activities for each topic. Estimate the hours required per activity so that the total fits within the duration and weekly hours. For each activity, provide a justification.";
      [];
      lit "User Profile:";
      json_dumps env user_data;
      lit "Persona: " ++ py_str persona;
      lit "Roadmap Structure:";
      json_dumps env structure;
      [];
      lit "Respond as a JSON object in this format:";
      lit "{";
      lit "  " ++ dq ++ lit "levels" ++ dq ++ lit ": [";
      lit "    {";
      lit "      " ++ dq ++ lit "level" ++ dq ++ lit ": <int>,";
      lit "      " ++ dq ++ lit "title" ++ dq ++ lit ": <level title>,";
      lit "      " ++ dq ++ lit "estimated_hours" ++ dq ++ lit ": <int>,";
      lit "      " ++ dq ++ lit "topics" ++ dq ++ lit ": [";
      lit "        {";
      lit "          " ++ dq ++ lit "topic" ++ dq ++ lit ": <topic>,";
      lit "          " ++ dq ++ lit "activity" ++ dq ++ lit ": <activity description>,";
      lit "          " ++ dq ++ lit "estimated_hours" ++ dq ++ lit ": <int>,";
      lit "          " ++ dq ++ lit "justification" ++ dq ++ lit ": <why this activity/topic for this user>";
      lit "        }, ...";
      lit "      ]";
      lit "    }, ...";
      lit "  ],";
      lit "  " ++ dq ++ lit "total_estimated_hours" ++ dq ++ lit ": <int>";
      lit "}" ].

Definition plan_roadmap_trace_activities (user_data persona structure : json)
  : M (json * pystr * pystr) :=
  let activities_prompt :=
    plan_roadmap_trace_activities_prompt user_data persona structure in
  activities_output <- gemini_generate activities_prompt ;;
  activities <-
    try_except
      (lift (loads (clean_json_output activities_output)))
      (fun e =>
         print [Text (lit "[RoadmapPlanner][Activities] Failed to parse activities JSON: ");
                ExnText e; Text (nl ++ lit "Raw output: "); Text activities_output] ;;
         ret (JDict [])) ;;
  ret (activities, activities_prompt, activities_output).

Definition plan_roadmap_trace_assemble
  (user_data persona structure activities : json) : outcome json :=
  domain <- py_get user_data (lit "domain") (JStr []) ;;
  goals <- py_get user_data (lit "goals") (JList []) ;;
  weekly <- py_get user_data (lit "weekly_availability_hours") (JInt 0) ;;
  duration_days <- py_get structure (lit "duration_days") (JInt 30) ;;
  total <- py_get activities (lit "total_estimated_hours") (JInt 0) ;;
  levels <- py_get activities (lit "levels") (JList []) ;;
  ret (JDict
    [ (lit "user_profile_summary",
       JDict [ (lit "persona", persona);
               (lit "domain", domain);
               (lit "goals", goals);
               (lit "weekly_availability_hours", weekly) ]);
      (lit "roadmap",
       JDict [ (lit "title",
                JStr (lit "Personalized GenAI Roadmap for " ++ py_str persona));
               (lit "duration_days", duration_days);
               (lit "total_estimated_hours", total);
               (lit "levels", levels) ]) ]).

(** The [plan_prompts] and [plan_responses] dictionaries: the values under
    the keys ['topics'], ['structure'] and ['activities']. *)
Record plan_trace : Type := {
  trace_topics : pystr;
  trace_structure : pystr;
  trace_activities : pystr
}.

Definition plan_roadmap_trace (user_data persona : json) (topics : option json)
  : M (json * plan_trace * plan_trace) :=
  t <- plan_roadmap_trace_think user_data persona topics ;;
  let '(topics, think_prompt, topics_output) := t in
  p <- plan_roadmap_trace_plan topics ;;
  let '(structure, plan_prompt, structure_output) := p in
  a <- plan_roadmap_trace_activities user_data persona structure ;;
  let '(activities, activities_prompt, activities_output) := a in
  roadmap_data <-
    lift (plan_roadmap_trace_assemble user_data persona structure activities) ;;
  let plan_prompts :=
    {| trace_topics := think_prompt;
       trace_structure := plan_prompt;
       trace_activities := activities_prompt |} in
  let plan_responses :=
    {| trace_topics := topics_output;
       trace_structure := structure_output;
       trace_activities := activities_output |} in
  ret (roadmap_data, plan_prompts, plan_responses).

(** *** [OutputFormatter] *)

Definition equals_sign : codepoint := 61%N.
Definition hyphen : codepoint := 45%N.

(** ['=' * 60] and ['-' * 60] *)
Definition rule (c : codepoint) : pystr := repeat_char c 60.

(** The lines one topic adds to the table. *)
Definition format_topic (topic : json) (lines : list pystr) : outcome (list pystr) :=
  name <- py_get topic (lit "topic") (JStr []) ;;
  let lines := lines ++ [lit "- Topic: " ++ py_str name] in
  activity <- py_get topic (lit "activity") (JStr []) ;;
  let lines := lines ++ [lit "  Activity: " ++ py_str activity] in
  hours <- py_get topic (lit "estimated_hours") (JInt 0) ;;
  let lines := lines ++ [lit "  Est. Hours: " ++ py_str hours] in
  justification <- py_get topic (lit "justification") (JStr []) ;;
  let lines := lines ++ [lit "  Justification: " ++ py_str justification ++ nl] in
  ret lines.

(** The lines one level adds: its heading, a dashed rule, its topics. *)
Definition format_level (level : json) (lines : list pystr) : outcome (list pystr) :=
  number <- py_get level (lit "level") (JStr (lit "?")) ;;
  title <- py_get level (lit "title") (JStr []) ;;
  hours <- py_get level (lit "estimated_hours") (JInt 0) ;;
  let lines :=
    lines ++ [nl ++ lit "Level " ++ py_str number ++ lit ": " ++ py_str title
              ++ lit " (Est. " ++ py_str hours ++ lit " hrs)"] in
  let lines := lines ++ [rule hyphen] in
  topics <- py_get level (lit "topics") (JList []) ;;
  topics <- py_iter topics ;;
  for_each topics format_topic lines.

Definition format_table (roadmap_data : json) : outcome pystr :=
  roadmap <- py_get roadmap_data (lit "roadmap") (JDict []) ;;
  let lines := [] in
  let lines := lines ++ [nl ++ rule equals_sign] in
  title <- py_get roadmap (lit "title") (JStr (lit "GenAI Roadmap")) ;;
  let lines := lines ++ [py_str title] in
  duration_days <- py_get roadmap (lit "duration_days") (JInt 0) ;;
  total <- py_get roadmap (lit "total_estimated_hours") (JInt 0) ;;
  let lines :=
    lines ++ [lit "Duration: " ++ py_str duration_days
              ++ lit " days | Total Hours: " ++ py_str total] in
  let lines := lines ++ [rule equals_sign] in
  levels <- py_get roadmap (lit "levels") (JList []) ;;
  levels <- py_iter levels ;;
  lines <- for_each levels format_level lines ;;
  let lines := lines ++ [rule equals_sign ++ nl] in
  ret (join nl lines).

Definition line_space : Z := 18.

(** The local function [draw_wrapped] of [generate_pdf]: it draws on the
    canvas [c] and returns the new [y]. *)
Definition draw_wrapped (c : canvas) (text : json) (x y : Z) (font_name : pystr)
  (font_size max_width : Z) : canvas * Z :=
  let c := c ++ [SetFont font_name font_size] in
  let lines := simpleSplit env (py_str text) font_name font_size max_width in
  fold_left
    (fun cy line => (fst cy ++ [DrawString x (snd cy) line], snd cy - line_space)%Z)
    lines (c, y).

(** [c.save()]: writes the document at the canvas's path. *)
Definition canvas_save (c : canvas) (path : pystr) : M unit :=
  fun w =>
    if fs_writable env path then
      (Ret tt, {| calls := calls w; stdout := stdout w;
                  files := (path, c) :: files w |})
    else (Raise (OSError path), w).

Definition pdf_topic (margin wrap_width height : Z) (topic : json) (cy : canvas * Z)
  : outcome (canvas * Z) :=
  let (c, y) := cy in
  name <- py_get topic (lit "topic") (JStr []) ;;
  let (c, y) := draw_wrapped c (JStr (lit "- Topic: " ++ py_str name))
                  (margin + 10) y (lit "Helvetica-Bold") 11 (wrap_width - 10) in
  activity <- py_get topic (lit "activity") (JStr []) ;;
  let (c, y) := draw_wrapped c (JStr (lit "Activity: " ++ py_str activity))
                  (margin + 30) y (lit "Helvetica") 11 (wrap_width - 30) in
  hours <- py_get topic (lit "estimated_hours") (JInt 0) ;;
  let (c, y) := draw_wrapped c (JStr (lit "Est. Hours: " ++ py_str hours))
                  (margin + 30) y (lit "Helvetica") 11 (wrap_width - 30) in
  justification <- py_get topic (lit "justification") (JStr []) ;;
  let (c, y) := draw_wrapped c (JStr (lit "Justification: " ++ py_str justification))
                  (margin + 30) y (lit "Helvetica-Oblique") 11 (wrap_width - 30) in
  let y := (y - 8)%Z in
  if (y <? 80)%Z then ret (c ++ [ShowPage], (height - margin)%Z)
  else ret (c, y).

Definition pdf_level (margin wrap_width height : Z) (level : json) (cy : canvas * Z)
  : outcome (canvas * Z) :=
  let (c, y) := cy in
  let c := c ++ [SetFont (lit "Helvetica-Bold") 13] in
  number <- py_get level (lit "level") (JStr (lit "?")) ;;
  title <- py_get level (lit "title") (JStr []) ;;
  hours <- py_get level (lit "estimated_hours") (JInt 0) ;;
  let (c, y) :=
    draw_wrapped c
      (JStr (lit "Level " ++ py_str number ++ lit ": " ++ py_str title
             ++ lit " (Est. " ++ py_str hours ++ lit " hrs)"))
      margin y (lit "Helvetica-Bold") 13 wrap_width in
  let y := (y - 4)%Z in
  let c := c ++ [SetFont (lit "Helvetica") 11] in
  topics <- py_get level (lit "topics") (JList []) ;;
  topics <- py_iter topics ;;
  cy <- for_each topics (pdf_topic margin wrap_width height) (c, y) ;;
  ret (fst cy, (snd cy - 8)%Z).

Definition default_output_path : pystr := lit "roadmap.pdf".

Definition generate_pdf (roadmap_data : json) (output_path : pystr) : M pystr :=
  if negb (REPORTLAB_AVAILABLE env) then
    print [Text (lit "[OutputFormatter] reportlab not installed. Skipping PDF generation.")] ;;
    ret []
  else
    roadmap <- lift (py_get roadmap_data (lit "roadmap") (JDict [])) ;;
    let c : canvas := [] in
    let width := 612%Z in
    let height := 792%Z in
    let margin := 40%Z in
    let y := (height - margin)%Z in
    let wrap_width := (width - 2 * margin)%Z in
    let c := c ++ [SetFont (lit "Helvetica-Bold") 16] in
    title <- lift (py_get roadmap (lit "title") (JStr (lit "GenAI Roadmap"))) ;;
    let (c, y) := draw_wrapped c title margin y (lit "Helvetica-Bold") 16 wrap_width in
    let y := (y - 8)%Z in
    let c := c ++ [SetFont (lit "Helvetica") 12] in
    duration_days <- lift (py_get roadmap (lit "duration_days") (JInt 0)) ;;
    total <- lift (py_get roadmap (lit "total_estimated_hours") (JInt 0)) ;;
    let (c, y) :=
      draw_wrapped c
        (JStr (lit "Duration: " ++ py_str duration_days
               ++ lit " days | Total Hours: " ++ py_str total))
        margin y (lit "Helvetica") 12 wrap_width in
    let y := (y - 12)%Z in
    levels <- lift (py_get roadmap (lit "levels") (JList [])) ;;
    levels <- lift (py_iter levels) ;;
    cy <- lift (for_each levels (pdf_level margin wrap_width height) (c, y)) ;;
    canvas_save (fst cy) output_path ;;
    ret output_path.

(** *** [RoadmapAgent] *)

(** [NamedTemporaryFile(delete=False, suffix=...)]: creates an empty file
    and gives its name. *)
Definition named_temporary_file (suffix : pystr) : M pystr :=
  fun w =>
    let name := temp_file_name env suffix in
    if fs_writable env name then
      (Ret name, {| calls := calls w; stdout := stdout w;
                    files := (name, []) :: files w |})
    else (Raise (OSError name), w).

Definition generate_roadmap
  (resume_text interview_summary_text goals_text : pystr) (want_pdf : bool)
  : M (json * pystr * option pystr) :=
  user_data <- extract_user_data resume_text interview_summary_text goals_text ;;
  pj <- classify_persona user_data ;;
  let persona := fst pj in
  roadmap_data <- plan_roadmap user_data persona ;;
  roadmap_table <- lift (format_table roadmap_data) ;;
  pdf_path <-
    (if want_pdf && REPORTLAB_AVAILABLE env then
       tmp_name <- named_temporary_file (lit ".pdf") ;;
       generate_pdf roadmap_data tmp_name ;;
       ret (Some tmp_name)
     else ret None) ;;
  ret (roadmap_data, roadmap_table, pdf_path).

End Pipeline.

(** ** [file_text_utils.py]: the text of an uploaded file

    [extract_text_from_file] saves an upload in a temporary file, reads
    its text with the reader its extension calls for, and removes the
    temporary file.  The upload, the temporary-file service and the three
    readers ([PyPDF2], [docx2txt], the UTF-8 text reader) are external;
    so are [str.lower] and [os.path.splitext]. *)

Definition bytes := list Byte.byte.

(** The files on the disk: paths and contents. *)
Definition disk := list (pystr * bytes).

(** What the function can raise: [AttributeError] when the upload has no
    file name ([None] has no [lower]), or whatever an external call
    raised, which the function never catches. *)
Inductive file_exn : Type :=
| NoneType_has_no_lower
| External (message : pystr).

Inductive fresult (A : Type) : Type :=
| Ok (a : A)
| Err (e : file_exn).
Arguments Ok {A} a.
Arguments Err {A} e.

(** The [file_storage] object: its [filename], which may be [None], and
    what [save(path)] does: the bytes it leaves in the file, and the
    exception it raises if it fails. *)
Record upload : Type := {
  filename : option pystr;
  save_writes : bytes;
  save_raises : option pystr
}.

Record FileEnv : Type := {
  (** [str.lower] *)
  py_lower : pystr -> pystr;
  (** [os.path.splitext(name)[1]] *)
  splitext_ext : pystr -> pystr;
  (** [NamedTemporaryFile(delete=False, suffix=...)]: the name of the file
      it creates on this disk, or the exception it raises *)
  named_temporary : disk -> pystr -> fresult pystr;
  (** [PyPDF2.PdfReader(f).pages] and [page.extract_text()] of each page,
      which may be [None] *)
  pdf_page_texts : bytes -> fresult (list (option pystr));
  (** [docx2txt.process(path)] *)
  docx2txt_process : bytes -> fresult pystr;
  (** [open(path, 'r', encoding='utf-8').read()] *)
  read_utf8 : bytes -> fresult pystr
}.

(** The state of a call: the disk, and the local variable [temp_path],
    which the [finally] clause reads. *)
Record fstate : Type := {
  files_on_disk : disk;
  temp_path : option pystr
}.

Definition F (A : Type) : Type := fstate -> fresult A * fstate.

#[export] Instance F_monad : Monad F := {
  ret := fun A a s => (Ok a, s);
  bind := fun A B c k s =>
    match c s with
    | (Ok a, s') => k a s'
    | (Err e, s') => (Err e, s')
    end
}.

(** [try: body  finally: cleanup]: the cleanup runs however the body
    ended; an exception of the body is raised again after it. *)
Definition try_finally {A} (body : F A) (cleanup : F unit) : F A :=
  fun s =>
    match body s with
    | (r, s1) =>
        match cleanup s1 with
        | (Ok _, s2) => (r, s2)
        | (Err e, s2) => (Err e, s2)
        end
    end.

Definition disk_lookup (d : disk) (path : pystr) : option bytes :=
  match find (fun entry => pystr_eqb (fst entry) path) d with
  | Some entry => Some (snd entry)
  | None => None
  end.

(** [os.path.exists(path)] *)
Definition path_exists (d : disk) (path : pystr) : bool :=
  match disk_lookup d path with Some _ => true | None => false end.

Definition disk_remove (d : disk) (path : pystr) : disk :=
  filter (fun entry => negb (pystr_eqb (fst entry) path)) d.

(** Writing a file replaces what was at the path. *)
Definition disk_write (d : disk) (path : pystr) (content : bytes) : disk :=
  (path, content) :: disk_remove d path.

Definition set_temp_path (p : option pystr) : F unit :=
  fun s => (Ok tt, {| files_on_disk := files_on_disk s; temp_path := p |}).

Definition get_temp_path : F (option pystr) := fun s => (Ok (temp_path s), s).

Definition raise {A} (e : file_exn) : F A := fun s => (Err e, s).

(** [os.remove(path)]; removing a file that exists is taken to succeed. *)
Definition os_remove (path : pystr) : F unit :=
  fun s => (Ok tt, {| files_on_disk := disk_remove (files_on_disk s) path;
                      temp_path := temp_path s |}).

(** [open(path, ...)] followed by a reader of the file's bytes; a path
    that does not exist raises instead. *)
Definition read_with {A} (reader : bytes -> fresult A) (path : option pystr) : F A :=
  fun s =>
    match path with
    | Some p =>
        match disk_lookup (files_on_disk s) p with
        | Some content => (reader content, s)
        | None => (Err (External (lit "FileNotFoundError")), s)
        end
    | None => (Err (External (lit "TypeError")), s)
    end.

Section FileText.

Variable fenv : FileEnv.

(** [file_storage.filename.lower()] *)
Definition lower_filename (file_storage : upload) : F pystr :=
  match filename file_storage with
  | Some name => ret (py_lower fenv name)
  | None => raise NoneType_has_no_lower
  end.

(** [tempfile.NamedTemporaryFile(delete=False, suffix=suffix)]: an empty
    file under a new name. *)
Definition NamedTemporaryFile (suffix : pystr) : F pystr :=
  fun s =>
    match named_temporary fenv (files_on_disk s) suffix with
    | Ok name =>
        (Ok name, {| files_on_disk := disk_write (files_on_disk s) name [];
                     temp_path := temp_path s |})
    | Err e => (Err e, s)
    end.

(** [file_storage.save(path)] *)
Definition save (file_storage : upload) (path : pystr) : F unit :=
  fun s =>
    let s' := {| files_on_disk :=
                   disk_write (files_on_disk s) path (save_writes file_storage);
                 temp_path := temp_path s |} in
    match save_raises file_storage with
    | None => (Ok tt, s')
    | Some message => (Err (External message), s')
    end.

(** ["\n".join(page.extract_text() or '' for page in reader.pages)] *)
Definition join_pages (pages : list (option pystr)) : pystr :=
  join nl (map (fun page => match page with
                            | Some ((_ :: _) as text) => text
                            | _ => []
                            end) pages).

(** [if temp_path and os.path.exists(temp_path): os.remove(temp_path)] *)
Definition remove_temp_file : F unit :=
  tp <- get_temp_path ;;
  fun s =>
    match tp with
    | Some ((_ :: _) as p) =>
        if path_exists (files_on_disk s) p then os_remove p s else (Ok tt, s)
    | _ => (Ok tt, s)
    end.

Definition extract_text_from_file (file_storage : upload) : F pystr :=
  filename <- lower_filename file_storage ;;
  set_temp_path None ;;
  text <-
    try_finally
      (tmp <- NamedTemporaryFile (splitext_ext fenv filename) ;;
       set_temp_path (Some tmp) ;;
       save file_storage tmp ;;
       p <- get_temp_path ;;
       if endswith filename (lit ".pdf") then
         pages <- read_with (pdf_page_texts fenv) p ;;
         ret (join_pages pages)
       else if endswith filename (lit ".docx") then
         read_with (docx2txt_process fenv) p
       else if endswith filename (lit ".txt") then
         read_with (read_utf8 fenv) p
       else ret [])
      remove_temp_file ;;
  ret (strip text).

(** A call on a disk: what it returns or raises, and the disk it leaves. *)
Definition extract_text_from_file_on (file_storage : upload) (d : disk)
  : fresult pystr * disk :=
  let (r, s) :=
    extract_text_from_file file_storage {| files_on_disk := d; temp_path := None |} in
  (r, files_on_disk s).

End FileText.

(** ** [list_gemini_models.py]: the models an API key can use

    The script is embedded as the computation its top level runs.  The
    value of the environment variable and [genai.list_models()] are
    external. *)

(** What the script reads of a model. *)
Record model_info : Type := {
  model_name : pystr;
  supported_generation_methods : list pystr
}.

(** [genai.list_models()] yields the models one by one and may raise
    before any of them or between two. *)
Inductive listing : Type :=
| Listed_all
| Listed (model : model_info) (rest : listing)
| Listing_fails (e : exn).

Section ListModels.

Variable env : Env.

(** [f"- {model.name} (supported methods: {model.supported_generation_methods})"] *)
Definition model_line (model : model_info) : list fpart :=
  [Text (lit "- " ++ model_name model ++ lit " (supported methods: "
         ++ py_repr env (JList (map JStr (supported_generation_methods model)))
         ++ lit ")")].

(** [for model in models: print(...)] *)
Fixpoint print_models (models : listing) : M unit :=
  match models with
  | Listed_all => ret tt
  | Listed model rest => print (model_line model) ;; print_models rest
  | Listing_fails e => lift (Raise e)
  end.

(** The script: [GEMINI_API_KEY] is the value of the environment
    variable, [None] when it is not set.  [genai.configure] only records
    the key, which [list_models] then uses. *)
Definition list_gemini_models (GEMINI_API_KEY : option pystr)
  (list_models : pystr -> listing) : M unit :=
  let api_key :=
    match GEMINI_API_KEY with
    | Some key => key
    | None => lit "YOUR_GEMINI_API_KEY"
    end in
  print [Text (lit "Available Gemini models for your API key:")] ;;
  try_except
    (print_models (list_models api_key))
    (fun e => print [Text (lit "Error listing models: "); ExnText e]).

End ListModels.

(** ** Vocabulary of the statements *)

(** A fenced code block: the fence and an optional language tag on a line
    of their own, the inner text, and the closing fence on a line of its
    own. *)
Definition fenced_block (tag inner : pystr) : pystr :=
  fence ++ tag ++ nl ++ inner ++ nl ++ fence.


(** No whitespace at either end. *)
Definition trimmed (s : pystr) : Prop := lstrip s = s /\ rstrip s = s.

Definition all_space (s : pystr) : bool := forallb py_isspace s.

(** The request [self.gemini.generate(prompt)] sends. *)
Definition default_request (prompt : pystr) : request :=
  {| req_prompt := prompt;
     req_temperature := default_temperature;
     req_max_output_tokens := default_max_output_tokens |}.

(** What [generate] hands back for a prompt sent after the requests
    [history]: the model's text, trimmed, or the empty string when the
    call raised. *)
Definition reply (env : Env) (history : list request) (prompt : pystr) : pystr :=
  match remote env history (default_request prompt) with
  | Ret text => strip text
  | Raise _ => []
  end.

Definition sent (w : world) (req : request) : world :=
  {| calls := calls w ++ [req]; stdout := stdout w; files := files w |}.

Definition printed (w : world) (line : list fpart) : world :=
  {| calls := calls w; stdout := stdout w ++ [line]; files := files w |}.

(** The world after [self.gemini.generate(prompt)]: one more request, and
    one more printed line if the call raised. *)
Definition after_call (env : Env) (prompt : pystr) (w : world) : world :=
  match remote env (calls w) (default_request prompt) with
  | Ret _ => sent w (default_request prompt)
  | Raise e =>
      printed (sent w (default_request prompt))
        [Text (lit "[GeminiAPI] Error: "); ExnText e]
  end.

(** The line a stage prints when its [try] block raised [e] on the raw
    output [raw]. *)
Definition failure_line (label : string) (e : exn) (raw : pystr) : list fpart :=
  [Text (lit label); ExnText e; Text (nl ++ lit "Raw output: "); Text raw].

(** [v[key]] when [v] is an object that has the key. *)
Definition member (v : json) (key : string) : option json :=
  match v with
  | JDict d => dict_get d (lit key)
  | _ => None
  end.

(** [d.get(key, default)] on the pairs of an object. *)
Definition get_or (d : list (pystr * json)) (key : string) (default : json) : json :=
  match dict_get d (lit key) with
  | Some x => x
  | None => default
  end.

(** *** Shapes of records

    The containers of a roadmap record as the data model describes them:
    the record and its ["roadmap"] are objects, ["levels"] is a list of
    objects, and the ["topics"] of a level a list of objects.  Any field may
    be missing, and the other fields may hold any value. *)

Definition is_object (v : json) : bool :=
  match v with JDict _ => true | _ => false end.


Definition level_ok (level : json) : bool :=
  match level with
  | JDict d =>
      match dict_get d (lit "topics") with
      | None => true
      | Some (JList topics) => forallb is_object topics
      | Some _ => false
      end
  | _ => false
  end.

Definition roadmap_ok (roadmap : json) : bool :=
  match roadmap with
  | JDict d =>
      match dict_get d (lit "levels") with
      | None => true
      | Some (JList levels) => forallb level_ok levels
      | Some _ => false
      end
  | _ => false
  end.

Definition record_ok (roadmap_data : json) : bool :=
  match roadmap_data with
  | JDict d =>
      match dict_get d (lit "roadmap") with
      | None => true
      | Some roadmap => roadmap_ok roadmap
      end
  | _ => false
  end.

(** *** Records with their missing fields filled in

    [fill d key v] adds [key] with the value [v] when [d] lacks it.
    [with_defaults] fills every field [format_table] reads with the value
    the code uses in its place. *)

Definition fill (d : list (pystr * json)) (key : string) (v : json)
  : list (pystr * json) :=
  match dict_get d (lit key) with
  | Some _ => d
  | None => d ++ [(lit key, v)]
  end.

Definition topic_defaults (topic : json) : json :=
  match topic with
  | JDict d =>
      JDict (fill (fill (fill (fill d "topic" (JStr [])) "activity" (JStr []))
                     "estimated_hours" (JInt 0)) "justification" (JStr []))
  | _ => topic
  end.

Definition level_defaults (level : json) : json :=
  match level with
  | JDict d =>
      let topics :=
        match get_or d "topics" (JList []) with
        | JList ts => JList (map topic_defaults ts)
        | other => other
        end in
      JDict (dict_set
               (fill (fill (fill d "level" (JStr (lit "?"))) "title" (JStr []))
                  "estimated_hours" (JInt 0))
               (lit "topics") topics)
  | _ => level
  end.

Definition roadmap_defaults (roadmap : json) : json :=
  match roadmap with
  | JDict d =>
      let levels :=
        match get_or d "levels" (JList []) with
        | JList ls => JList (map level_defaults ls)
        | other => other
        end in
      JDict (dict_set
               (fill (fill (fill d "title" (JStr (lit "GenAI Roadmap")))
                        "duration_days" (JInt 0))
                  "total_estimated_hours" (JInt 0))
               (lit "levels") levels)
  | _ => roadmap
  end.

Definition with_defaults (roadmap_data : json) : json :=
  match roadmap_data with
  | JDict d =>
      JDict (dict_set d (lit "roadmap")
               (roadmap_defaults (get_or d "roadmap" (JDict []))))
  | _ => roadmap_data
  end.

(** *** The table of a roadmap without levels *)

Definition header_block (title days hours : pystr) : pystr :=
  join nl
    [ nl ++ rule equals_sign;
      title;
      lit "Duration: " ++ days ++ lit " days | Total Hours: " ++ hours;
      rule equals_sign;
      rule equals_sign ++ nl ].

(** *** Results with and without their trace *)

(** The result of a run with something attached to the value returned. *)
Definition attach {A B : Type} (f : A -> B) (r : outcome A * world)
  : outcome B * world :=
  (match fst r with Ret a => Ret (f a) | Raise e => Raise e end, snd r).

(** *** The shapes the prompts request *)







(** *** Example responses *)

(** [{"key": value}] as a JSON text, for string values. *)
Definition json_text_pair (key value : string) : pystr :=
  dq ++ lit key ++ dq ++ lit ": " ++ dq ++ lit value ++ dq.

Definition persona_response : pystr :=
  lit "```json" ++ nl
  ++ lit "{" ++ json_text_pair "persona" "Working professional (tech)" ++ lit ", "
  ++ json_text_pair "justification" "Five years of backend work." ++ lit "}" ++ nl
  ++ lit "```".

Definition persona_only_response : pystr :=
  lit "{" ++ json_text_pair "persona" "College student" ++ lit "}".

Definition profile_response : pystr :=
  lit "{" ++ json_text_pair "domain" "backend engineering" ++ lit ", "
  ++ dq ++ lit "weekly_availability_hours" ++ dq ++ lit ": 8}".

Definition topics_response : pystr :=
  lit "[{" ++ json_text_pair "topic" "RAG" ++ lit ", "
  ++ json_text_pair "justification" "Fits backend work." ++ lit "}]".

Definition structure_response : pystr :=
  lit "```" ++ nl
  ++ lit "{" ++ dq ++ lit "duration_days" ++ dq ++ lit ": 21, "
  ++ dq ++ lit "levels" ++ dq ++ lit ": []}" ++ nl
  ++ lit "```".

Definition activities_response : pystr :=
  lit "{" ++ dq ++ lit "levels" ++ dq ++ lit ": [{"
  ++ dq ++ lit "level" ++ dq ++ lit ": 1, "
  ++ json_text_pair "title" "Foundations" ++ lit ", "
  ++ dq ++ lit "estimated_hours" ++ dq ++ lit ": 12, "
  ++ dq ++ lit "topics" ++ dq ++ lit ": [{"
  ++ json_text_pair "topic" "RAG" ++ lit ", "
  ++ json_text_pair "activity" "Build a retriever" ++ lit ", "
  ++ dq ++ lit "estimated_hours" ++ dq ++ lit ": 12, "
  ++ json_text_pair "justification" "Hands-on." ++ lit "}]}], "
  ++ dq ++ lit "total_estimated_hours" ++ dq ++ lit ": 12}".

(** A model that answers every stage of one pipeline run as requested. *)
Definition helpful_model : list (outcome pystr) :=
  [ Ret profile_response; Ret persona_response; Ret topics_response;
    Ret structure_response; Ret activities_response ].

(** *** Records that lack nothing *)

Definition has_keys (v : json) (keys : list string) : bool :=
  forallb (fun k => match member v k with Some _ => true | None => false end) keys.

Definition topic_complete (topic : json) : bool :=
  has_keys topic ["topic"; "activity"; "estimated_hours"; "justification"]%string.

Definition level_complete (level : json) : bool :=
  has_keys level ["level"; "title"; "estimated_hours"; "topics"]%string
  && match member level "topics" with
     | Some (JList topics) => forallb topic_complete topics
     | _ => false
     end.

Definition roadmap_complete (roadmap : json) : bool :=
  has_keys roadmap ["title"; "duration_days"; "total_estimated_hours"; "levels"]%string
  && match member roadmap "levels" with
     | Some (JList levels) => forallb level_complete levels
     | _ => false
     end.

Definition record_complete (roadmap_data : json) : bool :=
  match member roadmap_data "roadmap" with
  | Some roadmap => roadmap_complete roadmap
  | None => false
  end.

(** *** Environments for the examples *)

(** A model that gives the listed answers in turn, whatever it is asked,
    and the empty text afterwards. *)
Definition scripted (answers : list (outcome pystr))
  : list request -> request -> outcome pystr :=
  fun history _ => nth (List.length history) answers (Ret []).

Definition demo_env (answers : list (outcome pystr)) (pdf writable : bool) : Env :=
  {| remote := scripted answers;
     json_dumps := fun _ => lit "<json>";
     py_repr := fun _ => lit "<repr>";
     float_is_zero := fun _ => false;
     REPORTLAB_AVAILABLE := pdf;
     simpleSplit := fun text _ _ _ => [text];
     fs_writable := fun _ => writable;
     temp_file_name := fun suffix => lit "/tmp/roadmap" ++ suffix |}.

Definition fresh : world := {| calls := []; stdout := []; files := [] |}.

(** *** What a stage does once the parser has answered *)

(** What [classify_persona] returns and prints once the parser has
    answered: the two members of an object, and the default pair with a
    printed line otherwise. *)
Definition classified (parsed : option json) (cleaned out : pystr) (w1 : world)
  : outcome (json * json) * world :=
  match parsed with
  | Some (JDict d) =>
      (Ret (get_or d "persona" (JStr []), get_or d "justification" (JStr [])), w1)
  | Some v =>
      (Ret (JStr [], JStr []),
       printed w1 (failure_line "[PersonaClassifier] Failed to parse JSON: "
                     (AttributeError (type_name_of v) (lit "get")) out))
  | None =>
      (Ret (JStr [], JStr []),
       printed w1 (failure_line "[PersonaClassifier] Failed to parse JSON: "
                     (JSONDecodeError cleaned) out))
  end.

(** What a planner step returns and prints once the parser has answered. *)
Definition parsed_or (default : json) (label : string) (out : pystr) (w1 : world)
  : outcome json * world :=
  match json_loads (clean_json_output out) with
  | Some v => (Ret v, w1)
  | None =>
      (Ret default,
       printed w1 (failure_line label (JSONDecodeError (clean_json_output out)) out))
  end.

(** What the parser makes of the text [generate] hands back for a prompt
    sent in the world [w]. *)
Definition parsed_reply (env : Env) (w : world) (prompt : pystr) : option json :=
  json_loads (clean_json_output (reply env (calls w) prompt)).

(** The parsed value, or the default of the stage when there is none. *)
Definition value_or (default : json) (parsed : option json) : json :=
  match parsed with
  | Some v => v
  | None => default
  end.

(** A model that answers every request in prose. *)
Definition refusing_env : Env :=
  demo_env
    (repeat (Ret (lit "Sorry, I cannot help with that.")) 5) false true.

(** *** Texts and the decoder *)

(** Only the whitespace of JSON: space, tab, line feed, carriage return. *)
Definition json_ws (x : pystr) : bool := forallb is_json_ws x.

(** A scanner's result when [x] is appended to the text it scanned without
    being scanned itself. *)
Definition followed_by {A : Type} (x : pystr) (res : scanned (A * pystr))
  : scanned (A * pystr) :=
  match res with
  | Scanned (a, r) => Scanned (a, r ++ x)
  | SyntaxError => SyntaxError
  | OutOfFuel => OutOfFuel
  end.

Definition followed_by_opt {A : Type} (x : pystr) (res : option (A * pystr))
  : option (A * pystr) :=
  match res with
  | Some (a, r) => Some (a, r ++ x)
  | None => None
  end.

(** [consumed s r c]: [r] is what is left of [s] after a prefix that ends
    with the character [c]. *)
Definition consumed (s r : pystr) (c : codepoint) : Prop :=
  exists pre, s = pre ++ c :: r.

(** [digits_then s r]: [r] is what is left of [s] after a prefix that ends
    with a digit. *)
Definition digits_then (s r : pystr) : Prop :=
  exists pre d, s = pre ++ d :: r /\ is_digit d = true.

(** The characters a JSON value can end with. *)
Definition closes (c : codepoint) : bool :=
  is_digit c || is_ascii_letter c || (c =? 34)%N || (c =? 93)%N || (c =? 125)%N.

(** [scanned_to s r]: [r] is what is left of [s] after a prefix that ends
    with such a character. *)
Definition scanned_to (s r : pystr) : Prop :=
  exists c, consumed s r c /\ closes c = true.

(** The characters a JSON text can start with. *)
Definition opens (c : codepoint) : bool :=
  is_digit c || is_ascii_letter c
  || (c =? 34)%N || (c =? 91)%N || (c =? 123)%N || (c =? 45)%N.

(** *** Requests and what the planner assembles *)

(** The first value of a list that is not an object. *)
Definition first_non_object (vs : list json) : option json :=
  find (fun v => negb (is_object v)) vs.

(** The record [plan_roadmap] assembles from a profile, a structure and
    activities that are objects. *)
Definition roadmap_record (env : Env) (persona : json)
  (profile structure activities : list (pystr * json)) : json :=
  JDict
    [ (lit "user_profile_summary",
       JDict [ (lit "persona", persona);
               (lit "domain", get_or profile "domain" (JStr []));
               (lit "goals", get_or profile "goals" (JList []));
               (lit "weekly_availability_hours",
                get_or profile "weekly_availability_hours" (JInt 0)) ]);
      (lit "roadmap",
       JDict [ (lit "title",
                JStr (lit "Personalized GenAI Roadmap for " ++ py_str env persona));
               (lit "duration_days", get_or structure "duration_days" (JInt 30));
               (lit "total_estimated_hours",
                get_or activities "total_estimated_hours" (JInt 0));
               (lit "levels", get_or activities "levels" (JList [])) ]) ].

(** What the assembly gives: the record, or the [AttributeError] of the
    first of the three values that has no [get]. *)
Definition assembled (env : Env) (user_data persona structure activities : json)
  : outcome json :=
  match user_data, structure, activities with
  | JDict d, JDict s, JDict a => Ret (roadmap_record env persona d s a)
  | _, _, _ =>
      match first_non_object [user_data; structure; activities] with
      | Some v => Raise (AttributeError (type_name_of v) (lit "get"))
      | None => Ret JNull
      end
  end.

(** *** The document [generate_pdf] draws *)

(** The canvas [generate_pdf] has drawn when it comes to [c.save()]: what
    the function computes between its guard and the writing of the file. *)
Definition pdf_document (env : Env) (roadmap_data : json) : outcome canvas :=
  roadmap <- py_get roadmap_data (lit "roadmap") (JDict []) ;;
  let c : canvas := [] in
  let width := 612%Z in
  let height := 792%Z in
  let margin := 40%Z in
  let y := (height - margin)%Z in
  let wrap_width := (width - 2 * margin)%Z in
  let c := c ++ [SetFont (lit "Helvetica-Bold") 16] in
  title <- py_get roadmap (lit "title") (JStr (lit "GenAI Roadmap")) ;;
  let (c, y) := draw_wrapped env c title margin y (lit "Helvetica-Bold") 16 wrap_width in
  let y := (y - 8)%Z in
  let c := c ++ [SetFont (lit "Helvetica") 12] in
  duration_days <- py_get roadmap (lit "duration_days") (JInt 0) ;;
  total <- py_get roadmap (lit "total_estimated_hours") (JInt 0) ;;
  let (c, y) :=
    draw_wrapped env c
      (JStr (lit "Duration: " ++ py_str env duration_days
             ++ lit " days | Total Hours: " ++ py_str env total))
      margin y (lit "Helvetica") 12 wrap_width in
  let y := (y - 12)%Z in
  levels <- py_get roadmap (lit "levels") (JList []) ;;
  levels <- py_iter levels ;;
  cy <- for_each levels (pdf_level env margin wrap_width height) (c, y) ;;
  ret (fst cy).

(** Two computations end alike: both return, or both raise the same
    exception. *)
Definition ends_alike {A B : Type} (a : outcome A) (b : outcome B) : Prop :=
  match a, b with
  | Ret _, Ret _ => True
  | Raise e, Raise e' => e = e'
  | _, _ => False
  end.

(** *** The end of a run *)

(** The world once [generate_roadmap] has written its PDF: the temporary
    file as it was created, then the document saved over it. *)
Definition with_pdf (w : world) (path : pystr) (c : canvas) : world :=
  {| calls := calls w; stdout := stdout w;
     files := (path, c) :: (path, []) :: files w |}.

(** What [generate_roadmap] does once the planner has answered: the
    table, then the PDF if it is wanted and the backend is there. *)
Definition finished (env : Env) (want_pdf : bool) (record : outcome json) (w : world)
  : outcome (json * pystr * option pystr) * world :=
  match record with
  | Raise e => (Raise e, w)
  | Ret roadmap_data =>
      match format_table env roadmap_data with
      | Raise e => (Raise e, w)
      | Ret roadmap_table =>
          if want_pdf && REPORTLAB_AVAILABLE env then
            let tmp := temp_file_name env (lit ".pdf") in
            if fs_writable env tmp then
              match pdf_document env roadmap_data with
              | Ret c => (Ret (roadmap_data, roadmap_table, Some tmp), with_pdf w tmp c)
              | Raise e =>
                  (Raise e,
                   {| calls := calls w; stdout := stdout w;
                      files := (tmp, []) :: files w |})
              end
            else (Raise (OSError tmp), w)
          else (Ret (roadmap_data, roadmap_table, None), w)
      end
  end.

(** The exceptions that come of reading a value of the wrong kind. *)
Definition wrong_kind (e : exn) : bool :=
  match e with
  | AttributeError _ _ | TypeError_not_iterable _ => true
  | _ => false
  end.

(** The world after a stage whose model call raised [e]: the request
    sent, the client's line and the stage's line printed. *)
Definition after_failed_call (w : world) (prompt : pystr) (e : exn) (label : string)
  : world :=
  {| calls := calls w ++ [default_request prompt];
     stdout := stdout w
               ++ [ [Text (lit "[GeminiAPI] Error: "); ExnText e];
                    failure_line label (JSONDecodeError []) [] ];
     files := files w |}.

(** *** Lines on a page *)

(** The [drawString] calls of one [draw_wrapped]: one line every
    [line_space] points, downwards from [y]. *)
Fixpoint draw_lines (x y : Z) (lines : list pystr) : canvas :=
  match lines with
  | [] => []
  | line :: rest => DrawString x y line :: draw_lines x (y - line_space) rest
  end.


(** How many times a canvas turns the page. *)
Definition page_breaks (c : canvas) : nat :=
  List.length (filter (fun op => match op with ShowPage => true | _ => false end) c).


(** *** The lines of the table *)

(** A member of an object as the table shows it: [str] of the value, or of
    the default when the object lacks the key. *)
Definition shown (env : Env) (v : json) (key : string) (default : json) : pystr :=
  py_str env (match member v key with Some x => x | None => default end).

(** The items of a member that is a list. *)
Definition items_of (v : json) (key : string) : list json :=
  match member v key with
  | Some (JList l) => l
  | _ => []
  end.

Definition table_topic (env : Env) (topic : json) : list pystr :=
  [ lit "- Topic: " ++ shown env topic "topic" (JStr []);
    lit "  Activity: " ++ shown env topic "activity" (JStr []);
    lit "  Est. Hours: " ++ shown env topic "estimated_hours" (JInt 0);
    lit "  Justification: " ++ shown env topic "justification" (JStr []) ++ nl ].

Definition table_level (env : Env) (level : json) : list pystr :=
  (nl ++ lit "Level " ++ shown env level "level" (JStr (lit "?")) ++ lit ": "
   ++ shown env level "title" (JStr [])
   ++ lit " (Est. " ++ shown env level "estimated_hours" (JInt 0) ++ lit " hrs)")
  :: rule hyphen
  :: flat_map (table_topic env) (items_of level "topics").

Definition table_lines (env : Env) (roadmap : json) : list pystr :=
  [ nl ++ rule equals_sign;
    shown env roadmap "title" (JStr (lit "GenAI Roadmap"));
    lit "Duration: " ++ shown env roadmap "duration_days" (JInt 0)
    ++ lit " days | Total Hours: " ++ shown env roadmap "total_estimated_hours" (JInt 0);
    rule equals_sign ]
  ++ flat_map (table_level env) (items_of roadmap "levels")
  ++ [ rule equals_sign ++ nl ].

(** The roadmap of a record: its ["roadmap"] member, or the empty object. *)
Definition roadmap_of (roadmap_data : json) : json :=
  match member roadmap_data "roadmap" with
  | Some roadmap => roadmap
  | None => JDict []
  end.

(** *** Pieces of a text *)

(** [part] occurs in [whole] as one piece. *)
Definition infix (part whole : pystr) : Prop :=
  exists before after, whole = before ++ part ++ after.

(** The characters a JSON value can begin with: a quote, a bracket, a
    brace, a minus sign, a digit, or the first letter of [null], [true],
    [false], [NaN] or [Infinity]. *)
Definition json_start (c : codepoint) : bool :=
  is_digit c
  || existsb (N.eqb c) [34; 91; 123; 45; 110; 116; 102; 78; 73]%N.

(** A text that is empty or begins with JSON whitespace. *)
Definition ws_led (x : pystr) : bool :=
  match x with
  | [] => true
  | w :: _ => is_json_ws w
  end.

(** *** Models that fence their replies *)

(** The same model, writing each of its replies inside a fenced block with
    the tag [tag], between the whitespace [ws1] and [ws2]. *)
Definition fencing (env : Env) (ws1 tag ws2 : pystr) : Env :=
  {| remote := fun history req =>
                 match remote env history req with
                 | Ret text => Ret (ws1 ++ fenced_block tag text ++ ws2)
                 | Raise e => Raise e
                 end;
     json_dumps := json_dumps env;
     py_repr := py_repr env;
     float_is_zero := float_is_zero env;
     REPORTLAB_AVAILABLE := REPORTLAB_AVAILABLE env;
     simpleSplit := simpleSplit env;
     fs_writable := fs_writable env;
     temp_file_name := temp_file_name env |}.

(** Every reply of the model is a text that [json.loads] accepts. *)
Definition answers_in_json (env : Env) : Prop :=
  forall history req text,
    remote env history req = Ret text -> exists v, json_loads text = Some v.

(** Two worlds with the same requests sent and the same files written;
    the lines printed may differ. *)
Definition same_but_output (w w' : world) : Prop :=
  calls w = calls w' /\ files w = files w'.

(** Two runs that end alike: the same result, or the same exception, in
    worlds that differ in the lines printed at most. *)
Definition alike {A : Type} (a b : outcome A * world) : Prop :=
  fst a = fst b /\ same_but_output (snd a) (snd b).

(** A model that gives the same answer to every request. *)
Definition always_answers (text : pystr) : Env :=
  {| remote := fun _ _ => Ret text;
     json_dumps := fun _ => lit "<json>";
     py_repr := fun _ => lit "<repr>";
     float_is_zero := fun _ => false;
     REPORTLAB_AVAILABLE := false;
     simpleSplit := fun text _ _ _ => [text];
     fs_writable := fun _ => true;
     temp_file_name := fun suffix => lit "/tmp/roadmap" ++ suffix |}.

(** *** The upload reader *)

(** What the call does once the upload has a file name, a temporary file
    [tmp] and has been saved: the reader its extension calls for, or
    nothing. *)
Definition text_of (fenv : FileEnv) (name : pystr) (content : bytes) : fresult pystr :=
  if endswith name (lit ".pdf") then
    match pdf_page_texts fenv content with
    | Ok pages => Ok (join_pages pages)
    | Err e => Err e
    end
  else if endswith name (lit ".docx") then docx2txt_process fenv content
  else if endswith name (lit ".txt") then read_utf8 fenv content
  else Ok [].

(** A page without text: [extract_text()] gave [None], the empty string
    or whitespace only. *)
Definition blank_page (page : option pystr) : bool :=
  match page with
  | Some text => all_space text
  | None => true
  end.

(** The extensions [extract_text_from_file] reads. *)
Definition supported (name : pystr) : bool :=
  endswith name (lit ".pdf") || endswith name (lit ".docx")
  || endswith name (lit ".txt").

(** A file service for the examples: the temporary file is named after
    the suffix; the readers give one blank page, one line, one word. *)
Definition demo_fenv : FileEnv :=
  {| py_lower := fun s => s;
     splitext_ext := fun _ => lit ".pdf";
     named_temporary := fun _ suffix => Ok (lit "/tmp/upload" ++ suffix);
     pdf_page_texts := fun _ => Ok [None; Some (lit "  ")];
     docx2txt_process := fun _ => Ok (lit " one line ");
     read_utf8 := fun _ => Err (External (lit "UnicodeDecodeError")) |}.

(** *** The listing script *)

(** The models a listing yields before it ends or fails, and the
    exception it fails with. *)
Fixpoint yielded (models : listing) : list model_info :=
  match models with
  | Listed model rest => model :: yielded rest
  | _ => []
  end.

Fixpoint failure (models : listing) : option exn :=
  match models with
  | Listed_all => None
  | Listed _ rest => failure rest
  | Listing_fails e => Some e
  end.

(** The world with more lines printed. *)
Definition printed_all (w : world) (lines : list (list fpart)) : world :=
  {| calls := calls w; stdout := stdout w ++ lines; files := files w |}.

(** ** Tactics *)

(** Unfolds the monad operations of a stage. *)
Ltac run :=
  cbv beta iota zeta delta
    [bind ret M_monad outcome_monad lift try_except print loads].

(** * Properties *)

(** ** Strings *)

Lemma lstrip_idem (s : pystr) : lstrip (lstrip s) = lstrip s.
Proof.
  induction s as [|c r IH]; simpl; [reflexivity|].
  destruct (py_isspace c) eqn:E; [exact IH|].
  simpl. rewrite E. reflexivity.
Qed.

Lemma lstrip_all_space (ws s : pystr) :
  all_space ws = true -> lstrip (ws ++ s) = lstrip s.
Proof.
  induction ws as [|c r IH]; simpl; intros H; [reflexivity|].
  apply andb_true_iff in H as [Hc Hr]. rewrite Hc. auto.
Qed.

Lemma lstrip_nonspace (c : codepoint) (s : pystr) :
  py_isspace c = false -> lstrip (c :: s) = c :: s.
Proof. intros H. simpl. rewrite H. reflexivity. Qed.

(** The result of [lstrip] is empty or starts with a character that is not
    whitespace. *)
Lemma lstrip_head (s : pystr) :
  lstrip s = [] \/ exists c r, lstrip s = c :: r /\ py_isspace c = false.
Proof.
  induction s as [|c r IH]; simpl; [left; reflexivity|].
  destruct (py_isspace c) eqn:E; [exact IH|].
  right. exists c, r. split; [reflexivity|exact E].
Qed.

Lemma lstrip_nil_all_space (s : pystr) : lstrip s = [] -> all_space s = true.
Proof.
  induction s as [|c r IH]; simpl; [reflexivity|].
  destruct (py_isspace c) eqn:E; [auto|discriminate].
Qed.

Lemma all_space_rev (s : pystr) : all_space (rev s) = all_space s.
Proof.
  unfold all_space. induction s as [|c r IH]; simpl; [reflexivity|].
  rewrite forallb_app, IH. simpl. rewrite andb_true_r. apply andb_comm.
Qed.

Lemma rstrip_all_space (s ws : pystr) :
  all_space ws = true -> rstrip (s ++ ws) = rstrip s.
Proof.
  intros H. unfold rstrip. rewrite rev_app_distr, lstrip_all_space; [reflexivity|].
  rewrite all_space_rev. exact H.
Qed.

Lemma rstrip_idem (s : pystr) : rstrip (rstrip s) = rstrip s.
Proof. unfold rstrip. rewrite rev_involutive, lstrip_idem. reflexivity. Qed.

Lemma rstrip_snoc_nonspace (s : pystr) (c : codepoint) :
  py_isspace c = false -> rstrip (s ++ [c]) = s ++ [c].
Proof.
  intros H. unfold rstrip. rewrite rev_app_distr. simpl. rewrite H.
  simpl. rewrite rev_involutive. reflexivity.
Qed.

(** [rstrip] cuts a suffix of whitespace and nothing else. *)
Lemma rstrip_split (s : pystr) :
  exists ws, all_space ws = true /\ s = rstrip s ++ ws.
Proof.
  unfold rstrip.
  assert (G : forall t, exists ws, all_space ws = true /\ t = ws ++ lstrip t).
  { induction t as [|c r [ws [Hws Hr]]]; simpl.
    - exists []. split; reflexivity.
    - destruct (py_isspace c) eqn:E.
      + exists (c :: ws). simpl. rewrite E, Hws. split; [reflexivity|].
        f_equal. exact Hr.
      + exists []. split; reflexivity. }
  destruct (G (rev s)) as [ws [Hws Hr]].
  exists (rev ws). split; [rewrite all_space_rev; exact Hws|].
  rewrite <- rev_app_distr, <- Hr, rev_involutive. reflexivity.
Qed.

(** Trimming on the right keeps a first character that is not whitespace. *)
Lemma rstrip_keeps_head (c : codepoint) (r : pystr) :
  py_isspace c = false -> exists r', rstrip (c :: r) = c :: r'.
Proof.
  intros H. destruct (rstrip_split (c :: r)) as [ws [Hws Hs]].
  destruct (rstrip (c :: r)) as [|x r'] eqn:E.
  - simpl in Hs. subst ws. simpl in Hws. rewrite H in Hws. discriminate.
  - simpl in Hs. injection Hs as Hx _. subst x. exists r'. reflexivity.
Qed.

Lemma strip_trimmed (s : pystr) : trimmed (strip s).
Proof.
  unfold trimmed, strip. split; [|apply rstrip_idem].
  destruct (lstrip_head s) as [E | [c [r [E Hc]]]]; rewrite E.
  - reflexivity.
  - destruct (rstrip_keeps_head c r Hc) as [r' Hr]. rewrite Hr.
    apply lstrip_nonspace. exact Hc.
Qed.

Lemma strip_of_trimmed (s : pystr) : trimmed s -> strip s = s.
Proof. intros [Hl Hr]. unfold strip. rewrite Hl. exact Hr. Qed.

Lemma strip_idem (s : pystr) : strip (strip s) = strip s.
Proof. apply strip_of_trimmed, strip_trimmed. Qed.

(** Whitespace around a text that starts and ends with other characters is
    all that [strip] removes. *)
Lemma strip_padded (ws1 ws2 body : pystr) (a z : codepoint) :
  all_space ws1 = true -> all_space ws2 = true ->
  py_isspace a = false -> py_isspace z = false ->
  strip (ws1 ++ (a :: body ++ [z]) ++ ws2) = a :: body ++ [z].
Proof.
  intros H1 H2 Ha Hz. unfold strip.
  rewrite lstrip_all_space by exact H1.
  change ((a :: body ++ [z]) ++ ws2) with (a :: (body ++ [z]) ++ ws2).
  rewrite lstrip_nonspace by exact Ha.
  change (a :: (body ++ [z]) ++ ws2) with ((a :: body ++ [z]) ++ ws2).
  rewrite rstrip_all_space by exact H2.
  change (a :: body ++ [z]) with ((a :: body) ++ [z]).
  apply rstrip_snoc_nonspace. exact Hz.
Qed.

Lemma strip_app_space (s ws : pystr) :
  all_space ws = true -> strip (s ++ ws) = strip s.
Proof.
  intros H. unfold strip.
  destruct (lstrip_head s) as [E | [c [r [E Hc]]]].
  - assert (Hs : all_space (s ++ ws) = true).
    { unfold all_space. rewrite forallb_app.
      apply lstrip_nil_all_space in E. unfold all_space in E, H.
      rewrite E, H. reflexivity. }
    rewrite E. rewrite <- (app_nil_r (s ++ ws)).
    rewrite lstrip_all_space by exact Hs. reflexivity.
  - assert (G : lstrip (s ++ ws) = lstrip s ++ ws).
    { clear H. revert E. induction s as [|x s' IH]; simpl; [discriminate|].
      destruct (py_isspace x) eqn:Ex; intros E'; [auto|reflexivity]. }
    rewrite G. apply rstrip_all_space. exact H.
Qed.

Lemma startswith_app (p s : pystr) : startswith (p ++ s) p = true.
Proof.
  induction p as [|x p IH]; simpl; [destruct s; reflexivity|].
  rewrite N.eqb_refl. exact IH.
Qed.

Lemma endswith_app (s p : pystr) : endswith (s ++ p) p = true.
Proof. unfold endswith. rewrite rev_app_distr. apply startswith_app. Qed.

Lemma drop_last_app (s p : pystr) : drop_last (List.length p) (s ++ p) = s.
Proof.
  unfold drop_last. rewrite length_app.
  replace (List.length s + List.length p - List.length p)%nat
    with (List.length s + 0)%nat by lia.
  rewrite firstn_app_2. simpl. apply app_nil_r.
Qed.

Lemma drop_while_letters (tag rest : pystr) :
  forallb is_ascii_letter tag = true ->
  drop_while is_ascii_letter (tag ++ nl ++ rest) = nl ++ rest.
Proof.
  induction tag as [|c r IH]; simpl; intros H; [reflexivity|].
  apply andb_true_iff in H as [Hc Hr]. rewrite Hc. auto.
Qed.

Lemma startswith_length (s p : pystr) :
  startswith s p = true -> (List.length p <= List.length s)%nat.
Proof.
  revert s. induction p as [|x p IH]; intros [|y s]; simpl; try lia; try discriminate.
  intros H. apply andb_true_iff in H as [_ H]. apply IH in H. lia.
Qed.

(** ** The JSON decoder

    Every scanner consumes at least one character, so the fuel
    [json_loads] provides is never used up, and more fuel changes
    nothing. *)

Lemma skip_ws_length (s : pystr) : (List.length (skip_ws s) <= List.length s)%nat.
Proof.
  induction s as [|c r IH]; simpl; [lia|].
  destruct (is_json_ws c); simpl; lia.
Qed.

Lemma skip_ws_eq_length (s t : pystr) :
  skip_ws s = t -> (List.length t <= List.length s)%nat.
Proof. intros <-. apply skip_ws_length. Qed.

Lemma span_length (p : codepoint -> bool) (s : pystr) :
  (List.length (snd (span p s)) <= List.length s)%nat.
Proof.
  induction s as [|c r IH]; simpl; [lia|].
  destruct (p c); [|simpl; lia].
  destruct (span p r). simpl in *. lia.
Qed.

Lemma span_snd_length (p : codepoint -> bool) (s a b : pystr) :
  span p s = (a, b) -> (List.length b <= List.length s)%nat.
Proof. intros H. pose proof (span_length p s) as G. rewrite H in G. exact G. Qed.

Lemma scan_chars_progress_bounded (n : nat) :
  forall s cs r, (List.length s <= n)%nat ->
    scan_chars s = Some (cs, r) -> (List.length r < List.length s)%nat.
Proof.
  induction n as [|n IH]; intros s cs r Hle H.
  - destruct s; [discriminate H|simpl in Hle; lia].
  - destruct s as [|c s]; [discriminate H|]. simpl in Hle.
    assert (IH' : forall t cs r, (List.length t <= List.length s)%nat ->
                    scan_chars t = Some (cs, r) ->
                    (List.length r < List.length t)%nat).
    { intros t cs' r' Ht Hs. apply (IH t cs' r'); [lia|exact Hs]. }
    cbn [scan_chars] in H. cbn [List.length].
    repeat match type of H with
           | context [if ?b then _ else _] => destruct b
           | context [match scan_chars ?t with _ => _ end] =>
               let E := fresh "E" in
               destruct (scan_chars t) as [[? ?]|] eqn:E;
               [apply IH' in E; [|cbn [List.length]; lia]|]
           | context [match ?x with _ => _ end] => destruct x; cbn [List.length] in *
           end;
      try discriminate H; injection H as <- <-; cbn [List.length] in *; lia.
Qed.

Lemma scanstring_progress (s str r : pystr) :
  scanstring s = Some (str, r) -> (List.length r < List.length s)%nat.
Proof.
  unfold scanstring. destruct (scan_chars s) as [[cs rest]|] eqn:E; [|discriminate].
  intros H. injection H as _ <-.
  apply (scan_chars_progress_bounded (List.length s)) in E; [exact E|lia].
Qed.

Ltac crunch H :=
  repeat match type of H with
         | context [match ?x with _ => _ end] => is_var x; destruct x
         | context [span ?p ?t] =>
             let E := fresh "E" in
             destruct (span p t) as [? ?] eqn:E; apply span_snd_length in E
         | context [if ?b then _ else _] => destruct b
         | context [match ?x with _ => _ end] => destruct x
         end.

Lemma match_number_progress (s : pystr) (v : json) (r : pystr) :
  match_number s = Some (v, r) -> (List.length r < List.length s)%nat.
Proof.
  unfold match_number, number_sign, number_int, number_frac, number_exp.
  intros H. crunch H;
    try discriminate H; injection H as <- <-; cbn [List.length] in *; lia.
Qed.

Ltac scan_crunch H IHs :=
  repeat match type of H with
         | context [scanstring ?t] =>
             let E := fresh "E" in
             destruct (scanstring t) as [[? ?]|] eqn:E;
             [apply scanstring_progress in E|]
         | context [skip_ws ?t] =>
             let E := fresh "E" in
             destruct (skip_ws t) eqn:E; apply skip_ws_eq_length in E
         | context [match_number ?t] =>
             let E := fresh "E" in
             destruct (match_number t) as [[? ?]|] eqn:E;
             [apply match_number_progress in E|]
         | context [scan_once ?f ?t] =>
             let E := fresh "E" in
             destruct (scan_once f t) as [[? ?]| |] eqn:E; [apply IHs in E| |]
         | context [startswith ?t ?p] =>
             let E := fresh "E" in
             destruct (startswith t p) eqn:E; [apply startswith_length in E|]
         | context [if ?b then _ else _] => destruct b
         | context [skipn ?n ?t] =>
             let z := fresh "z" in
             let Ez := fresh "Ez" in
             remember (skipn n t) as z eqn:Ez;
             apply (f_equal (@List.length _)) in Ez;
             rewrite length_skipn in Ez
         end.

Ltac unfold_scan H :=
  cbn -[skipn startswith scanstring match_number skip_ws lit] in H.

Lemma scan_progress (fuel : nat) :
  (forall s v r, scan_once fuel s = Scanned (v, r) ->
     (List.length r < List.length s)%nat)
  /\ (forall acc s v r, parse_array fuel acc s = Scanned (v, r) ->
        (List.length r < List.length s)%nat)
  /\ (forall acc s v r, parse_object fuel acc s = Scanned (v, r) ->
        (List.length r < List.length s)%nat).
Proof.
  induction fuel as [|f [IHs [IHa IHo]]].
  - repeat split; intros; discriminate.
  - split; [|split].
    + intros s v r H. destruct s as [|c s]; [discriminate H|].
      unfold_scan H.
      scan_crunch H IHs;
        try discriminate H;
        try (apply IHa in H); try (apply IHo in H);
        try (injection H as <- <-);
        rewrite ?length_skipn in *;
        cbn [List.length lit] in *; lia.
    + intros acc s v r H. unfold_scan H.
      scan_crunch H IHs;
        try discriminate H;
        try (apply IHa in H); try (injection H as <- <-);
        cbn [List.length] in *; lia.
    + intros acc s v r H. unfold_scan H.
      scan_crunch H IHs;
        try discriminate H;
        try (apply IHo in H); try (injection H as <- <-);
        cbn [List.length] in *; lia.
Qed.

Lemma scan_fuel_enough (fuel : nat) :
  (forall s, (2 * List.length s < fuel)%nat -> scan_once fuel s <> OutOfFuel)
  /\ (forall acc s, (2 * List.length s + 1 < fuel)%nat ->
        parse_array fuel acc s <> OutOfFuel)
  /\ (forall acc s, (2 * List.length s + 1 < fuel)%nat ->
        parse_object fuel acc s <> OutOfFuel).
Proof.
  induction fuel as [|f [IHs [IHa IHo]]].
  - repeat split; intros; lia.
  - destruct (scan_progress f) as [Ps _].
    split; [|split].
    + intros s Hf H. destruct s as [|c s]; [discriminate H|].
      unfold_scan H. cbn [List.length] in Hf.
      scan_crunch H Ps; try discriminate H;
        first [ apply IHa in H | apply IHo in H ]; try exact H;
        cbn [List.length] in *; lia.
    + intros acc s Hf H. unfold_scan H.
      repeat match type of H with
             | context [scan_once ?f ?t] =>
                 let E := fresh "E" in
                 destruct (scan_once f t) as [[? ?]| |] eqn:E;
                 [apply Ps in E| |apply IHs in E; [exact E|lia]]
             | context [skip_ws ?t] =>
                 let E := fresh "E" in
                 destruct (skip_ws t) eqn:E; apply skip_ws_eq_length in E
             | context [if ?b then _ else _] => destruct b
             end; try discriminate H;
        (apply IHa in H; [exact H|cbn [List.length] in *; lia]).
    + intros acc s Hf H. unfold_scan H.
      repeat match type of H with
             | context [scanstring ?t] =>
                 let E := fresh "E" in
                 destruct (scanstring t) as [[? ?]|] eqn:E;
                 [apply scanstring_progress in E|]
             | context [skip_ws ?t] =>
                 let E := fresh "E" in
                 destruct (skip_ws t) eqn:E; apply skip_ws_eq_length in E
             | context [scan_once ?f ?t] =>
                 let E := fresh "E" in
                 destruct (scan_once f t) as [[? ?]| |] eqn:E;
                 [apply Ps in E|
                 |apply IHs in E; [exact E|cbn [List.length] in *; lia]]
             | context [if ?b then _ else _] => destruct b
             end; try discriminate H;
        (apply IHo in H; [exact H|cbn [List.length] in *; lia]).
Qed.

(** X6.  The fuel [json_loads] gives the scanner is never used up: the
    model of the decoder answers on every text, and a [None] is always a
    syntax error. *)
Theorem json_loads_fuel (s : pystr) :
  match scan_once (S (2 * List.length s)) (skip_ws s) with
  | OutOfFuel => False
  | _ => True
  end.
Proof.
  destruct (scan_once (S (2 * List.length s)) (skip_ws s)) eqn:E; try exact I.
  destruct (scan_fuel_enough (S (2 * List.length s))) as [H _].
  apply (H (skip_ws s)); [|exact E].
  pose proof (skip_ws_length s). lia.
Qed.

(** One more unit of fuel does not change a result that did not run out. *)
Lemma scan_more_fuel (fuel : nat) :
  (forall s, scan_once fuel s <> OutOfFuel ->
     scan_once (S fuel) s = scan_once fuel s)
  /\ (forall acc s, parse_array fuel acc s <> OutOfFuel ->
        parse_array (S fuel) acc s = parse_array fuel acc s)
  /\ (forall acc s, parse_object fuel acc s <> OutOfFuel ->
        parse_object (S fuel) acc s = parse_object fuel acc s).
Proof.
  induction fuel as [|f [IHs [IHa IHo]]].
  - repeat split; intros; exfalso; apply H; reflexivity.
  - split; [|split].
    + intros s H. destruct s as [|c s]; [reflexivity|].
      revert H. generalize (eq_refl (S f)). generalize (S f) at 1 4.
      intros g Eg.
      cbn -[skipn startswith scanstring match_number skip_ws lit].
      repeat match goal with
             | |- context [scanstring ?t] => destruct (scanstring t) as [[? ?]|]
             | |- context [skip_ws ?t] => destruct (skip_ws t)
             | |- context [if ?b then _ else _] => destruct b
             end; intros H; try reflexivity; subst g;
        first [apply IHa; exact H | apply IHo; exact H].
    + intros acc s H. revert H. generalize (eq_refl (S f)).
      generalize (S f) at 1 4. intros g Eg.
      cbn -[skipn startswith scanstring match_number skip_ws lit].
      intros H.
      assert (E : scan_once g s = scan_once f s).
      { subst g. apply IHs. intros E. rewrite E in H. apply H. reflexivity. }
      rewrite E. destruct (scan_once f s) as [[v r]| |]; try reflexivity.
      destruct (skip_ws r) as [|x r1]; [reflexivity|].
      destruct (x =? 93)%N; [reflexivity|].
      destruct (x =? 44)%N; [|reflexivity].
      subst g. apply IHa. exact H.
    + intros acc s H. revert H. generalize (eq_refl (S f)).
      generalize (S f) at 1 4. intros g Eg.
      cbn -[skipn startswith scanstring match_number skip_ws lit].
      destruct (scanstring s) as [[key r]|]; [|reflexivity].
      destruct (skip_ws r) as [|x r1]; [reflexivity|].
      destruct (x =? 58)%N; [|reflexivity].
      intros H.
      assert (E : scan_once g (skip_ws r1) = scan_once f (skip_ws r1)).
      { subst g. apply IHs. intros E. rewrite E in H. apply H. reflexivity. }
      rewrite E. destruct (scan_once f (skip_ws r1)) as [[v r2]| |]; try reflexivity.
      destruct (skip_ws r2) as [|y r3]; [reflexivity|].
      destruct (y =? 125)%N; [reflexivity|].
      destruct (y =? 44)%N; [|reflexivity].
      destruct (skip_ws r3) as [|q r4]; [reflexivity|].
      destruct (q =? 34)%N; [|reflexivity].
      subst g. apply IHo. exact H.
Qed.

(** Any fuel beyond twice the length of the text gives the same result. *)
Lemma scan_once_any_fuel (s : pystr) (k : nat) :
  scan_once (S (2 * List.length s) + k) s = scan_once (S (2 * List.length s)) s.
Proof.
  induction k as [|k IH].
  - rewrite Nat.add_0_r. reflexivity.
  - rewrite Nat.add_succ_r, <- IH.
    apply (proj1 (scan_more_fuel _)).
    apply (proj1 (scan_fuel_enough _)). lia.
Qed.

(** *** Whitespace after a text

    Appending JSON whitespace to a text leaves every scanner's result as
    it was, the whitespace joining the rest. *)

Lemma json_ws_cases (c : codepoint) :
  is_json_ws c = true -> c = 32%N \/ c = 9%N \/ c = 10%N \/ c = 13%N.
Proof.
  unfold is_json_ws. intros H.
  repeat (apply orb_true_iff in H as [H|H]); apply N.eqb_eq in H; auto.
Qed.

Ltac ws_char w H :=
  let C := fresh "C" in
  destruct (json_ws_cases w H) as [C|[C|[C|C]]]; subst w.

Lemma json_ws_cons (c : codepoint) (x : pystr) :
  json_ws (c :: x) = true -> is_json_ws c = true /\ json_ws x = true.
Proof. unfold json_ws. simpl. intros H. apply andb_true_iff in H. exact H. Qed.

Lemma skip_ws_all (x : pystr) : json_ws x = true -> skip_ws x = [].
Proof.
  induction x as [|c x IH]; [reflexivity|].
  intros H. apply json_ws_cons in H as [Hc Hx]. simpl. rewrite Hc. auto.
Qed.

Lemma skip_ws_app (s x : pystr) :
  json_ws x = true ->
  skip_ws (s ++ x) = match skip_ws s with [] => [] | t => t ++ x end.
Proof.
  intros Hx. induction s as [|c s IH]; simpl.
  - apply skip_ws_all. exact Hx.
  - destruct (is_json_ws c); [exact IH|reflexivity].
Qed.

Lemma scan_chars_ws (x : pystr) : json_ws x = true -> scan_chars x = None.
Proof.
  induction x as [|c x IH]; [reflexivity|].
  intros H. apply json_ws_cons in H as [Hc Hx].
  ws_char c Hc; cbn; try reflexivity. rewrite (IH Hx). reflexivity.
Qed.

Lemma hex_value_ws (c : codepoint) : is_json_ws c = true -> hex_value c = None.
Proof. intros H. ws_char c H; reflexivity. Qed.

Lemma hex4_ws (a b c d : codepoint) :
  is_json_ws a = true \/ is_json_ws b = true \/ is_json_ws c = true
  \/ is_json_ws d = true ->
  hex4 a b c d = None.
Proof.
  unfold hex4. intros [H|[H|[H|H]]]; rewrite (hex_value_ws _ H);
    repeat match goal with |- context [hex_value ?t] => destruct (hex_value t) end;
    reflexivity.
Qed.

Lemma scan_chars_app_bounded (n : nat) (x : pystr) :
  json_ws x = true ->
  forall s, (List.length s <= n)%nat ->
    scan_chars (s ++ x) = followed_by_opt x (scan_chars s).
Proof.
  intros Hx. induction n as [|n IH]; intros s Hle.
  - destruct s; [|simpl in Hle; lia]. simpl. apply scan_chars_ws. exact Hx.
  - destruct s as [|c s]; [simpl; apply scan_chars_ws; exact Hx|].
    simpl in Hle.
    assert (IH' : forall t, (List.length t <= List.length s)%nat ->
                    scan_chars (t ++ x) = followed_by_opt x (scan_chars t)).
    { intros t Ht. apply IH. lia. }
    cbn [app scan_chars].
    destruct (c =? 34)%N; [reflexivity|].
    destruct (c <? 32)%N; [reflexivity|].
    destruct (c =? 92)%N.
    + destruct s as [|e r1].
      * (* the backslash is the last character *)
        cbn [app]. destruct x as [|w x']; [reflexivity|].
        apply json_ws_cons in Hx as [Hw _]. ws_char w Hw; reflexivity.
      * cbn [app]. destruct (e =? 117)%N.
        -- (* a unicode escape: four digits, all in the text, or none *)
           destruct r1 as [|h1 [|h2 [|h3 [|h4 r2]]]]; cbn [app].
           ++ destruct x as [|w1 [|w2 [|w3 [|w4 x']]]]; try reflexivity.
              apply json_ws_cons in Hx as [Hw _].
              rewrite hex4_ws by auto. reflexivity.
           ++ destruct x as [|w1 [|w2 [|w3 x']]]; try reflexivity.
              apply json_ws_cons in Hx as [Hw _].
              rewrite hex4_ws by auto. reflexivity.
           ++ destruct x as [|w1 [|w2 x']]; try reflexivity.
              apply json_ws_cons in Hx as [Hw _].
              rewrite hex4_ws by auto. reflexivity.
           ++ destruct x as [|w1 x']; try reflexivity.
              apply json_ws_cons in Hx as [Hw _].
              rewrite hex4_ws by auto. reflexivity.
           ++ destruct (hex4 h1 h2 h3 h4); [|reflexivity].
              rewrite IH' by (cbn [List.length]; lia).
              destruct (scan_chars r2) as [[? ?]|]; reflexivity.
        -- destruct (simple_escape e); [|reflexivity].
           rewrite IH' by (cbn [List.length]; lia).
           destruct (scan_chars r1) as [[? ?]|]; reflexivity.
    + rewrite IH' by lia. destruct (scan_chars s) as [[? ?]|]; reflexivity.
Qed.

Lemma scanstring_app (s x : pystr) :
  json_ws x = true -> scanstring (s ++ x) = followed_by_opt x (scanstring s).
Proof.
  intros Hx. unfold scanstring.
  rewrite (scan_chars_app_bounded (List.length s) x Hx s (le_n _)).
  destruct (scan_chars s) as [[? ?]|]; reflexivity.
Qed.

Lemma span_app (p : codepoint -> bool) (s x : pystr) :
  (forall c, is_json_ws c = true -> p c = false) ->
  json_ws x = true ->
  span p (s ++ x) = (fst (span p s), snd (span p s) ++ x).
Proof.
  intros Hp Hx. induction s as [|c s IH]; cbn [app span].
  - destruct x as [|w x']; [reflexivity|].
    apply json_ws_cons in Hx as [Hw _]. cbn [span]. rewrite (Hp w Hw). reflexivity.
  - destruct (p c); [|reflexivity].
    rewrite IH. destruct (span p s). reflexivity.
Qed.

Lemma is_digit_ws (c : codepoint) : is_json_ws c = true -> is_digit c = false.
Proof. intros H. ws_char c H; reflexivity. Qed.

Lemma number_sign_app (s x : pystr) :
  json_ws x = true ->
  number_sign (s ++ x) = (fst (number_sign s), snd (number_sign s) ++ x).
Proof.
  intros Hx. destruct s as [|c s]; cbn [app number_sign].
  - destruct x as [|w x']; [reflexivity|].
    apply json_ws_cons in Hx as [Hw _]. ws_char w Hw; reflexivity.
  - destruct (c =? 45)%N; reflexivity.
Qed.

Lemma number_int_app (s x : pystr) :
  json_ws x = true -> number_int (s ++ x) = followed_by_opt x (number_int s).
Proof.
  intros Hx. destruct s as [|c s]; cbn [app number_int].
  - destruct x as [|w x']; [reflexivity|].
    apply json_ws_cons in Hx as [Hw _]. ws_char w Hw; reflexivity.
  - destruct (c =? 48)%N; [reflexivity|]. destruct (is_digit c); [|reflexivity].
    rewrite (span_app is_digit s x is_digit_ws Hx).
    destruct (span is_digit s). reflexivity.
Qed.

Lemma number_frac_app (s x : pystr) :
  json_ws x = true ->
  number_frac (s ++ x) = (fst (number_frac s), snd (number_frac s) ++ x).
Proof.
  intros Hx. destruct s as [|c s]; cbn [app number_frac].
  - destruct x as [|w x']; [reflexivity|].
    apply json_ws_cons in Hx as [Hw _]. ws_char w Hw; reflexivity.
  - destruct (c =? 46)%N; [|reflexivity].
    rewrite (span_app is_digit s x is_digit_ws Hx).
    destruct (span is_digit s) as [[|d ds] rest]; reflexivity.
Qed.

Lemma number_exp_app (s x : pystr) :
  json_ws x = true ->
  number_exp (s ++ x) = (fst (number_exp s), snd (number_exp s) ++ x).
Proof.
  intros Hx. destruct s as [|e s]; cbn [app number_exp].
  - destruct x as [|w x']; [reflexivity|].
    apply json_ws_cons in Hx as [Hw _]. ws_char w Hw; reflexivity.
  - destruct ((e =? 101) || (e =? 69))%N; [|reflexivity].
    destruct s as [|g s']; cbn [app].
    + pose proof (span_app is_digit [] x is_digit_ws Hx) as E.
      cbn [app span fst snd] in E.
      destruct x as [|w x']; [reflexivity|].
      pose proof Hx as Hx'. apply json_ws_cons in Hx' as [Hw _].
      assert (G : ((w =? 43) || (w =? 45))%N = false) by (ws_char w Hw; reflexivity).
      rewrite G, E. reflexivity.
    + destruct ((g =? 43) || (g =? 45))%N.
      * rewrite (span_app is_digit s' x is_digit_ws Hx).
        destruct (span is_digit s') as [[|d ds] rest]; reflexivity.
      * change (g :: s' ++ x) with ((g :: s') ++ x).
        rewrite (span_app is_digit (g :: s') x is_digit_ws Hx).
        destruct (span is_digit (g :: s')) as [[|d ds] rest]; reflexivity.
Qed.

Lemma match_number_app (s x : pystr) :
  json_ws x = true -> match_number (s ++ x) = followed_by_opt x (match_number s).
Proof.
  intros Hx. unfold match_number.
  rewrite (number_sign_app s x Hx). destruct (number_sign s) as [sign s1].
  cbn [fst snd]. rewrite (number_int_app s1 x Hx).
  destruct (number_int s1) as [[ip s2]|]; [|reflexivity]. cbn [followed_by_opt].
  rewrite (number_frac_app s2 x Hx). destruct (number_frac s2) as [frac s3].
  cbn [fst snd]. rewrite (number_exp_app s3 x Hx).
  destruct (number_exp s3) as [exp s4]. cbn [fst snd].
  destruct frac, exp; reflexivity.
Qed.

Lemma startswith_app_ws (s x p : pystr) :
  json_ws x = true -> forallb (fun c => negb (is_json_ws c)) p = true ->
  startswith (s ++ x) p = startswith s p.
Proof.
  intros Hx. revert s. induction p as [|a p IH]; intros s Hp.
  - destruct s; [destruct x|]; reflexivity.
  - cbn [forallb] in Hp. apply andb_true_iff in Hp as [Ha Hp].
    destruct s as [|c s]; cbn [app startswith].
    + destruct x as [|w x']; [reflexivity|].
      apply json_ws_cons in Hx as [Hw _]. cbn [startswith].
      destruct (N.eqb a w) eqn:E; [|reflexivity].
      apply N.eqb_eq in E. subst w. rewrite Hw in Ha. discriminate Ha.
    + rewrite IH by exact Hp. reflexivity.
Qed.

Lemma skipn_app_startswith (s x p : pystr) :
  startswith s p = true ->
  skipn (List.length p) (s ++ x) = skipn (List.length p) s ++ x.
Proof.
  intros H. apply startswith_length in H. rewrite skipn_app.
  replace (List.length p - List.length s)%nat with 0%nat by lia. reflexivity.
Qed.

Lemma followed_by_unscanned {A : Type} (x : pystr) (res : scanned (A * pystr)) :
  (forall a r, res <> Scanned (a, r)) -> res = followed_by x res.
Proof.
  destruct res as [[a r]| |]; intros H; [|reflexivity|reflexivity].
  exfalso. apply (H a r). reflexivity.
Qed.

Lemma scan_once_nil (fuel : nat) (x : pystr) :
  scan_once fuel [] = followed_by x (scan_once fuel []).
Proof.
  apply followed_by_unscanned. intros v r E.
  apply (proj1 (scan_progress fuel)) in E. simpl in E. lia.
Qed.

Lemma parse_array_nil (fuel : nat) (acc : list json) (x : pystr) :
  parse_array fuel acc [] = followed_by x (parse_array fuel acc []).
Proof.
  apply followed_by_unscanned. intros v r E.
  apply (proj1 (proj2 (scan_progress fuel))) in E. simpl in E. lia.
Qed.

Ltac literal_case x Hx c r p :=
  change (c :: r ++ x) with ((c :: r) ++ x);
  rewrite (startswith_app_ws (c :: r) x p Hx eq_refl);
  let E := fresh "E" in
  destruct (startswith (c :: r) p) eqn:E;
  [let n := eval cbv in (List.length p) in
   change (skipn n ((c :: r) ++ x)) with (skipn (List.length p) ((c :: r) ++ x));
   rewrite (skipn_app_startswith (c :: r) x p E); reflexivity|];
  change ((c :: r) ++ x) with (c :: r ++ x).

Lemma scan_app (fuel : nat) (x : pystr) :
  json_ws x = true ->
  (forall s, scan_once fuel (s ++ x) = followed_by x (scan_once fuel s))
  /\ (forall acc s,
        parse_array fuel acc (s ++ x) = followed_by x (parse_array fuel acc s))
  /\ (forall acc s,
        parse_object fuel acc (s ++ x) = followed_by x (parse_object fuel acc s)).
Proof.
  intros Hx. induction fuel as [|f [IHs [IHa IHo]]].
  - repeat split; intros; reflexivity.
  - split; [|split].
    + intros s. destruct s as [|c r].
      * cbn [app]. destruct x as [|w x']; [reflexivity|].
        pose proof Hx as Hx'. apply json_ws_cons in Hx' as [Hw _].
        ws_char w Hw; reflexivity.
      * cbn [app].
        cbn -[skipn startswith scanstring match_number skip_ws lit followed_by].
        destruct (c =? 34)%N.
        { rewrite (scanstring_app r x Hx).
          destruct (scanstring r) as [[? ?]|]; reflexivity. }
        destruct (c =? 123)%N.
        { rewrite (skip_ws_app r x Hx).
          destruct (skip_ws r) as [|x0 r1]; [reflexivity|]. cbn [app].
          destruct (x0 =? 125)%N; [reflexivity|].
          destruct (x0 =? 34)%N; [apply IHo|reflexivity]. }
        destruct (c =? 91)%N.
        { rewrite (skip_ws_app r x Hx).
          destruct (skip_ws r) as [|x0 r1]; [reflexivity|]. cbn [app].
          destruct (x0 =? 93)%N; [reflexivity|].
          change (x0 :: r1 ++ x) with ((x0 :: r1) ++ x). apply IHa. }
        literal_case x Hx c r (lit "null").
        literal_case x Hx c r (lit "true").
        literal_case x Hx c r (lit "false").
        change (c :: r ++ x) with ((c :: r) ++ x).
        rewrite (match_number_app (c :: r) x Hx).
        destruct (match_number (c :: r)) as [[? ?]|]; [reflexivity|].
        change ((c :: r) ++ x) with (c :: r ++ x).
        literal_case x Hx c r (lit "NaN").
        literal_case x Hx c r (lit "Infinity").
        literal_case x Hx c r (lit "-Infinity").
        reflexivity.
    + intros acc s.
      cbn -[skipn startswith scanstring match_number skip_ws lit followed_by].
      rewrite IHs. destruct (scan_once f s) as [[v r]| |]; try reflexivity.
      cbn [followed_by]. rewrite (skip_ws_app r x Hx).
      destruct (skip_ws r) as [|x0 r1]; [reflexivity|]. cbn [app].
      destruct (x0 =? 93)%N; [reflexivity|].
      destruct (x0 =? 44)%N; [|reflexivity].
      rewrite (skip_ws_app r1 x Hx).
      destruct (skip_ws r1) as [|y t]; [apply parse_array_nil|apply IHa].
    + intros acc s.
      cbn -[skipn startswith scanstring match_number skip_ws lit followed_by].
      rewrite (scanstring_app s x Hx).
      destruct (scanstring s) as [[key r]|]; [|reflexivity].
      cbn [followed_by_opt]. rewrite (skip_ws_app r x Hx).
      destruct (skip_ws r) as [|x0 r1]; [reflexivity|]. cbn [app].
      destruct (x0 =? 58)%N; [|reflexivity].
      rewrite (skip_ws_app r1 x Hx).
      assert (E : scan_once f match skip_ws r1 with [] => [] | t => t ++ x end
                  = followed_by x (scan_once f (skip_ws r1))).
      { destruct (skip_ws r1) as [|y t]; [apply scan_once_nil|apply IHs]. }
      rewrite E. destruct (scan_once f (skip_ws r1)) as [[v r2]| |]; try reflexivity.
      cbn [followed_by]. rewrite (skip_ws_app r2 x Hx).
      destruct (skip_ws r2) as [|y r3]; [reflexivity|]. cbn [app].
      destruct (y =? 125)%N; [reflexivity|].
      destruct (y =? 44)%N; [|reflexivity].
      rewrite (skip_ws_app r3 x Hx).
      destruct (skip_ws r3) as [|q r4]; [reflexivity|]. cbn [app].
      destruct (q =? 34)%N; [apply IHo|reflexivity].
Qed.

(** *** The text a scanner consumes

    What a scanner leaves is a suffix of its input, and the character
    before it is not whitespace: a quote, a bracket, a brace, a digit or a
    letter. *)

Lemma skip_ws_split (s : pystr) :
  exists ws, json_ws ws = true /\ s = ws ++ skip_ws s.
Proof.
  induction s as [|c s [ws [Hws E]]]; [exists []; split; reflexivity|].
  simpl. destruct (is_json_ws c) eqn:Hc.
  - exists (c :: ws). unfold json_ws in *. simpl. rewrite Hc, Hws.
    split; [reflexivity|]. simpl. f_equal. exact E.
  - exists []. split; reflexivity.
Qed.

Lemma skip_ws_nil (s : pystr) : skip_ws s = [] -> json_ws s = true.
Proof.
  intros H. destruct (skip_ws_split s) as [ws [Hws E]].
  rewrite H, app_nil_r in E. subst s. exact Hws.
Qed.

Lemma py_isspace_json_ws (c : codepoint) : is_json_ws c = true -> py_isspace c = true.
Proof. intros H. ws_char c H; reflexivity. Qed.

Lemma all_space_json_ws (x : pystr) : json_ws x = true -> all_space x = true.
Proof.
  induction x as [|c x IH]; [reflexivity|].
  intros H. apply json_ws_cons in H as [Hc Hx].
  unfold all_space. simpl. rewrite (py_isspace_json_ws c Hc). apply IH. exact Hx.
Qed.

Lemma consumed_cons (a : codepoint) (s r : pystr) (c : codepoint) :
  consumed s r c -> consumed (a :: s) r c.
Proof. intros [pre E]. exists (a :: pre). simpl. f_equal. exact E. Qed.

Lemma consumed_app (p s r : pystr) (c : codepoint) :
  consumed s r c -> consumed (p ++ s) r c.
Proof. intros [pre E]. exists (p ++ pre). rewrite <- app_assoc. f_equal. exact E. Qed.

Lemma consumed_here (c : codepoint) (r : pystr) : consumed (c :: r) r c.
Proof. exists []. reflexivity. Qed.

Lemma scan_chars_consumed_bounded (n : nat) :
  forall s cs r, (List.length s <= n)%nat ->
    scan_chars s = Some (cs, r) -> consumed s r 34%N.
Proof.
  induction n as [|n IH]; intros s cs r Hle H.
  - destruct s; [discriminate H|simpl in Hle; lia].
  - destruct s as [|c s]; [discriminate H|]. simpl in Hle.
    assert (IH' : forall t cs r, (List.length t <= List.length s)%nat ->
                    scan_chars t = Some (cs, r) -> consumed t r 34%N).
    { intros t cs' r' Ht Hs. apply (IH t cs' r'); [lia|exact Hs]. }
    cbn [scan_chars] in H.
    destruct (c =? 34)%N eqn:Eq.
    { apply N.eqb_eq in Eq. subst c. injection H as _ <-. apply consumed_here. }
    destruct (c <? 32)%N; [discriminate H|].
    destruct (c =? 92)%N.
    + destruct s as [|e r1]; [discriminate H|].
      destruct (e =? 117)%N.
      * destruct r1 as [|h1 [|h2 [|h3 [|h4 r2]]]]; try discriminate H.
        destruct (hex4 h1 h2 h3 h4); [|discriminate H].
        destruct (scan_chars r2) as [[cs' rest]|] eqn:E; [|discriminate H].
        injection H as _ <-. apply IH' in E; [|cbn [List.length]; lia].
        repeat apply consumed_cons. exact E.
      * destruct (simple_escape e); [|discriminate H].
        destruct (scan_chars r1) as [[cs' rest]|] eqn:E; [|discriminate H].
        injection H as _ <-. apply IH' in E; [|cbn [List.length]; lia].
        repeat apply consumed_cons. exact E.
    + destruct (scan_chars s) as [[cs' rest]|] eqn:E; [|discriminate H].
      injection H as _ <-. apply IH' in E; [|lia].
      apply consumed_cons. exact E.
Qed.

Lemma scanstring_consumed (s str r : pystr) :
  scanstring s = Some (str, r) -> consumed s r 34%N.
Proof.
  unfold scanstring. destruct (scan_chars s) as [[cs rest]|] eqn:E; [|discriminate].
  intros H. injection H as _ <-.
  apply (scan_chars_consumed_bounded (List.length s)) in E; [exact E|lia].
Qed.

Lemma span_digits (s : pystr) :
  let (ds, rest) := span is_digit s in
  s = ds ++ rest /\ (ds = [] \/ digits_then s rest).
Proof.
  induction s as [|c s IH]; cbn [span]; [split; [reflexivity|left; reflexivity]|].
  destruct (is_digit c) eqn:Hc; [|split; [reflexivity|left; reflexivity]].
  destruct (span is_digit s) as [ds rest]. destruct IH as [E [->|[pre [d [E' Hd]]]]].
  - split; [simpl; f_equal; exact E|]. right. exists [], c. simpl in *.
    subst s. split; [reflexivity|exact Hc].
  - split; [simpl; f_equal; exact E|]. right. exists (c :: pre), d.
    split; [simpl; f_equal; exact E'|exact Hd].
Qed.

Lemma digits_then_cons (a : codepoint) (s r : pystr) :
  digits_then s r -> digits_then (a :: s) r.
Proof.
  intros [pre [d [E H]]]. exists (a :: pre), d. split; [simpl; f_equal; exact E|exact H].
Qed.

Lemma digits_then_trans (s m r : pystr) :
  (exists p, s = p ++ m) -> digits_then m r -> digits_then s r.
Proof.
  intros [p ->] [pre [d [E H]]]. exists (p ++ pre), d.
  rewrite <- app_assoc. split; [f_equal; exact E|exact H].
Qed.

Lemma number_int_digits (s ip s2 : pystr) :
  number_int s = Some (ip, s2) -> digits_then s s2.
Proof.
  unfold number_int. destruct s as [|c r]; [discriminate|].
  destruct (c =? 48)%N eqn:E0.
  - intros H. injection H as _ <-. exists [], c. split; [reflexivity|].
    apply N.eqb_eq in E0. subst c. reflexivity.
  - destruct (is_digit c) eqn:Hc; [|discriminate].
    pose proof (span_digits r) as G. destruct (span is_digit r) as [ds rest].
    intros H. injection H as _ <-. destruct G as [E [->|G]].
    + simpl in E. subst r. exists [], c. split; [reflexivity|exact Hc].
    + apply digits_then_cons. exact G.
Qed.

Lemma number_frac_digits (s frac s3 : pystr) :
  number_frac s = (frac, s3) -> s3 = s \/ digits_then s s3.
Proof.
  unfold number_frac. destruct s as [|c r]; [intros H; injection H as _ <-; auto|].
  destruct (c =? 46)%N; [|intros H; injection H as _ <-; auto].
  pose proof (span_digits r) as G. destruct (span is_digit r) as [[|d ds] rest];
    intros H; injection H as _ <-; [auto|].
  destruct G as [E [G|G]]; [discriminate G|].
  right. apply digits_then_cons. exact G.
Qed.

Lemma number_exp_digits (s exp s4 : pystr) :
  number_exp s = (exp, s4) -> s4 = s \/ digits_then s s4.
Proof.
  unfold number_exp. destruct s as [|e r]; [intros H; injection H as _ <-; auto|].
  destruct ((e =? 101) || (e =? 69))%N; [|intros H; injection H as _ <-; auto].
  destruct r as [|g r'].
  - cbn [span]. intros H; injection H as _ <-; auto.
  - destruct ((g =? 43) || (g =? 45))%N.
    + pose proof (span_digits r') as G.
      destruct (span is_digit r') as [[|d ds] rest];
        intros H; injection H as _ <-; [auto|].
      destruct G as [E [G|G]]; [discriminate G|].
      right. apply digits_then_cons, digits_then_cons. exact G.
    + pose proof (span_digits (g :: r')) as G.
      destruct (span is_digit (g :: r')) as [[|d ds] rest];
        intros H; injection H as _ <-; [auto|].
      destruct G as [E [G|G]]; [discriminate G|].
      right. apply digits_then_cons. exact G.
Qed.

Lemma digits_then_suffix (s r : pystr) : digits_then s r -> exists p, s = p ++ r.
Proof.
  intros [pre [d [E _]]]. exists (pre ++ [d]). rewrite <- app_assoc. exact E.
Qed.

Lemma match_number_digits (s : pystr) (v : json) (r : pystr) :
  match_number s = Some (v, r) -> digits_then s r.
Proof.
  unfold match_number.
  assert (S1 : exists p, s = p ++ snd (number_sign s)).
  { unfold number_sign. destruct s as [|c s']; [exists []; reflexivity|].
    destruct (c =? 45)%N; [exists [c]|exists []]; reflexivity. }
  destruct (number_sign s) as [sign s1]. cbn [snd] in S1.
  destruct (number_int s1) as [[ip s2]|] eqn:E2; [|discriminate].
  apply number_int_digits in E2.
  destruct (number_frac s2) as [frac s3] eqn:E3. apply number_frac_digits in E3.
  destruct (number_exp s3) as [exp s4] eqn:E4. apply number_exp_digits in E4.
  intros H.
  assert (R : r = s4) by (destruct frac, exp; injection H as _ <-; reflexivity).
  subst r. clear H.
  apply (digits_then_trans s s1 s4 S1).
  destruct E4 as [->|E4].
  - destruct E3 as [->|E3]; [exact E2|].
    apply (digits_then_trans s1 s2 s3 (digits_then_suffix _ _ E2) E3).
  - apply (digits_then_trans s1 s3 s4); [|exact E4].
    destruct E3 as [->|E3]; [apply digits_then_suffix; exact E2|].
    destruct (digits_then_suffix _ _ E2) as [p1 ->].
    destruct (digits_then_suffix _ _ E3) as [p2 ->].
    exists (p1 ++ p2). rewrite app_assoc. reflexivity.
Qed.

Lemma startswith_split (s p : pystr) :
  startswith s p = true -> s = p ++ skipn (List.length p) s.
Proof.
  revert s. induction p as [|a p IH]; intros s H.
  - reflexivity.
  - destruct s as [|c s]; [discriminate H|]. cbn [startswith] in H.
    apply andb_true_iff in H as [Ea H]. apply N.eqb_eq in Ea. subst c.
    cbn [List.length skipn app]. f_equal. apply IH. exact H.
Qed.

(** A literal of the grammar, consumed whole: what is left follows its
    last letter. *)
Lemma literal_consumed (s p : pystr) (z : codepoint) (n : nat) :
  startswith s (p ++ [z]) = true -> n = List.length (p ++ [z]) ->
  consumed s (skipn n s) z.
Proof.
  intros H ->. exists p. rewrite (startswith_split s (p ++ [z]) H) at 1.
  rewrite <- app_assoc. reflexivity.
Qed.

Lemma skip_ws_consumed (s t r : pystr) (c : codepoint) :
  skip_ws s = t -> consumed t r c -> consumed s r c.
Proof.
  intros <- H. destruct (skip_ws_split s) as [ws [_ E]].
  rewrite E. apply consumed_app. exact H.
Qed.

Lemma closes_not_space (c : codepoint) : closes c = true -> py_isspace c = false.
Proof.
  unfold closes, is_digit, is_ascii_letter, py_isspace. intros H.
  repeat (apply orb_true_iff in H as [H|H]);
    repeat match goal with
           | H : (_ && _)%bool = true |- _ => apply andb_true_iff in H as [? ?]
           | H : (_ <=? _)%N = true |- _ => apply N.leb_le in H
           | H : (_ =? _)%N = true |- _ => apply N.eqb_eq in H
           end;
    repeat match goal with
           | |- (_ || _)%bool = false => apply orb_false_iff; split
           | |- (_ && _)%bool = false => apply andb_false_iff
           end;
    try (apply N.eqb_neq; lia);
    first [left; apply N.leb_gt; lia | right; apply N.leb_gt; lia].
Qed.

Lemma scanned_to_cons (a : codepoint) (s r : pystr) :
  scanned_to s r -> scanned_to (a :: s) r.
Proof. intros [c [H C]]. exists c. split; [apply consumed_cons; exact H|exact C]. Qed.

Lemma scanned_to_skip (s t r : pystr) :
  skip_ws s = t -> scanned_to t r -> scanned_to s r.
Proof.
  intros E [c [H C]]. exists c. split; [apply (skip_ws_consumed s t r c E H)|exact C].
Qed.

Lemma scanned_to_suffix (s r : pystr) : scanned_to s r -> exists p, s = p ++ r.
Proof.
  intros [c [[pre E] _]]. exists (pre ++ [c]). rewrite <- app_assoc. exact E.
Qed.

Lemma scanned_to_trans (s m r : pystr) :
  (exists p, s = p ++ m) -> scanned_to m r -> scanned_to s r.
Proof.
  intros [p ->] [c [H C]]. exists c. split; [apply consumed_app; exact H|exact C].
Qed.

Lemma scan_consumed (fuel : nat) :
  (forall s v r, scan_once fuel s = Scanned (v, r) -> scanned_to s r)
  /\ (forall acc s v r, parse_array fuel acc s = Scanned (v, r) -> scanned_to s r)
  /\ (forall acc s v r, parse_object fuel acc s = Scanned (v, r) -> scanned_to s r).
Proof.
  induction fuel as [|f [IHs [IHa IHo]]].
  - repeat split; intros; discriminate.
  - split; [|split].
    + intros s v r H. destruct s as [|c s]; [discriminate H|].
      unfold_scan H.
      destruct (c =? 34)%N.
      { destruct (scanstring s) as [[str rest]|] eqn:E; [|discriminate H].
        injection H as _ <-. apply scanstring_consumed in E.
        exists 34%N. split; [apply consumed_cons; exact E|reflexivity]. }
      destruct (c =? 123)%N.
      { destruct (skip_ws s) as [|x0 r1] eqn:E; [discriminate H|].
        apply scanned_to_cons, (scanned_to_skip s (x0 :: r1) r E).
        destruct (x0 =? 125)%N eqn:E0.
        - injection H as _ <-. apply N.eqb_eq in E0. subst x0.
          exists 125%N. split; [apply consumed_here|reflexivity].
        - destruct (x0 =? 34)%N; [|discriminate H].
          apply scanned_to_cons. apply IHo in H. exact H. }
      destruct (c =? 91)%N.
      { destruct (skip_ws s) as [|x0 r1] eqn:E; [discriminate H|].
        apply scanned_to_cons, (scanned_to_skip s (x0 :: r1) r E).
        destruct (x0 =? 93)%N eqn:E0.
        - injection H as _ <-. apply N.eqb_eq in E0. subst x0.
          exists 93%N. split; [apply consumed_here|reflexivity].
        - apply IHa in H. exact H. }
      destruct (startswith (c :: s) (lit "null")) eqn:L1.
      { injection H as _ <-. exists 108%N.
        split; [apply (literal_consumed (c :: s) (lit "nul") 108%N 4 L1 eq_refl)
               |reflexivity]. }
      destruct (startswith (c :: s) (lit "true")) eqn:L2.
      { injection H as _ <-. exists 101%N.
        split; [apply (literal_consumed (c :: s) (lit "tru") 101%N 4 L2 eq_refl)
               |reflexivity]. }
      destruct (startswith (c :: s) (lit "false")) eqn:L3.
      { injection H as _ <-. exists 101%N.
        split; [apply (literal_consumed (c :: s) (lit "fals") 101%N 5 L3 eq_refl)
               |reflexivity]. }
      destruct (match_number (c :: s)) as [[v' r']|] eqn:E.
      { injection H as _ <-. apply match_number_digits in E.
        destruct E as [pre [d [E Hd]]]. exists d.
        split; [exists pre; exact E|]. unfold closes. rewrite Hd. reflexivity. }
      destruct (startswith (c :: s) (lit "NaN")) eqn:L4.
      { injection H as _ <-. exists 78%N.
        split; [apply (literal_consumed (c :: s) (lit "Na") 78%N 3 L4 eq_refl)
               |reflexivity]. }
      destruct (startswith (c :: s) (lit "Infinity")) eqn:L5.
      { injection H as _ <-. exists 121%N.
        split; [apply (literal_consumed (c :: s) (lit "Infinit") 121%N 8 L5 eq_refl)
               |reflexivity]. }
      destruct (startswith (c :: s) (lit "-Infinity")) eqn:L6; [|discriminate H].
      injection H as _ <-. exists 121%N.
      split; [apply (literal_consumed (c :: s) (lit "-Infinit") 121%N 9 L6 eq_refl)
             |reflexivity].
    + intros acc s v r H. unfold_scan H.
      destruct (scan_once f s) as [[v1 r1]| |] eqn:E; try discriminate H.
      apply IHs in E. apply (scanned_to_trans s r1 r (scanned_to_suffix _ _ E)).
      destruct (skip_ws r1) as [|x0 r2] eqn:E1; [discriminate H|].
      apply (scanned_to_skip r1 (x0 :: r2) r E1).
      destruct (x0 =? 93)%N eqn:E0.
      * injection H as _ <-. apply N.eqb_eq in E0. subst x0.
        exists 93%N. split; [apply consumed_here|reflexivity].
      * destruct (x0 =? 44)%N; [|discriminate H].
        apply scanned_to_cons.
        apply IHa in H. apply (scanned_to_skip r2 (skip_ws r2) r eq_refl H).
    + intros acc s v r H. unfold_scan H.
      destruct (scanstring s) as [[key r0]|] eqn:E; [|discriminate H].
      apply scanstring_consumed in E.
      assert (S0 : exists p, s = p ++ r0).
      { destruct E as [pre E]. exists (pre ++ [34%N]). rewrite <- app_assoc. exact E. }
      apply (scanned_to_trans s r0 r S0).
      destruct (skip_ws r0) as [|x0 r1] eqn:E0; [discriminate H|].
      apply (scanned_to_skip r0 (x0 :: r1) r E0).
      destruct (x0 =? 58)%N; [|discriminate H]. apply scanned_to_cons.
      apply (scanned_to_skip r1 (skip_ws r1) r eq_refl).
      destruct (scan_once f (skip_ws r1)) as [[v1 r2]| |] eqn:E1; try discriminate H.
      apply IHs in E1.
      apply (scanned_to_trans _ r2 r (scanned_to_suffix _ _ E1)).
      destruct (skip_ws r2) as [|y r3] eqn:E2; [discriminate H|].
      apply (scanned_to_skip r2 (y :: r3) r E2).
      destruct (y =? 125)%N eqn:Ey.
      * injection H as _ <-. apply N.eqb_eq in Ey. subst y.
        exists 125%N. split; [apply consumed_here|reflexivity].
      * destruct (y =? 44)%N; [|discriminate H]. apply scanned_to_cons.
        destruct (skip_ws r3) as [|q r4] eqn:E3; [discriminate H|].
        apply (scanned_to_skip r3 (q :: r4) r E3).
        destruct (q =? 34)%N; [|discriminate H]. apply scanned_to_cons.
        apply IHo in H. exact H.
Qed.

(** *** The first character of a JSON text *)

Lemma opens_not_space (c : codepoint) : opens c = true -> py_isspace c = false.
Proof.
  unfold opens, is_digit, is_ascii_letter, py_isspace. intros H.
  repeat (apply orb_true_iff in H as [H|H]);
    repeat match goal with
           | H : (_ && _)%bool = true |- _ => apply andb_true_iff in H as [? ?]
           | H : (_ <=? _)%N = true |- _ => apply N.leb_le in H
           | H : (_ =? _)%N = true |- _ => apply N.eqb_eq in H
           end;
    repeat match goal with
           | |- (_ || _)%bool = false => apply orb_false_iff; split
           | |- (_ && _)%bool = false => apply andb_false_iff
           end;
    try (apply N.eqb_neq; lia);
    first [left; apply N.leb_gt; lia | right; apply N.leb_gt; lia].
Qed.

Lemma opens_not_fence (c : codepoint) (s : pystr) :
  opens c = true -> startswith (c :: s) fence = false.
Proof.
  intros H.
  change (startswith (c :: s) fence)
    with ((96 =? c)%N && startswith s [96%N; 96%N]).
  destruct (96 =? c)%N eqn:E; [|reflexivity].
  apply N.eqb_eq in E. subst c. discriminate H.
Qed.

Lemma literal_opens (c a : codepoint) (s p : pystr) :
  startswith (c :: s) (a :: p) = true -> opens a = true -> opens c = true.
Proof.
  cbn [startswith]. intros H Ha. apply andb_true_iff in H as [E _].
  apply N.eqb_eq in E. subst c. exact Ha.
Qed.

Lemma match_number_opens (c : codepoint) (s : pystr) (v : json) (r : pystr) :
  match_number (c :: s) = Some (v, r) -> opens c = true.
Proof.
  unfold match_number, number_sign.
  destruct (c =? 45)%N eqn:E.
  - intros _. unfold opens. rewrite E. apply orb_true_r.
  - unfold number_int at 1.
    destruct (c =? 48)%N eqn:E0.
    + intros _. apply N.eqb_eq in E0. subst c. reflexivity.
    + destruct (is_digit c) eqn:Hd; [|discriminate].
      intros _. unfold opens. rewrite Hd. reflexivity.
Qed.

Lemma scan_once_opens (fuel : nat) (s : pystr) (v : json) (r : pystr) :
  scan_once fuel s = Scanned (v, r) ->
  exists c s', s = c :: s' /\ opens c = true.
Proof.
  destruct fuel as [|f]; [discriminate|].
  destruct s as [|c s]; [discriminate|].
  intros H. exists c, s. split; [reflexivity|]. unfold_scan H.
  destruct (c =? 34)%N eqn:E1.
  { apply N.eqb_eq in E1. subst c. reflexivity. }
  destruct (c =? 123)%N eqn:E2.
  { apply N.eqb_eq in E2. subst c. reflexivity. }
  destruct (c =? 91)%N eqn:E3.
  { apply N.eqb_eq in E3. subst c. reflexivity. }
  destruct (startswith (c :: s) (lit "null")) eqn:L1.
  { apply (literal_opens c _ s _ L1). reflexivity. }
  destruct (startswith (c :: s) (lit "true")) eqn:L2.
  { apply (literal_opens c _ s _ L2). reflexivity. }
  destruct (startswith (c :: s) (lit "false")) eqn:L3.
  { apply (literal_opens c _ s _ L3). reflexivity. }
  destruct (match_number (c :: s)) as [[v' r']|] eqn:E.
  { apply (match_number_opens c s v' r' E). }
  destruct (startswith (c :: s) (lit "NaN")) eqn:L4.
  { apply (literal_opens c _ s _ L4). reflexivity. }
  destruct (startswith (c :: s) (lit "Infinity")) eqn:L5.
  { apply (literal_opens c _ s _ L5). reflexivity. }
  destruct (startswith (c :: s) (lit "-Infinity")) eqn:L6; [|discriminate H].
  apply (literal_opens c _ s _ L6). reflexivity.
Qed.

(** *** Decoding a trimmed text

    A text that [json.loads] accepts has the shape: JSON whitespace, a
    value that starts and ends with characters that are not whitespace,
    JSON whitespace.  Trimming it leaves the value, and the value alone
    decodes to the same result. *)

Lemma json_loads_shape (t : pystr) (v : json) :
  json_loads t = Some v ->
  exists ws1 u ws2,
    t = ws1 ++ u ++ ws2
    /\ json_ws ws1 = true /\ json_ws ws2 = true
    /\ (exists c u', u = c :: u' /\ opens c = true)
    /\ (exists p z, u = p ++ [z] /\ closes z = true)
    /\ scan_once (S (2 * List.length t)) (u ++ ws2) = Scanned (v, ws2).
Proof.
  unfold json_loads. intros H.
  destruct (skip_ws_split t) as [ws1 [Hws1 Et]].
  destruct (scan_once (S (2 * List.length t)) (skip_ws t)) as [[v' rest]| |] eqn:E;
    try discriminate H.
  destruct (skip_ws rest) eqn:Er; [|discriminate H]. injection H as ->.
  apply skip_ws_nil in Er.
  destruct (scan_once_opens _ _ _ _ E) as [c [s' [Es Hc]]].
  destruct (proj1 (scan_consumed _) _ _ _ E) as [z [[pre Ez] Hz]].
  assert (Eu : skip_ws t = (pre ++ [z]) ++ rest)
    by (rewrite <- app_assoc; exact Ez).
  exists ws1, (pre ++ [z]), rest. rewrite <- Eu.
  repeat split; try assumption.
  - rewrite Es in Ez. destruct pre as [|c' pre]; simpl in Ez; injection Ez as <- _.
    + exists c, []. split; [reflexivity|exact Hc].
    + exists c, (pre ++ [z]). split; [reflexivity|exact Hc].
  - exists pre, z. split; [reflexivity|exact Hz].
Qed.

Lemma json_loads_alone (f : nat) (u ws : pystr) (c : codepoint) (u' : pystr) (v : json) :
  u = c :: u' -> opens c = true -> json_ws ws = true ->
  (List.length u <= f)%nat ->
  scan_once (S (2 * f)) (u ++ ws) = Scanned (v, ws) ->
  json_loads u = Some v.
Proof.
  intros Eu Hc Hws Hf H.
  rewrite (proj1 (scan_app _ ws Hws)) in H.
  destruct (scan_once (S (2 * f)) u) as [[v' r]| |] eqn:E; try discriminate H.
  cbn [followed_by] in H. injection H as -> Hr.
  assert (r = []).
  { apply (f_equal (@List.length _)) in Hr. rewrite length_app in Hr.
    destruct r; [reflexivity|simpl in Hr; lia]. }
  subst r. unfold json_loads.
  assert (Es : skip_ws u = u).
  { rewrite Eu. simpl. destruct (is_json_ws c) eqn:Ec; [|reflexivity].
    apply py_isspace_json_ws in Ec. rewrite (opens_not_space c Hc) in Ec.
    discriminate Ec. }
  rewrite Es.
  replace (S (2 * f)) with (S (2 * List.length u) + 2 * (f - List.length u))%nat
    in E by lia.
  rewrite scan_once_any_fuel in E. rewrite E. reflexivity.
Qed.

(** Trimming a text that [json.loads] accepts leaves a text that it
    accepts, with the same result. *)
Lemma json_loads_strip (t : pystr) (v : json) :
  json_loads t = Some v -> json_loads (strip t) = Some v /\
  startswith (strip t) fence = false.
Proof.
  intros H.
  destruct (json_loads_shape t v H)
    as [ws1 [u [ws2 [Et [H1 [H2 [[c [u' [Ec Hc]]] [[p [z [Ez Hz]]] E]]]]]]]].
  assert (Es : strip t = u).
  { rewrite Et. unfold strip.
    rewrite lstrip_all_space by (apply all_space_json_ws; exact H1).
    rewrite Ec. change ((c :: u') ++ ws2) with (c :: u' ++ ws2).
    rewrite lstrip_nonspace by (apply opens_not_space; exact Hc).
    change (c :: u' ++ ws2) with ((c :: u') ++ ws2). rewrite <- Ec.
    rewrite rstrip_all_space by (apply all_space_json_ws; exact H2).
    rewrite Ez. apply rstrip_snoc_nonspace, closes_not_space. exact Hz. }
  rewrite Es. split.
  - apply (json_loads_alone (List.length t) u ws2 c u' v Ec Hc H2); [|exact E].
    rewrite Et. repeat rewrite length_app. lia.
  - rewrite Ec. apply opens_not_fence. exact Hc.
Qed.

(** ** The output normalizer *)


(** A fenced block, whatever whitespace surrounds it and whether or not the
    closing fence stands on a line of its own, is reduced to its trimmed
    body. *)
Lemma clean_fenced_padded (ws1 ws2 tag body : pystr) :
  all_space ws1 = true -> all_space ws2 = true ->
  forallb is_ascii_letter tag = true ->
  clean_json_output (ws1 ++ (fence ++ tag ++ nl ++ body ++ fence) ++ ws2)
  = strip body.
Proof.
  intros H1 H2 Ht. unfold clean_json_output.
  assert (E : strip (ws1 ++ (fence ++ tag ++ nl ++ body ++ fence) ++ ws2)
              = fence ++ tag ++ nl ++ body ++ fence).
  { change (fence ++ tag ++ nl ++ body ++ fence)
      with (96%N :: ([96%N; 96%N] ++ tag ++ nl ++ body ++ fence)).
    replace ([96%N; 96%N] ++ tag ++ nl ++ body ++ fence)
      with (([96%N; 96%N] ++ tag ++ nl ++ body ++ [96%N; 96%N]) ++ [96%N]).
    - apply strip_padded; auto.
    - repeat rewrite <- app_assoc. reflexivity. }
  rewrite E. cbv zeta.
  rewrite (startswith_app fence).
  unfold sub_fence_prefix. rewrite (startswith_app fence).
  change (skipn 3 (fence ++ tag ++ nl ++ body ++ fence))
    with (tag ++ nl ++ body ++ fence).
  rewrite drop_while_letters by exact Ht.
  change (nl ++ body ++ fence) with (10%N :: body ++ fence). cbv iota beta.
  rewrite endswith_app.
  change 3%nat with (List.length fence).
  rewrite (drop_last_app body fence). reflexivity.
Qed.

Lemma clean_fenced_block (tag inner : pystr) :
  forallb is_ascii_letter tag = true ->
  clean_json_output (fenced_block tag inner) = strip inner.
Proof.
  intros Ht.
  assert (E : fenced_block tag inner
              = [] ++ (fence ++ tag ++ nl ++ (inner ++ nl) ++ fence) ++ []).
  { unfold fenced_block. rewrite app_nil_r. cbn [app].
    repeat rewrite <- app_assoc. reflexivity. }
  rewrite E, clean_fenced_padded by auto.
  apply strip_app_space. reflexivity.
Qed.

Lemma clean_unfenced (s : pystr) :
  startswith (strip s) fence = false -> clean_json_output s = strip s.
Proof.
  intros H. unfold clean_json_output. rewrite H. apply strip_idem.
Qed.

Lemma clean_fenced_block_padded (ws1 ws2 tag inner : pystr) :
  all_space ws1 = true -> all_space ws2 = true ->
  forallb is_ascii_letter tag = true ->
  clean_json_output (ws1 ++ fenced_block tag inner ++ ws2) = strip inner.
Proof.
  intros H1 H2 Ht. unfold fenced_block.
  replace (fence ++ tag ++ nl ++ inner ++ nl ++ fence)
    with (fence ++ tag ++ nl ++ (inner ++ nl) ++ fence)
    by (repeat rewrite <- app_assoc; reflexivity).
  rewrite clean_fenced_padded by assumption.
  apply strip_app_space. reflexivity.
Qed.




(** ** The normalizer and the decoder *)

(** X4.  The normalizer loses nothing of a well-formed response: a text
    that [json.loads] accepts, bare or inside a fenced block with an
    alphabetic tag or none, whatever whitespace surrounds the block, is
    normalized to a text that [json.loads] accepts with the same value. *)
Theorem clean_json_output_keeps_json (t : pystr) (v : json) :
  json_loads t = Some v ->
  json_loads (clean_json_output t) = Some v
  /\ (forall ws1 ws2 tag,
        all_space ws1 = true -> all_space ws2 = true ->
        forallb is_ascii_letter tag = true ->
        json_loads (clean_json_output (ws1 ++ fenced_block tag t ++ ws2)) = Some v).
Proof.
  intros H. destruct (json_loads_strip t v H) as [Hs Hf]. split.
  - rewrite clean_unfenced by exact Hf. exact Hs.
  - intros ws1 ws2 tag H1 H2 Ht.
    rewrite clean_fenced_block_padded by assumption. exact Hs.
Qed.

Lemma clean_json_output_keeps_json_witness :
  json_loads (lit " [1, {}] ") = Some (JList [JInt 1; JDict []])
  /\ json_loads (clean_json_output (lit " [1, {}] "))
     = Some (JList [JInt 1; JDict []])
  /\ json_loads (clean_json_output
                   (nl ++ fenced_block (lit "json") (lit " [1, {}] ") ++ nl))
     = Some (JList [JInt 1; JDict []]).
Proof.
  assert (H : json_loads (lit " [1, {}] ") = Some (JList [JInt 1; JDict []]))
    by (vm_compute; reflexivity).
  split; [exact H|].
  destruct (clean_json_output_keeps_json _ _ H) as [H1 H2].
  split; [exact H1|]. apply H2; reflexivity.
Defined.

(** ** The model client *)

Lemma gemini_generate_eq (env : Env) (prompt : pystr) (w : world) :
  gemini_generate env prompt w
  = (Ret (reply env (calls w) prompt), after_call env prompt w).
Proof.
  unfold gemini_generate, generate, generate_content, reply, after_call,
    default_request, sent, printed.
  run. destruct (remote env (calls w) _); reflexivity.
Qed.

Lemma calls_after_call (env : Env) (prompt : pystr) (w : world) :
  calls (after_call env prompt w) = calls w ++ [default_request prompt].
Proof.
  unfold after_call. destruct (remote env (calls w) _); reflexivity.
Qed.

(** C6 (as amended).  For every prompt and generation parameters,
    [generate] sends exactly one request; when the call succeeds it returns
    the response text trimmed of surrounding whitespace, and when the call
    raises it prints one line and returns the empty string.  It returns in
    both cases, so it never raises, and there is no second request. *)
Theorem generate_trims_or_degrades (env : Env) (prompt : pystr) (temperature : Q)
  (max_output_tokens : Z) (w : world) :
  let req := {| req_prompt := prompt;
                req_temperature := temperature;
                req_max_output_tokens := max_output_tokens |} in
  (forall text, remote env (calls w) req = Ret text ->
     generate env prompt temperature max_output_tokens w
     = (Ret (strip text), sent w req))
  /\ (forall e, remote env (calls w) req = Raise e ->
        generate env prompt temperature max_output_tokens w
        = (Ret [], printed (sent w req)
                     [Text (lit "[GeminiAPI] Error: "); ExnText e]))
  /\ (exists out, fst (generate env prompt temperature max_output_tokens w) = Ret out)
  /\ calls (snd (generate env prompt temperature max_output_tokens w))
     = calls w ++ [req].
Proof.
  intros req. unfold generate, generate_content, sent, printed. run. fold req.
  destruct (remote env (calls w) req) as [text|e] eqn:E; cbn [fst snd calls].
  - split; [intros t Ht; injection Ht as <-; reflexivity|].
    split; [intros e He; discriminate|].
    split; [eexists; reflexivity|reflexivity].
  - split; [intros t Ht; discriminate|].
    split; [intros e' He; injection He as <-; reflexivity|].
    split; [eexists; reflexivity|reflexivity].
Qed.

Lemma generate_trims_or_degrades_witness :
  fst (generate (demo_env [Ret (lit "  [1, 2] ")] false true) (lit "list two numbers")
         default_temperature default_max_output_tokens fresh)
  = Ret (lit "[1, 2]")
  /\ fst (generate (demo_env [Raise (RemoteError (lit "quota exceeded"))] false true)
            (lit "list two numbers") default_temperature default_max_output_tokens
            fresh)
     = Ret [].
Proof.
  split.
  - destruct (generate_trims_or_degrades
                (demo_env [Ret (lit "  [1, 2] ")] false true)
                (lit "list two numbers") default_temperature
                default_max_output_tokens fresh) as [H _].
    rewrite (H (lit "  [1, 2] ") eq_refl). reflexivity.
  - destruct (generate_trims_or_degrades
                (demo_env [Raise (RemoteError (lit "quota exceeded"))] false true)
                (lit "list two numbers") default_temperature
                default_max_output_tokens fresh) as [_ [H _]].
    rewrite (H (RemoteError (lit "quota exceeded")) eq_refl). reflexivity.
Defined.

(** C6 as stated fails: the value returned on success is not the response
    text itself when that text has whitespace around it. *)
Lemma generate_returns_text_counterexample :
  exists text,
    remote (demo_env [Ret (lit " ok" ++ nl)] false true) (calls fresh)
      (default_request (lit "say ok")) = Ret text
    /\ fst (generate (demo_env [Ret (lit " ok" ++ nl)] false true) (lit "say ok")
              default_temperature default_max_output_tokens fresh)
       = Ret (lit "ok")
    /\ text <> lit "ok".
Proof.
  exists (lit " ok" ++ nl). split; [reflexivity|]. split; [reflexivity|].
  discriminate.
Qed.

(** ** The stages

    Each stage sends one request and then either returns what the parser
    gives or prints a line and returns its default. *)

Lemma extract_user_data_eq (env : Env) (r i g : pystr) (w : world) :
  extract_user_data env r i g w
  = let p := extract_user_data_prompt r i g in
    let out := reply env (calls w) p in
    let w1 := after_call env p w in
    match json_loads (clean_json_output out) with
    | Some v => (Ret v, w1)
    | None =>
        (Ret (JDict []),
         printed w1 (failure_line "[UserUnderstanding] Failed to parse JSON: "
                       (JSONDecodeError (clean_json_output out)) out))
    end.
Proof.
  unfold extract_user_data. run. rewrite gemini_generate_eq. cbv zeta.
  destruct (json_loads _); reflexivity.
Qed.

Lemma extract_user_data_trace_eq (env : Env) (r i g : pystr) (w : world) :
  extract_user_data_trace env r i g w
  = let p := extract_user_data_trace_prompt r i g in
    let out := reply env (calls w) p in
    let w1 := after_call env p w in
    match json_loads (clean_json_output out) with
    | Some v => (Ret (v, p, out), w1)
    | None =>
        (Ret (JDict [], p, out),
         printed w1 (failure_line "[UserUnderstanding] Failed to parse JSON: "
                       (JSONDecodeError (clean_json_output out)) out))
    end.
Proof.
  unfold extract_user_data_trace. run. rewrite gemini_generate_eq. cbv zeta.
  destruct (json_loads _); reflexivity.
Qed.

Lemma classify_persona_eq (env : Env) (user_data : json) (w : world) :
  classify_persona env user_data w
  = let p := classify_persona_prompt env user_data in
    let out := reply env (calls w) p in
    classified (json_loads (clean_json_output out)) (clean_json_output out) out
      (after_call env p w).
Proof.
  unfold classify_persona, classified. run. rewrite gemini_generate_eq. cbv zeta.
  destruct (json_loads _) as [[]|]; reflexivity.
Qed.

Lemma classify_persona_trace_eq (env : Env) (user_data : json) (w : world) :
  classify_persona_trace env user_data w
  = let p := classify_persona_trace_prompt env user_data in
    let out := reply env (calls w) p in
    match classified (json_loads (clean_json_output out)) (clean_json_output out)
            out (after_call env p w) with
    | (Ret pj, w') => (Ret (fst pj, snd pj, p, out), w')
    | (Raise e, w') => (Raise e, w')
    end.
Proof.
  unfold classify_persona_trace, classified. run. rewrite gemini_generate_eq.
  cbv zeta. destruct (json_loads _) as [[]|]; reflexivity.
Qed.

Lemma plan_roadmap_think_eq (env : Env) (user_data persona : json) (w : world) :
  plan_roadmap_think env user_data persona w
  = let p := plan_roadmap_think_prompt env user_data persona in
    parsed_or (JList []) "[RoadmapPlanner][Think] Failed to parse topics JSON: "
      (reply env (calls w) p) (after_call env p w).
Proof.
  unfold plan_roadmap_think, parsed_or. run. rewrite gemini_generate_eq. cbv zeta.
  destruct (json_loads _); reflexivity.
Qed.

Lemma plan_roadmap_plan_eq (env : Env) (topics : json) (w : world) :
  plan_roadmap_plan env topics w
  = let p := plan_roadmap_plan_prompt env topics in
    parsed_or (JDict []) "[RoadmapPlanner][Plan] Failed to parse structure JSON: "
      (reply env (calls w) p) (after_call env p w).
Proof.
  unfold plan_roadmap_plan, parsed_or. run. rewrite gemini_generate_eq. cbv zeta.
  destruct (json_loads _); reflexivity.
Qed.

Lemma plan_roadmap_activities_eq (env : Env) (user_data persona structure : json)
  (w : world) :
  plan_roadmap_activities env user_data persona structure w
  = let p := plan_roadmap_activities_prompt env user_data persona structure in
    parsed_or (JDict [])
      "[RoadmapPlanner][Activities] Failed to parse activities JSON: "
      (reply env (calls w) p) (after_call env p w).
Proof.
  unfold plan_roadmap_activities, parsed_or. run. rewrite gemini_generate_eq.
  cbv zeta. destruct (json_loads _); reflexivity.
Qed.

Lemma identify_topics_eq (env : Env) (user_data : json) (w : world) :
  identify_topics env user_data w
  = let p := identify_topics_prompt env user_data in
    parsed_or (JList [])
      "[RoadmapPlanner][identify_topics] Failed to parse topics JSON: "
      (reply env (calls w) p) (after_call env p w).
Proof.
  unfold identify_topics, parsed_or. run. rewrite gemini_generate_eq. cbv zeta.
  destruct (json_loads _); reflexivity.
Qed.

Lemma identify_topics_trace_eq (env : Env) (user_data : json) (w : world) :
  identify_topics_trace env user_data w
  = let p := identify_topics_trace_prompt env user_data in
    let out := reply env (calls w) p in
    attach (fun v => (v, p, out))
      (parsed_or (JList [])
         "[RoadmapPlanner][identify_topics_trace] Failed to parse topics JSON: "
         out (after_call env p w)).
Proof.
  unfold identify_topics_trace, parsed_or, attach. run.
  rewrite gemini_generate_eq. cbv zeta. destruct (json_loads _); reflexivity.
Qed.

(** C1.  In every stage, when the text the model client hands back does not
    parse as JSON after normalization, the stage returns its empty default
    (an empty dict for [extract_user_data] and for the structure and
    activities steps, an empty list for the topics step, a pair of empty
    strings for [classify_persona]) after printing a line that carries the
    raw output; it returns, so no exception reaches the caller. *)
Theorem parse_failure_yields_default (env : Env) (w : world) :
  (forall r i g,
     let p := extract_user_data_prompt r i g in
     let out := reply env (calls w) p in
     json_loads (clean_json_output out) = None ->
     extract_user_data env r i g w
     = (Ret (JDict []),
        printed (after_call env p w)
          (failure_line "[UserUnderstanding] Failed to parse JSON: "
             (JSONDecodeError (clean_json_output out)) out)))
  /\ (forall user_data,
        let p := classify_persona_prompt env user_data in
        let out := reply env (calls w) p in
        json_loads (clean_json_output out) = None ->
        classify_persona env user_data w
        = (Ret (JStr [], JStr []),
           printed (after_call env p w)
             (failure_line "[PersonaClassifier] Failed to parse JSON: "
                (JSONDecodeError (clean_json_output out)) out)))
  /\ (forall user_data persona,
        let p := plan_roadmap_think_prompt env user_data persona in
        let out := reply env (calls w) p in
        json_loads (clean_json_output out) = None ->
        plan_roadmap_think env user_data persona w
        = (Ret (JList []),
           printed (after_call env p w)
             (failure_line "[RoadmapPlanner][Think] Failed to parse topics JSON: "
                (JSONDecodeError (clean_json_output out)) out)))
  /\ (forall topics,
        let p := plan_roadmap_plan_prompt env topics in
        let out := reply env (calls w) p in
        json_loads (clean_json_output out) = None ->
        plan_roadmap_plan env topics w
        = (Ret (JDict []),
           printed (after_call env p w)
             (failure_line "[RoadmapPlanner][Plan] Failed to parse structure JSON: "
                (JSONDecodeError (clean_json_output out)) out)))
  /\ (forall user_data persona structure,
        let p := plan_roadmap_activities_prompt env user_data persona structure in
        let out := reply env (calls w) p in
        json_loads (clean_json_output out) = None ->
        plan_roadmap_activities env user_data persona structure w
        = (Ret (JDict []),
           printed (after_call env p w)
             (failure_line
                "[RoadmapPlanner][Activities] Failed to parse activities JSON: "
                (JSONDecodeError (clean_json_output out)) out))).
Proof.
  repeat split; intros.
  - rewrite extract_user_data_eq. cbv zeta. fold p out. rewrite H. reflexivity.
  - rewrite classify_persona_eq. cbv zeta. fold p out. rewrite H. reflexivity.
  - rewrite plan_roadmap_think_eq. unfold parsed_or. cbv zeta. fold p out.
    rewrite H. reflexivity.
  - rewrite plan_roadmap_plan_eq. unfold parsed_or. cbv zeta. fold p out.
    rewrite H. reflexivity.
  - rewrite plan_roadmap_activities_eq. unfold parsed_or. cbv zeta. fold p out.
    rewrite H. reflexivity.
Qed.

Lemma parse_failure_yields_default_witness :
  fst (extract_user_data refusing_env (lit "5 years backend") (lit "hands-on")
         (lit "GenAI") fresh)
  = Ret (JDict [])
  /\ fst (classify_persona refusing_env (JDict []) fresh) = Ret (JStr [], JStr [])
  /\ fst (plan_roadmap_think refusing_env (JDict []) (JStr []) fresh) = Ret (JList [])
  /\ fst (plan_roadmap_plan refusing_env (JList []) fresh) = Ret (JDict [])
  /\ fst (plan_roadmap_activities refusing_env (JDict []) (JStr []) (JDict []) fresh)
     = Ret (JDict []).
Proof.
  destruct (parse_failure_yields_default refusing_env fresh)
    as [H1 [H2 [H3 [H4 H5]]]].
  split; [rewrite H1 by (vm_compute; reflexivity); reflexivity|].
  split; [rewrite H2 by (vm_compute; reflexivity); reflexivity|].
  split; [rewrite H3 by (vm_compute; reflexivity); reflexivity|].
  split; [rewrite H4 by (vm_compute; reflexivity); reflexivity|].
  rewrite H5 by (vm_compute; reflexivity); reflexivity.
Defined.



(** X5.  A stage reads the JSON the model wrote: when the model answers
    [extract_user_data] with a text that [json.loads] accepts, bare or
    inside a fenced block with an alphabetic tag or none and whatever
    whitespace around it, the stage returns the value of that text. *)
Theorem extract_user_data_reads_model_json (env : Env) (r i g : pystr) (w : world)
  (text t : pystr) (v : json) :
  remote env (calls w) (default_request (extract_user_data_prompt r i g)) = Ret text ->
  json_loads t = Some v ->
  text = t
  \/ (exists ws1 ws2 tag,
        all_space ws1 = true /\ all_space ws2 = true
        /\ forallb is_ascii_letter tag = true
        /\ text = ws1 ++ fenced_block tag t ++ ws2) ->
  fst (extract_user_data env r i g w) = Ret v.
Proof.
  intros Hr Ht Hs. rewrite extract_user_data_eq. cbv zeta.
  unfold reply. rewrite Hr.
  assert (E : clean_json_output (strip text) = clean_json_output text).
  { unfold clean_json_output. rewrite strip_idem. reflexivity. }
  rewrite E.
  destruct (json_loads_strip t v Ht) as [Hv Hf].
  assert (G : json_loads (clean_json_output text) = Some v).
  { destruct Hs as [->|[ws1 [ws2 [tag [H1 [H2 [H3 ->]]]]]]].
    - rewrite clean_unfenced by exact Hf. exact Hv.
    - rewrite clean_fenced_block_padded by assumption. exact Hv. }
  rewrite G. reflexivity.
Qed.

Lemma extract_user_data_reads_model_json_witness :
  fst (extract_user_data
         (demo_env [Ret (nl ++ fenced_block (lit "json") profile_response ++ nl)]
            false true)
         (lit "5 years backend, Python advanced")
         (lit "prefers hands-on, 8 hrs/week")
         (lit "integrate GenAI into workflow") fresh)
  = Ret (JDict [ (lit "domain", JStr (lit "backend engineering"));
                 (lit "weekly_availability_hours", JInt 8) ]).
Proof.
  apply (extract_user_data_reads_model_json _ _ _ _ _
           (nl ++ fenced_block (lit "json") profile_response ++ nl)
           profile_response).
  - reflexivity.
  - vm_compute. reflexivity.
  - right. exists nl, nl, (lit "json"). repeat split; reflexivity.
Defined.

(** C10.  When the response to [classify_persona] parses as a JSON object
    that lacks the ["persona"] key, the first component returned is the
    empty string, and likewise the second for a missing ["justification"];
    these are the values returned when parsing fails, so an object with
    neither key gives the caller the very pair a failed parse gives. *)
Theorem classify_persona_missing_keys (env : Env) (user_data : json) (w : world)
  (d : list (pystr * json)) :
  json_loads (clean_json_output
                (reply env (calls w) (classify_persona_prompt env user_data)))
  = Some (JDict d) ->
  (exists persona justification,
     fst (classify_persona env user_data w) = Ret (persona, justification)
     /\ (dict_get d (lit "persona") = None -> persona = JStr [])
     /\ (dict_get d (lit "justification") = None -> justification = JStr []))
  /\ (forall env' user_data' w',
        json_loads (clean_json_output
                      (reply env' (calls w')
                         (classify_persona_prompt env' user_data'))) = None ->
        fst (classify_persona env' user_data' w') = Ret (JStr [], JStr [])
        /\ (dict_get d (lit "persona") = None ->
            dict_get d (lit "justification") = None ->
            fst (classify_persona env user_data w)
            = fst (classify_persona env' user_data' w'))).
Proof.
  intros H.
  assert (E : fst (classify_persona env user_data w)
              = Ret (get_or d "persona" (JStr []),
                     get_or d "justification" (JStr []))).
  { rewrite classify_persona_eq. cbv zeta. rewrite H. reflexivity. }
  split.
  - exists (get_or d "persona" (JStr [])), (get_or d "justification" (JStr [])).
    split; [exact E|]. unfold get_or.
    split; intros Hk; rewrite Hk; reflexivity.
  - intros env' user_data' w' H'.
    assert (E' : fst (classify_persona env' user_data' w') = Ret (JStr [], JStr [])).
    { rewrite classify_persona_eq. cbv zeta. rewrite H'. reflexivity. }
    split; [exact E'|].
    intros Hp Hj. rewrite E, E'. unfold get_or. rewrite Hp, Hj. reflexivity.
Qed.

Lemma classify_persona_missing_keys_witness :
  fst (classify_persona (demo_env [Ret persona_only_response] false true)
         (JDict []) fresh)
  = Ret (JStr (lit "College student"), JStr [])
  /\ fst (classify_persona (demo_env [Ret (lit "{}")] false true) (JDict []) fresh)
     = fst (classify_persona (demo_env [Ret (lit "no idea")] false true)
              (JDict []) fresh).
Proof.
  split.
  - destruct (classify_persona_missing_keys
                (demo_env [Ret persona_only_response] false true) (JDict []) fresh
                [(lit "persona", JStr (lit "College student"))])
      as [[persona [justification [E [_ Hj]]]] _]; [vm_compute; reflexivity|].
    rewrite E. rewrite (Hj eq_refl). f_equal. f_equal.
    vm_compute in E. injection E as <- _. reflexivity.
  - destruct (classify_persona_missing_keys
                (demo_env [Ret (lit "{}")] false true) (JDict []) fresh [])
      as [_ H]; [vm_compute; reflexivity|].
    destruct (H (demo_env [Ret (lit "no idea")] false true) (JDict []) fresh)
      as [_ G]; [vm_compute; reflexivity|].
    exact (G eq_refl eq_refl).
Defined.

Lemma extract_user_data_returns (env : Env) (r i g : pystr) (w : world) :
  exists v w', extract_user_data env r i g w = (Ret v, w').
Proof. rewrite extract_user_data_eq. cbv zeta. destruct (json_loads _); eauto. Qed.

Lemma classify_persona_returns (env : Env) (user_data : json) (w : world) :
  exists pj w', classify_persona env user_data w = (Ret pj, w').
Proof.
  rewrite classify_persona_eq. cbv zeta. unfold classified.
  destruct (json_loads _) as [[]|]; eauto.
Qed.

Lemma plan_roadmap_think_returns (env : Env) (user_data persona : json) (w : world) :
  exists v w', plan_roadmap_think env user_data persona w = (Ret v, w').
Proof.
  rewrite plan_roadmap_think_eq. cbv zeta. unfold parsed_or.
  destruct (json_loads _); eauto.
Qed.

Lemma plan_roadmap_plan_returns (env : Env) (topics : json) (w : world) :
  exists v w', plan_roadmap_plan env topics w = (Ret v, w').
Proof.
  rewrite plan_roadmap_plan_eq. cbv zeta. unfold parsed_or.
  destruct (json_loads _); eauto.
Qed.

Lemma plan_roadmap_activities_returns (env : Env)
  (user_data persona structure : json) (w : world) :
  exists v w',
    plan_roadmap_activities env user_data persona structure w = (Ret v, w').
Proof.
  rewrite plan_roadmap_activities_eq. cbv zeta. unfold parsed_or.
  destruct (json_loads _); eauto.
Qed.

Lemma identify_topics_returns (env : Env) (user_data : json) (w : world) :
  exists v w', identify_topics env user_data w = (Ret v, w').
Proof.
  rewrite identify_topics_eq. cbv zeta. unfold parsed_or.
  destruct (json_loads _); eauto.
Qed.

(** X1.  No stage raises, whatever the model does, and what a stage
    returns is read off the text the model client handed back: the value
    that text decodes to after normalization, and the default of the stage
    when it decodes to nothing.  The default is the empty object for
    [extract_user_data], for the plan and for the activities, the empty
    list for the topics of [plan_roadmap] and of [identify_topics], and
    the pair of empty strings for [classify_persona], which also answers
    that pair when the text decodes to a value that is not an object.  A
    failed call hands back the empty string, which decodes to nothing, and
    so ends in the default as well. *)
Theorem stages_never_raise (env : Env) (w : world) :
  (forall r i g,
     fst (extract_user_data env r i g w)
     = Ret (value_or (JDict []) (parsed_reply env w (extract_user_data_prompt r i g))))
  /\ (forall user_data,
        fst (classify_persona env user_data w)
        = Ret (match parsed_reply env w (classify_persona_prompt env user_data) with
               | Some (JDict d) =>
                   (get_or d "persona" (JStr []), get_or d "justification" (JStr []))
               | _ => (JStr [], JStr [])
               end))
  /\ (forall user_data persona,
        fst (plan_roadmap_think env user_data persona w)
        = Ret (value_or (JList [])
                 (parsed_reply env w (plan_roadmap_think_prompt env user_data persona))))
  /\ (forall topics,
        fst (plan_roadmap_plan env topics w)
        = Ret (value_or (JDict [])
                 (parsed_reply env w (plan_roadmap_plan_prompt env topics))))
  /\ (forall user_data persona structure,
        fst (plan_roadmap_activities env user_data persona structure w)
        = Ret (value_or (JDict [])
                 (parsed_reply env w
                    (plan_roadmap_activities_prompt env user_data persona structure))))
  /\ (forall user_data,
        fst (identify_topics env user_data w)
        = Ret (value_or (JList [])
                 (parsed_reply env w (identify_topics_prompt env user_data))))
  /\ (forall prompt e,
        remote env (calls w) (default_request prompt) = Raise e ->
        reply env (calls w) prompt = [] /\ parsed_reply env w prompt = None).
Proof.
  unfold parsed_reply, value_or. repeat apply conj.
  - intros r i g. rewrite extract_user_data_eq. cbv zeta.
    destruct (json_loads _); reflexivity.
  - intros user_data. rewrite classify_persona_eq. cbv zeta. unfold classified.
    destruct (json_loads _) as [[]|]; reflexivity.
  - intros user_data persona. rewrite plan_roadmap_think_eq. cbv zeta.
    unfold parsed_or. destruct (json_loads _); reflexivity.
  - intros topics. rewrite plan_roadmap_plan_eq. cbv zeta.
    unfold parsed_or. destruct (json_loads _); reflexivity.
  - intros user_data persona structure. rewrite plan_roadmap_activities_eq. cbv zeta.
    unfold parsed_or. destruct (json_loads _); reflexivity.
  - intros user_data. rewrite identify_topics_eq. cbv zeta.
    unfold parsed_or. destruct (json_loads _); reflexivity.
  - intros prompt e H. unfold reply. rewrite H. split; reflexivity.
Qed.

(** ** Trace variants *)

Lemma plan_roadmap_trace_think_eq (env : Env) (user_data persona : json) (w : world) :
  plan_roadmap_trace_think env user_data persona None w
  = let p := plan_roadmap_trace_think_prompt env user_data persona in
    let out := reply env (calls w) p in
    attach (fun v => (v, p, out))
      (parsed_or (JList []) "[RoadmapPlanner][Think] Failed to parse topics JSON: "
         out (after_call env p w)).
Proof.
  unfold plan_roadmap_trace_think, parsed_or, attach. run.
  rewrite gemini_generate_eq. cbv zeta. destruct (json_loads _); reflexivity.
Qed.

Lemma plan_roadmap_trace_plan_eq (env : Env) (topics : json) (w : world) :
  plan_roadmap_trace_plan env topics w
  = let p := plan_roadmap_trace_plan_prompt env topics in
    let out := reply env (calls w) p in
    attach (fun v => (v, p, out))
      (parsed_or (JDict []) "[RoadmapPlanner][Plan] Failed to parse structure JSON: "
         out (after_call env p w)).
Proof.
  unfold plan_roadmap_trace_plan, parsed_or, attach. run.
  rewrite gemini_generate_eq. cbv zeta. destruct (json_loads _); reflexivity.
Qed.

Lemma plan_roadmap_trace_activities_eq (env : Env)
  (user_data persona structure : json) (w : world) :
  plan_roadmap_trace_activities env user_data persona structure w
  = let p := plan_roadmap_trace_activities_prompt env user_data persona structure in
    let out := reply env (calls w) p in
    attach (fun v => (v, p, out))
      (parsed_or (JDict [])
         "[RoadmapPlanner][Activities] Failed to parse activities JSON: "
         out (after_call env p w)).
Proof.
  unfold plan_roadmap_trace_activities, parsed_or, attach. run.
  rewrite gemini_generate_eq. cbv zeta. destruct (json_loads _); reflexivity.
Qed.

Lemma parsed_or_returns (default : json) (label : string) (out : pystr) (w1 : world) :
  exists v, parsed_or default label out w1
            = (Ret v, match json_loads (clean_json_output out) with
                      | Some _ => w1
                      | None =>
                          printed w1
                            (failure_line label
                               (JSONDecodeError (clean_json_output out)) out)
                      end).
Proof.
  unfold parsed_or. destruct (json_loads _); eexists; reflexivity.
Qed.

Lemma parsed_or_calls (default : json) (label : string) (out : pystr) (w1 : world) :
  calls (snd (parsed_or default label out w1)) = calls w1.
Proof. unfold parsed_or. destruct (json_loads _); reflexivity. Qed.

(** The two planners side by side: the same three requests, the same
    parsed values, the same assembly. *)
Lemma plan_roadmap_trace_run (env : Env) (user_data persona : json) (w : world) :
  exists topics structure activities w3,
    let p1 := plan_roadmap_think_prompt env user_data persona in
    let p2 := plan_roadmap_plan_prompt env topics in
    let p3 := plan_roadmap_activities_prompt env user_data persona structure in
    let h1 := calls w ++ [default_request p1] in
    let h2 := h1 ++ [default_request p2] in
    plan_roadmap env user_data persona w
    = (plan_roadmap_assemble env user_data persona structure activities, w3)
    /\ plan_roadmap_trace env user_data persona None w
       = attach (fun record =>
                   (record,
                    {| trace_topics := p1; trace_structure := p2;
                       trace_activities := p3 |},
                    {| trace_topics := reply env (calls w) p1;
                       trace_structure := reply env h1 p2;
                       trace_activities := reply env h2 p3 |}))
           (plan_roadmap_assemble env user_data persona structure activities, w3)
    /\ calls w3 = h2 ++ [default_request p3].
Proof.
  unfold plan_roadmap_trace, plan_roadmap. run.
  rewrite plan_roadmap_trace_think_eq, plan_roadmap_think_eq.
  change (plan_roadmap_trace_think_prompt env user_data persona)
    with (plan_roadmap_think_prompt env user_data persona).
  cbv zeta.
  set (p1 := plan_roadmap_think_prompt env user_data persona).
  destruct (parsed_or_returns (JList [])
              "[RoadmapPlanner][Think] Failed to parse topics JSON: "
              (reply env (calls w) p1) (after_call env p1 w)) as [topics E1].
  pose proof (parsed_or_calls (JList [])
              "[RoadmapPlanner][Think] Failed to parse topics JSON: "
              (reply env (calls w) p1) (after_call env p1 w)) as C1.
  rewrite E1 in *. cbn [snd] in C1. rewrite calls_after_call in C1.
  set (w1 := match json_loads _ with Some _ => _ | None => _ end) in *.
  clearbody w1. unfold attach at 1. cbn [fst snd].
  rewrite plan_roadmap_trace_plan_eq, plan_roadmap_plan_eq.
  change (plan_roadmap_trace_plan_prompt env topics)
    with (plan_roadmap_plan_prompt env topics).
  cbv zeta.
  set (p2 := plan_roadmap_plan_prompt env topics).
  destruct (parsed_or_returns (JDict [])
              "[RoadmapPlanner][Plan] Failed to parse structure JSON: "
              (reply env (calls w1) p2) (after_call env p2 w1)) as [structure E2].
  pose proof (parsed_or_calls (JDict [])
              "[RoadmapPlanner][Plan] Failed to parse structure JSON: "
              (reply env (calls w1) p2) (after_call env p2 w1)) as C2.
  rewrite E2 in *. cbn [snd] in C2. rewrite calls_after_call in C2.
  set (w2 := match json_loads _ with Some _ => _ | None => _ end) in *.
  clearbody w2. unfold attach at 1. cbn [fst snd].
  rewrite plan_roadmap_trace_activities_eq, plan_roadmap_activities_eq.
  change (plan_roadmap_trace_activities_prompt env user_data persona structure)
    with (plan_roadmap_activities_prompt env user_data persona structure).
  cbv zeta.
  set (p3 := plan_roadmap_activities_prompt env user_data persona structure).
  destruct (parsed_or_returns (JDict [])
              "[RoadmapPlanner][Activities] Failed to parse activities JSON: "
              (reply env (calls w2) p3) (after_call env p3 w2)) as [activities E3].
  pose proof (parsed_or_calls (JDict [])
              "[RoadmapPlanner][Activities] Failed to parse activities JSON: "
              (reply env (calls w2) p3) (after_call env p3 w2)) as C3.
  rewrite E3 in *. cbn [snd] in C3. rewrite calls_after_call in C3.
  set (w3 := match json_loads _ with Some _ => _ | None => _ end) in *.
  clearbody w3. unfold attach at 1. cbn [fst snd].
  change (plan_roadmap_trace_assemble env user_data persona structure activities)
    with (plan_roadmap_assemble env user_data persona structure activities).
  exists topics, structure, activities, w3.
  rewrite C3, C2, C1. fold p1 p2 p3. unfold attach. cbn [fst snd].
  split; [reflexivity|]. split; [|reflexivity].
  destruct (plan_roadmap_assemble env user_data persona structure activities);
    reflexivity.
Qed.

(** C7 (as amended).  Each trace variant computes what its plain
    counterpart computes: forgetting the trace, its outcome (value or
    exception) and the world it leaves are those of the plain stage on the
    same model and world.  The prompt it returns is the prompt of the
    request it sent, and the response it returns is the text the model
    client handed back for that request: the model's text trimmed of
    surrounding whitespace, and the empty string when the call failed.
    For [plan_roadmap_trace] without precomputed topics the three prompts
    are those of the three requests sent, in order, and the three
    responses the texts handed back for them. *)
Theorem trace_variants_agree (env : Env) (w : world) :
  (forall r i g,
     let p := extract_user_data_trace_prompt r i g in
     extract_user_data_trace env r i g w
     = attach (fun v => (v, p, reply env (calls w) p))
         (extract_user_data env r i g w)
     /\ calls (snd (extract_user_data_trace env r i g w))
        = calls w ++ [default_request p])
  /\ (forall user_data,
        let p := classify_persona_trace_prompt env user_data in
        classify_persona_trace env user_data w
        = attach (fun pj => (fst pj, snd pj, p, reply env (calls w) p))
            (classify_persona env user_data w)
        /\ calls (snd (classify_persona_trace env user_data w))
           = calls w ++ [default_request p])
  /\ (forall user_data persona,
        attach (fun t => fst (fst t)) (plan_roadmap_trace env user_data persona None w)
        = plan_roadmap env user_data persona w
        /\ (forall record prompts responses w',
              plan_roadmap_trace env user_data persona None w
              = (Ret (record, prompts, responses), w') ->
              let q1 := default_request (trace_topics prompts) in
              let q2 := default_request (trace_structure prompts) in
              let q3 := default_request (trace_activities prompts) in
              calls w' = calls w ++ [q1; q2; q3]
              /\ trace_topics responses
                 = reply env (calls w) (trace_topics prompts)
              /\ trace_structure responses
                 = reply env (calls w ++ [q1]) (trace_structure prompts)
              /\ trace_activities responses
                 = reply env (calls w ++ [q1; q2]) (trace_activities prompts)))
  /\ (forall history prompt,
        match remote env history (default_request prompt) with
        | Ret text => reply env history prompt = strip text
        | Raise _ => reply env history prompt = []
        end).
Proof.
  split; [|split; [|split]].
  - intros r i g p. rewrite extract_user_data_trace_eq, extract_user_data_eq.
    change (extract_user_data_trace_prompt r i g) with (extract_user_data_prompt r i g)
      in *.
    cbv zeta. unfold attach.
    destruct (json_loads _); cbn [fst snd calls printed];
      rewrite calls_after_call; split; reflexivity.
  - intros user_data p.
    rewrite classify_persona_trace_eq, classify_persona_eq.
    change (classify_persona_trace_prompt env user_data)
      with (classify_persona_prompt env user_data) in *.
    cbv zeta. unfold attach, classified.
    destruct (json_loads _) as [[]|]; cbn [fst snd calls printed];
      rewrite calls_after_call; split; reflexivity.
  - intros user_data persona.
    destruct (plan_roadmap_trace_run env user_data persona w)
      as [topics [structure [activities [w3 [E [Et C]]]]]].
    cbv zeta in E, Et, C. rewrite E, Et. unfold attach. cbn [fst snd].
    split.
    + destruct (plan_roadmap_assemble env user_data persona structure activities);
        reflexivity.
    + intros record prompts responses w' H.
      destruct (plan_roadmap_assemble env user_data persona structure activities);
        [|discriminate].
      injection H as <- <- <- <-. cbn [trace_topics trace_structure trace_activities].
      rewrite C. repeat rewrite <- app_assoc. cbn [app].
      repeat split; reflexivity.
  - intros history prompt. unfold reply.
    destruct (remote env history (default_request prompt)); reflexivity.
Qed.

Lemma trace_variants_agree_witness :
  exists record prompts responses w',
    plan_roadmap_trace (demo_env (skipn 2 helpful_model) false true)
      (JDict []) (JStr (lit "Working professional (tech)")) None fresh
    = (Ret (record, prompts, responses), w')
    /\ calls w' = [ default_request (trace_topics prompts);
                    default_request (trace_structure prompts);
                    default_request (trace_activities prompts) ]
    /\ trace_topics responses = topics_response
    /\ trace_structure responses = structure_response
    /\ trace_activities responses = activities_response
    /\ fst (plan_roadmap (demo_env (skipn 2 helpful_model) false true)
              (JDict []) (JStr (lit "Working professional (tech)")) fresh)
       = Ret record.
Proof.
  destruct (trace_variants_agree (demo_env (skipn 2 helpful_model) false true) fresh)
    as [_ [_ [H _]]].
  destruct (H (JDict []) (JStr (lit "Working professional (tech)"))) as [H1 H2].
  destruct (plan_roadmap_trace (demo_env (skipn 2 helpful_model) false true)
              (JDict []) (JStr (lit "Working professional (tech)")) None fresh)
    as [[[[record prompts] responses]|e] w'] eqn:E.
  - exists record, prompts, responses, w'.
    destruct (H2 record prompts responses w' eq_refl) as [C [R1 [R2 R3]]].
    split; [reflexivity|]. split; [exact C|].
    rewrite <- H1. unfold attach. cbn [fst snd].
    vm_compute in E. injection E as <- <- <- <-.
    repeat split; vm_compute; reflexivity.
  - vm_compute in E. discriminate E.
Defined.

(** C7 as stated fails on the raw response: a model that answers an object
    with blanks around it has the trimmed text returned with the trace, and
    a call that fails, where there is no response at all, has the empty
    string returned. *)
Lemma trace_response_is_not_raw_counterexample :
  remote (demo_env [Ret (lit "  {}  " ++ nl)] false true) []
    (default_request
       (extract_user_data_trace_prompt (lit "5 years backend, Python advanced")
          (lit "prefers hands-on, 8 hrs/week") (lit "integrate GenAI into workflow")))
  = Ret (lit "  {}  " ++ nl)
  /\ fst (extract_user_data_trace (demo_env [Ret (lit "  {}  " ++ nl)] false true)
            (lit "5 years backend, Python advanced")
            (lit "prefers hands-on, 8 hrs/week")
            (lit "integrate GenAI into workflow") fresh)
     = Ret (JDict [],
            extract_user_data_trace_prompt (lit "5 years backend, Python advanced")
              (lit "prefers hands-on, 8 hrs/week")
              (lit "integrate GenAI into workflow"),
            lit "{}")
  /\ pystr_eqb (lit "{}") (lit "  {}  " ++ nl) = false
  /\ remote (demo_env [Raise (RemoteError (lit "quota exceeded"))] false true) []
       (default_request
          (extract_user_data_trace_prompt (lit "5 years backend, Python advanced")
             (lit "prefers hands-on, 8 hrs/week")
             (lit "integrate GenAI into workflow")))
     = Raise (RemoteError (lit "quota exceeded"))
  /\ fst (extract_user_data_trace
            (demo_env [Raise (RemoteError (lit "quota exceeded"))] false true)
            (lit "5 years backend, Python advanced")
            (lit "prefers hands-on, 8 hrs/week")
            (lit "integrate GenAI into workflow") fresh)
     = Ret (JDict [],
            extract_user_data_trace_prompt (lit "5 years backend, Python advanced")
              (lit "prefers hands-on, 8 hrs/week")
              (lit "integrate GenAI into workflow"),
            []).
Proof. repeat apply conj; vm_compute; reflexivity. Qed.

(** X3.  [identify_topics_trace] sends the request [identify_topics] sends
    and returns the topics it returns, together with the prompt sent and
    the text the model client handed back for it.  When that text decodes,
    the two leave the same world; when it does not, both answer the empty
    list and each prints one line, and the two worlds differ only in the
    label that line opens with. *)
Theorem identify_topics_trace_agrees (env : Env) (user_data : json) (w : world) :
  let p := identify_topics_trace_prompt env user_data in
  let out := reply env (calls w) p in
  let w1 := after_call env p w in
  identify_topics_prompt env user_data = p
  /\ match json_loads (clean_json_output out) with
     | Some topics =>
         identify_topics env user_data w = (Ret topics, w1)
         /\ identify_topics_trace env user_data w = (Ret (topics, p, out), w1)
     | None =>
         identify_topics env user_data w
         = (Ret (JList []),
            printed w1
              (failure_line
                 "[RoadmapPlanner][identify_topics] Failed to parse topics JSON: "
                 (JSONDecodeError (clean_json_output out)) out))
         /\ identify_topics_trace env user_data w
            = (Ret (JList [], p, out),
               printed w1
                 (failure_line
                    "[RoadmapPlanner][identify_topics_trace] Failed to parse topics JSON: "
                    (JSONDecodeError (clean_json_output out)) out))
     end.
Proof.
  intros p out w1. split; [reflexivity|].
  rewrite identify_topics_trace_eq, identify_topics_eq.
  change (identify_topics_prompt env user_data) with p.
  change (identify_topics_trace_prompt env user_data) with p.
  cbv zeta. fold out w1. unfold attach, parsed_or.
  destruct (json_loads (clean_json_output out)); split; reflexivity.
Qed.

(** ** Dictionaries *)

Lemma pystr_eqb_eq (a b : pystr) : pystr_eqb a b = true <-> a = b.
Proof.
  revert b. induction a as [|x a IH]; destruct b as [|y b]; simpl;
    try (split; [discriminate|discriminate]); [split; reflexivity|].
  rewrite andb_true_iff, N.eqb_eq, IH.
  split; [intros [-> ->]; reflexivity|intros E; injection E as -> ->; auto].
Qed.

Lemma pystr_eqb_refl (a : pystr) : pystr_eqb a a = true.
Proof. apply pystr_eqb_eq. reflexivity. Qed.

Lemma dict_get_app (d1 d2 : list (pystr * json)) (k : pystr) :
  dict_get (d1 ++ d2) k
  = match dict_get d1 k with Some v => Some v | None => dict_get d2 k end.
Proof.
  induction d1 as [|[k0 v0] r IH]; simpl; [reflexivity|].
  destruct (pystr_eqb k0 k); [reflexivity|exact IH].
Qed.

Lemma dict_get_set (d : list (pystr * json)) (k k' : pystr) (v : json) :
  dict_get (dict_set d k v) k'
  = if pystr_eqb k k' then Some v else dict_get d k'.
Proof.
  induction d as [|[k0 v0] r IH]; simpl.
  - destruct (pystr_eqb k k'); reflexivity.
  - destruct (pystr_eqb k0 k) eqn:E0; simpl.
    + apply pystr_eqb_eq in E0. subst k0.
      destruct (pystr_eqb k k'); reflexivity.
    + destruct (pystr_eqb k0 k') eqn:E1; [|exact IH].
      destruct (pystr_eqb k k') eqn:E2; [|reflexivity].
      apply pystr_eqb_eq in E1, E2. subst. rewrite pystr_eqb_refl in E0.
      discriminate.
Qed.

(** Reading a field with a default does not see whether the field was
    filled in with that default. *)
Lemma py_get_fill (d : list (pystr * json)) (key : string) (v : json)
  (k : pystr) (default : json) :
  (lit key = k -> v = default) ->
  py_get (JDict (fill d key v)) k default = py_get (JDict d) k default.
Proof.
  intros H. unfold py_get, fill.
  destruct (dict_get d (lit key)) eqn:E; [reflexivity|].
  rewrite dict_get_app. destruct (dict_get d k) eqn:Ek; [reflexivity|].
  simpl. destruct (pystr_eqb (lit key) k) eqn:Eq; [|reflexivity].
  apply pystr_eqb_eq in Eq. rewrite (H Eq). reflexivity.
Qed.

Lemma py_get_set_other (d : list (pystr * json)) (k k' : pystr) (v default : json) :
  pystr_eqb k k' = false ->
  py_get (JDict (dict_set d k v)) k' default = py_get (JDict d) k' default.
Proof. intros H. unfold py_get. rewrite dict_get_set, H. reflexivity. Qed.

Lemma py_get_set_same (d : list (pystr * json)) (k : pystr) (v default : json) :
  py_get (JDict (dict_set d k v)) k default = Ret v.
Proof. unfold py_get. rewrite dict_get_set, pystr_eqb_refl. reflexivity. Qed.

Lemma dict_get_fill_same (d : list (pystr * json)) (key : string) (v : json) :
  exists x, dict_get (fill d key v) (lit key) = Some x.
Proof.
  unfold fill. destruct (dict_get d (lit key)) eqn:E; [eauto|].
  rewrite dict_get_app, E. simpl. rewrite pystr_eqb_refl. eauto.
Qed.

Lemma dict_get_fill_keeps (d : list (pystr * json)) (key : string) (v : json)
  (k : pystr) :
  (exists x, dict_get d k = Some x) -> exists x, dict_get (fill d key v) k = Some x.
Proof.
  intros [x E]. unfold fill. destruct (dict_get d (lit key)); [eauto|].
  rewrite dict_get_app, E. eauto.
Qed.

Lemma dict_get_set_keeps (d : list (pystr * json)) (key : pystr) (v : json)
  (k : pystr) :
  (exists x, dict_get d k = Some x) -> exists x, dict_get (dict_set d key v) k = Some x.
Proof.
  intros [x E]. rewrite dict_get_set. destruct (pystr_eqb key k); eauto.
Qed.

(** ** The formatter *)

Lemma for_each_total {S : Type} (items : list json) (body : json -> S -> outcome S) :
  (forall x s, In x items -> exists s', body x s = Ret s') ->
  forall s, exists s', for_each items body s = Ret s'.
Proof.
  induction items as [|x r IH]; intros H s; simpl; [eexists; reflexivity|].
  destruct (H x s (or_introl eq_refl)) as [s1 E]. rewrite E.
  apply IH. intros y t Hy. apply H. right. exact Hy.
Qed.

Lemma for_each_ext {S : Type} (items : list json) (f g : json -> S -> outcome S) :
  (forall x s, In x items -> f x s = g x s) ->
  forall s, for_each items f s = for_each items g s.
Proof.
  induction items as [|x r IH]; intros H s; simpl; [reflexivity|].
  rewrite (H x s (or_introl eq_refl)). destruct (g x s); [|reflexivity].
  apply IH. intros y t Hy. apply H. right. exact Hy.
Qed.

Lemma for_each_map {S : Type} (h : json -> json) (items : list json)
  (body : json -> S -> outcome S) (s : S) :
  for_each (map h items) body s = for_each items (fun x => body (h x)) s.
Proof.
  revert s. induction items as [|x r IH]; intros s; simpl; [reflexivity|].
  destruct (body (h x) s); [apply IH|reflexivity].
Qed.

Lemma format_topic_total (env : Env) (topic : json) (lines : list pystr) :
  is_object topic = true -> exists lines', format_topic env topic lines = Ret lines'.
Proof.
  destruct topic; try discriminate. intros _.
  unfold format_topic, py_get. run. eexists. reflexivity.
Qed.

Lemma format_level_total (env : Env) (level : json) (lines : list pystr) :
  level_ok level = true -> exists lines', format_level env level lines = Ret lines'.
Proof.
  destruct level as [| | | | | |d]; try discriminate. unfold level_ok.
  intros H. unfold format_level. run. unfold py_get at 1 2 3 4.
  cbv beta iota.
  destruct (dict_get d (lit "topics")) as [[| | | | |topics|]|]; try discriminate;
    cbv beta iota delta [py_iter].
  - apply for_each_total. intros x s Hx. apply format_topic_total.
    rewrite forallb_forall in H. apply H. exact Hx.
  - simpl. eexists. reflexivity.
Qed.

Lemma format_table_total (env : Env) (roadmap_data : json) :
  record_ok roadmap_data = true -> exists text, format_table env roadmap_data = Ret text.
Proof.
  destruct roadmap_data as [| | | | | |d]; try discriminate. unfold record_ok.
  intros H. unfold format_table. run. unfold py_get at 1. cbv beta iota.
  set (roadmap := match dict_get d (lit "roadmap") with
                  | Some x => x
                  | None => JDict []
                  end).
  assert (Hr : roadmap_ok roadmap = true).
  { subst roadmap. destruct (dict_get d (lit "roadmap")); [exact H|reflexivity]. }
  clearbody roadmap. clear H.
  destruct roadmap as [| | | | | |r]; try discriminate. unfold roadmap_ok in Hr.
  unfold py_get. cbv beta iota.
  destruct (dict_get r (lit "levels")) as [[| | | | |levels|]|]; try discriminate;
    cbv beta iota delta [py_iter].
  - match goal with
    | |- context [for_each levels ?f ?s0] =>
        assert (G : exists l', for_each levels f s0 = Ret l')
    end.
    { apply for_each_total. intros x t Hx. apply format_level_total.
      rewrite forallb_forall in Hr. apply Hr. exact Hx. }
    destruct G as [l' E]. rewrite E. eexists. reflexivity.
  - simpl. eexists. reflexivity.
Qed.

Ltac fill_side :=
  let E := fresh "E" in
  intros E; first [reflexivity | (cbv in E; discriminate E)].

Lemma format_topic_defaults (env : Env) (topic : json) (lines : list pystr) :
  format_topic env (topic_defaults topic) lines = format_topic env topic lines.
Proof.
  destruct topic as [| | | | | |d]; try reflexivity.
  unfold topic_defaults, format_topic. run.
  repeat rewrite py_get_fill by fill_side. reflexivity.
Qed.

Lemma format_level_defaults (env : Env) (level : json) (lines : list pystr) :
  format_level env (level_defaults level) lines = format_level env level lines.
Proof.
  destruct level as [| | | | | |d]; try reflexivity.
  unfold level_defaults, format_level. run.
  rewrite py_get_set_same.
  repeat rewrite py_get_set_other by reflexivity.
  repeat rewrite py_get_fill by fill_side.
  unfold py_get, get_or. cbv beta iota.
  destruct (dict_get d (lit "topics")) as [[| | | | |topics|]|]; try reflexivity.
  cbv beta iota delta [py_iter]. rewrite for_each_map.
  apply for_each_ext. intros x s _. apply format_topic_defaults.
Qed.

Lemma format_table_defaults (env : Env) (roadmap_data : json) :
  format_table env (with_defaults roadmap_data) = format_table env roadmap_data.
Proof.
  destruct roadmap_data as [| | | | | |d]; try reflexivity.
  unfold with_defaults, format_table. run.
  rewrite py_get_set_same.
  change (py_get (JDict d) (lit "roadmap") (JDict []))
    with (Ret (get_or d "roadmap" (JDict []))).
  cbv beta iota. generalize (get_or d "roadmap" (JDict [])).
  intros [| | | | | |r]; try reflexivity.
  unfold roadmap_defaults.
  rewrite py_get_set_same.
  repeat rewrite py_get_set_other by reflexivity.
  repeat rewrite py_get_fill by fill_side.
  unfold py_get, get_or. cbv beta iota.
  destruct (dict_get r (lit "levels")) as [[| | | | |levels|]|]; try reflexivity.
  cbv beta iota delta [py_iter]. rewrite for_each_map.
  match goal with
  | |- context [for_each levels ?f ?s0] =>
      rewrite (for_each_ext levels f (format_level env))
  end; [reflexivity|].
  intros x s _. apply format_level_defaults.
Qed.

Ltac present :=
  match goal with
  | |- context [dict_get ?d ?k] =>
      let x := fresh "x" in
      let E := fresh "E" in
      assert (exists x, dict_get d k = Some x) as [x E]
        by (repeat first [ apply dict_get_fill_same
                         | apply dict_get_set_keeps
                         | apply dict_get_fill_keeps ]);
      rewrite E; clear x E
  end.

Lemma topic_defaults_complete (topic : json) :
  is_object topic = true -> topic_complete (topic_defaults topic) = true.
Proof.
  destruct topic as [| | | | | |d]; try discriminate. intros _.
  unfold topic_complete, has_keys, topic_defaults, member. cbn [forallb].
  repeat present. reflexivity.
Qed.

Lemma level_defaults_complete (level : json) :
  level_ok level = true -> level_complete (level_defaults level) = true.
Proof.
  destruct level as [| | | | | |d]; try discriminate. unfold level_ok. intros H.
  unfold level_complete, has_keys, level_defaults, member. cbn [forallb].
  rewrite !dict_get_set. cbn [pystr_eqb lit N_of_ascii N.eqb Pos.eqb andb
            Ascii.N_of_digits N.add N.mul Pos.add Pos.mul Pos.succ].
  repeat present. cbn [andb]. unfold get_or.
  destruct (dict_get d (lit "topics")) as [[| | | | |topics|]|]; try discriminate;
    [|reflexivity].
  rewrite forallb_forall in *. intros x Hx. apply in_map_iff in Hx as [t [<- Ht]].
  apply topic_defaults_complete, H, Ht.
Qed.

Lemma with_defaults_complete (roadmap_data : json) :
  record_ok roadmap_data = true -> record_complete (with_defaults roadmap_data) = true.
Proof.
  destruct roadmap_data as [| | | | | |d]; try discriminate. unfold record_ok.
  intros H. unfold record_complete, with_defaults, member.
  rewrite dict_get_set, pystr_eqb_refl. unfold get_or.
  assert (Hr : roadmap_ok (match dict_get d (lit "roadmap") with
                           | Some x => x
                           | None => JDict []
                           end) = true).
  { destruct (dict_get d (lit "roadmap")); [exact H|reflexivity]. }
  revert Hr. generalize (match dict_get d (lit "roadmap") with
                         | Some x => x
                         | None => JDict []
                         end).
  clear H. intros [| | | | | |r]; try discriminate. unfold roadmap_ok. intros H.
  unfold roadmap_complete, has_keys, roadmap_defaults, member. cbn [forallb].
  rewrite !dict_get_set. cbn [pystr_eqb lit N_of_ascii N.eqb Pos.eqb andb
            Ascii.N_of_digits N.add N.mul Pos.add Pos.mul Pos.succ].
  repeat present. cbn [andb]. unfold get_or.
  destruct (dict_get r (lit "levels")) as [[| | | | |levels|]|]; try discriminate;
    [|reflexivity].
  rewrite forallb_forall in *. intros x Hx. apply in_map_iff in Hx as [t [<- Ht]].
  apply level_defaults_complete, H, Ht.
Qed.

(** C8 (as amended).  [format_table] is a pure function of the record, and
    it is total on roadmap records: for every record whose containers have
    their shape (the record and its roadmap are objects, the levels a list
    of objects, the topics of a level a list of objects), with any of its
    fields missing, it returns a text.  A missing field is rendered as the
    code's default for it: ['GenAI Roadmap'] for the title, ['?'] for the
    number of a level, the empty string for the other texts, zero for the
    numbers and no entries for the lists; that is, the record renders as
    the record completed with these values does. *)
Theorem format_table_total_with_defaults (env : Env) (roadmap_data : json) :
  record_ok roadmap_data = true ->
  (exists text, format_table env roadmap_data = Ret text)
  /\ record_complete (with_defaults roadmap_data) = true
  /\ format_table env (with_defaults roadmap_data) = format_table env roadmap_data.
Proof.
  intros H. split; [apply format_table_total; exact H|].
  split; [apply with_defaults_complete; exact H|apply format_table_defaults].
Qed.

Lemma format_table_total_with_defaults_witness :
  format_table (demo_env [] false true)
    (JDict
       [ (lit "roadmap",
          JDict [ (lit "title", JStr (lit "GenAI Roadmap"));
                  (lit "duration_days", JInt 0);
                  (lit "total_estimated_hours", JInt 0);
                  (lit "levels", JList []) ]) ])
  = format_table (demo_env [] false true) (JDict [])
  /\ format_table (demo_env [] false true) (JDict [])
     = Ret (header_block (lit "GenAI Roadmap") (lit "0") (lit "0")).
Proof.
  destruct (format_table_total_with_defaults (demo_env [] false true) (JDict [])
              eq_refl) as [_ [_ D]].
  split; [exact D|reflexivity].
Defined.

(** C8 as stated fails: a missing title is not rendered as the empty
    string, nor a missing level number. *)
Lemma format_table_empty_defaults_counterexample :
  (exists t1 t2,
     format_table (demo_env [] false true) (JDict [(lit "roadmap", JDict [])])
     = Ret t1
     /\ format_table (demo_env [] false true)
          (JDict [(lit "roadmap", JDict [(lit "title", JStr [])])])
        = Ret t2
     /\ t1 <> t2)
  /\ (exists t1 t2,
        format_table (demo_env [] false true)
          (JDict [(lit "roadmap", JDict [(lit "levels", JList [JDict []])])])
        = Ret t1
        /\ format_table (demo_env [] false true)
             (JDict [(lit "roadmap",
                      JDict [(lit "levels",
                              JList [JDict [(lit "level", JStr [])]])])])
           = Ret t2
        /\ t1 <> t2).
Proof.
  split; eexists _, _; (split; [vm_compute; reflexivity|]);
    (split; [vm_compute; reflexivity|]); vm_compute; discriminate.
Qed.

(** Outside the roadmap records [format_table] raises: a [levels] field
    that is a number cannot be iterated. *)
Lemma format_table_raises_on_scalar_levels (env : Env) :
  format_table env (JDict [(lit "roadmap", JDict [(lit "levels", JInt 5)])])
  = Raise (TypeError_not_iterable (lit "int")).
Proof. reflexivity. Qed.

(** ** The PDF renderer *)

Ltac split_draws :=
  repeat match goal with
         | |- context [draw_wrapped ?e ?c ?t ?x ?y ?f ?n ?m] =>
             destruct (draw_wrapped e c t x y f n m)
         end.

Lemma pdf_topic_total (env : Env) (margin wrap_width height : Z) (topic : json)
  (cy : canvas * Z) :
  is_object topic = true ->
  exists cy', pdf_topic env margin wrap_width height topic cy = Ret cy'.
Proof.
  destruct topic; try discriminate. intros _. destruct cy as [c y].
  unfold pdf_topic, py_get. run. split_draws.
  match goal with |- context [if ?b then _ else _] => destruct b end;
    eexists; reflexivity.
Qed.

Lemma pdf_level_total (env : Env) (margin wrap_width height : Z) (level : json)
  (cy : canvas * Z) :
  level_ok level = true ->
  exists cy', pdf_level env margin wrap_width height level cy = Ret cy'.
Proof.
  destruct level as [| | | | | |d]; try discriminate. unfold level_ok.
  intros H. destruct cy as [c y]. unfold pdf_level. run.
  unfold py_get. cbv beta iota. split_draws.
  destruct (dict_get d (lit "topics")) as [[| | | | |topics|]|]; try discriminate;
    cbv beta iota delta [py_iter].
  - match goal with
    | |- context [for_each topics ?f ?s0] =>
        assert (G : exists l', for_each topics f s0 = Ret l')
    end.
    { apply for_each_total. intros x t Hx. apply pdf_topic_total.
      rewrite forallb_forall in H. apply H. exact Hx. }
    destruct G as [l' E]. rewrite E. eexists. reflexivity.
  - simpl. eexists. reflexivity.
Qed.

Lemma generate_pdf_unavailable (env : Env) (roadmap_data : json) (output_path : pystr)
  (w : world) :
  REPORTLAB_AVAILABLE env = false ->
  generate_pdf env roadmap_data output_path w
  = (Ret [],
     printed w
       [Text (lit "[OutputFormatter] reportlab not installed. Skipping PDF generation.")]).
Proof. intros H. unfold generate_pdf. rewrite H. reflexivity. Qed.

Lemma generate_pdf_available (env : Env) (roadmap_data : json) (output_path : pystr)
  (w : world) :
  REPORTLAB_AVAILABLE env = true ->
  record_ok roadmap_data = true ->
  fs_writable env output_path = true ->
  exists c,
    generate_pdf env roadmap_data output_path w
    = (Ret output_path,
       {| calls := calls w; stdout := stdout w;
          files := (output_path, c) :: files w |}).
Proof.
  intros Ha H Hw. unfold generate_pdf. rewrite Ha. cbv beta iota delta [negb].
  destruct roadmap_data as [| | | | | |d]; try discriminate. unfold record_ok in H.
  run. unfold py_get at 1. cbv beta iota.
  set (roadmap := match dict_get d (lit "roadmap") with
                  | Some x => x
                  | None => JDict []
                  end).
  assert (Hr : roadmap_ok roadmap = true).
  { subst roadmap. destruct (dict_get d (lit "roadmap")); [exact H|reflexivity]. }
  clearbody roadmap. clear H.
  destruct roadmap as [| | | | | |r]; try discriminate. unfold roadmap_ok in Hr.
  unfold py_get. cbv beta iota. split_draws.
  unfold canvas_save. rewrite Hw.
  destruct (dict_get r (lit "levels")) as [[| | | | |levels|]|]; try discriminate;
    cbv beta iota delta [py_iter].
  - match goal with
    | |- context [for_each levels ?f ?s0] =>
        assert (G : exists l', for_each levels f s0 = Ret l')
    end.
    { apply for_each_total. intros x t Hx. apply pdf_level_total.
      rewrite forallb_forall in Hr. apply Hr. exact Hx. }
    destruct G as [l' E]. rewrite E. eexists. reflexivity.
  - simpl. eexists. reflexivity.
Qed.

(** [generate_pdf] and [format_table] read the record alike. *)
Lemma generate_pdf_eq (env : Env) (roadmap_data : json) (output_path : pystr)
  (w : world) :
  generate_pdf env roadmap_data output_path w
  = if REPORTLAB_AVAILABLE env then
      match pdf_document env roadmap_data with
      | Ret c =>
          if fs_writable env output_path then
            (Ret output_path,
             {| calls := calls w; stdout := stdout w;
                files := (output_path, c) :: files w |})
          else (Raise (OSError output_path), w)
      | Raise e => (Raise e, w)
      end
    else
      (Ret [],
       printed w
         [Text (lit "[OutputFormatter] reportlab not installed. Skipping PDF generation.")]).
Proof.
  unfold generate_pdf, pdf_document.
  destruct (REPORTLAB_AVAILABLE env); cbv beta iota delta [negb]; [|reflexivity].
  run.
  destruct (py_get roadmap_data (lit "roadmap") (JDict [])) as [roadmap|e];
    [|reflexivity].
  destruct (py_get roadmap (lit "title") _) as [title|e]; [|reflexivity].
  destruct (draw_wrapped env _ title _ _ _ _ _) as [c1 y1].
  destruct (py_get roadmap (lit "duration_days") _) as [dd|e]; [|reflexivity].
  destruct (py_get roadmap (lit "total_estimated_hours") _) as [tt|e]; [|reflexivity].
  destruct (draw_wrapped env _ _ _ _ _ _ _) as [c2 y2].
  destruct (py_get roadmap (lit "levels") _) as [levels|e]; [|reflexivity].
  destruct (py_iter levels) as [ls|e]; [|reflexivity].
  destruct (for_each ls _ _) as [cy|e]; [|reflexivity].
  unfold canvas_save. destruct (fs_writable env output_path); reflexivity.
Qed.

Lemma for_each_ends_alike {S T : Type} (items : list json)
  (f : json -> S -> outcome S) (g : json -> T -> outcome T) :
  (forall x s t, ends_alike (f x s) (g x t)) ->
  forall s t, ends_alike (for_each items f s) (for_each items g t).
Proof.
  intros H. induction items as [|x r IH]; intros s t; simpl; [exact I|].
  specialize (H x s t). destruct (f x s), (g x t); simpl in H;
    try contradiction; [apply IH|exact H].
Qed.

Lemma pdf_topic_ends_alike (env : Env) (margin wrap_width height : Z) (topic : json)
  (cy : canvas * Z) (lines : list pystr) :
  ends_alike (pdf_topic env margin wrap_width height topic cy)
    (format_topic env topic lines).
Proof.
  destruct cy as [c y]. unfold pdf_topic, format_topic. run.
  destruct topic; try reflexivity.
  unfold py_get. cbv beta iota. split_draws.
  match goal with |- context [if ?b then _ else _] => destruct b end; exact I.
Qed.

Lemma pdf_level_ends_alike (env : Env) (margin wrap_width height : Z) (level : json)
  (cy : canvas * Z) (lines : list pystr) :
  ends_alike (pdf_level env margin wrap_width height level cy)
    (format_level env level lines).
Proof.
  destruct cy as [c y]. unfold pdf_level, format_level. run.
  destruct level as [| | | | | |d]; try reflexivity.
  unfold py_get. cbv beta iota. split_draws.
  destruct (py_iter _) as [topics|e]; [|reflexivity].
  match goal with
  | |- context [for_each topics ?f ?s0] =>
      match goal with
      | |- context [for_each topics (format_topic env) ?t0] =>
          pose proof (for_each_ends_alike topics f (format_topic env)
                        (fun x s t => pdf_topic_ends_alike env _ _ _ x s t) s0 t0) as G
      end
  end.
  destruct (for_each topics (pdf_topic _ _ _ _) _),
           (for_each topics (format_topic env) _); exact G.
Qed.

Lemma pdf_document_ends_alike (env : Env) (roadmap_data : json) :
  ends_alike (pdf_document env roadmap_data) (format_table env roadmap_data).
Proof.
  unfold pdf_document, format_table. run.
  destruct (py_get roadmap_data (lit "roadmap") (JDict [])) as [roadmap|e];
    [|reflexivity].
  destruct roadmap as [| | | | | |r]; try reflexivity.
  unfold py_get. cbv beta iota. split_draws.
  destruct (py_iter _) as [levels|e]; [|reflexivity].
  match goal with
  | |- context [for_each levels ?f ?s0] =>
      match goal with
      | |- context [for_each levels (format_level env) ?t0] =>
          pose proof (for_each_ends_alike levels f (format_level env)
                        (fun x s t => pdf_level_ends_alike env _ _ _ x s t) s0 t0) as G
      end
  end.
  destruct (for_each levels (pdf_level _ _ _ _) _),
           (for_each levels (format_level env) _); exact G.
Qed.

(** C9 (as amended).  When the PDF backend is unavailable, [generate_pdf]
    prints a notice and returns the empty string without raising, whatever
    the record and the path.  When the backend is available nothing is
    caught, and what it does follows [format_table] on the same record:
    where [format_table] raises, it raises the same exception and writes
    nothing; where [format_table] renders the record, it saves the document
    at the path and returns the path if the path can be written, and raises
    [OSError] if it cannot.  In particular it returns the path for every
    roadmap record when the path can be written. *)
Theorem generate_pdf_skipped_or_saved (env : Env) (roadmap_data : json)
  (output_path : pystr) (w : world) :
  (REPORTLAB_AVAILABLE env = false ->
   generate_pdf env roadmap_data output_path w
   = (Ret [],
      printed w
        [Text (lit "[OutputFormatter] reportlab not installed. Skipping PDF generation.")]))
  /\ (REPORTLAB_AVAILABLE env = true ->
      record_ok roadmap_data = true ->
      fs_writable env output_path = true ->
      exists c,
        generate_pdf env roadmap_data output_path w
        = (Ret output_path,
           {| calls := calls w; stdout := stdout w;
              files := (output_path, c) :: files w |}))
  /\ (REPORTLAB_AVAILABLE env = true ->
      match format_table env roadmap_data with
      | Raise e => generate_pdf env roadmap_data output_path w = (Raise e, w)
      | Ret _ =>
          if fs_writable env output_path then
            exists c,
              generate_pdf env roadmap_data output_path w
              = (Ret output_path,
                 {| calls := calls w; stdout := stdout w;
                    files := (output_path, c) :: files w |})
          else
            generate_pdf env roadmap_data output_path w
            = (Raise (OSError output_path), w)
      end).
Proof.
  split; [apply generate_pdf_unavailable|].
  split; [apply generate_pdf_available|].
  intros Ha. rewrite generate_pdf_eq, Ha.
  pose proof (pdf_document_ends_alike env roadmap_data) as G.
  destruct (pdf_document env roadmap_data) as [c|e],
           (format_table env roadmap_data) as [text|e']; simpl in G;
    try contradiction.
  - destruct (fs_writable env output_path); [exists c|]; reflexivity.
  - subst e'. reflexivity.
Qed.

Lemma generate_pdf_skipped_or_saved_witness :
  fst (generate_pdf (demo_env [] false true) (JDict []) default_output_path fresh)
  = Ret []
  /\ fst (generate_pdf (demo_env [] true true) (JDict []) default_output_path fresh)
     = Ret default_output_path
  /\ generate_pdf (demo_env [] true true) (JDict [(lit "roadmap", JList [])])
       default_output_path fresh
     = (Raise (AttributeError (lit "list") (lit "get")), fresh)
  /\ fst (generate_pdf (demo_env [] true true)
            (JDict [(lit "roadmap", JDict [(lit "levels", JStr [])])])
            default_output_path fresh)
     = Ret default_output_path.
Proof.
  split; [|split; [|split]].
  - destruct (generate_pdf_skipped_or_saved (demo_env [] false true) (JDict [])
                default_output_path fresh) as [H _].
    rewrite (H eq_refl). reflexivity.
  - destruct (generate_pdf_skipped_or_saved (demo_env [] true true) (JDict [])
                default_output_path fresh) as [_ [H _]].
    destruct (H eq_refl eq_refl eq_refl) as [c E]. rewrite E. reflexivity.
  - destruct (generate_pdf_skipped_or_saved (demo_env [] true true)
                (JDict [(lit "roadmap", JList [])]) default_output_path fresh)
      as [_ [_ H]].
    exact (H eq_refl).
  - destruct (generate_pdf_skipped_or_saved (demo_env [] true true)
                (JDict [(lit "roadmap", JDict [(lit "levels", JStr [])])])
                default_output_path fresh) as [_ [_ H]].
    destruct (H eq_refl) as [c E]. rewrite E. reflexivity.
Defined.

(** C9 as stated fails: with the backend available [generate_pdf] raises
    on a record whose levels are not a list, and on a path that cannot be
    written. *)
Lemma generate_pdf_raises_counterexample :
  generate_pdf (demo_env [] true true)
    (JDict [(lit "roadmap", JDict [(lit "levels", JInt 5)])])
    default_output_path fresh
  = (Raise (TypeError_not_iterable (lit "int")), fresh)
  /\ generate_pdf (demo_env [] true false) (JDict []) default_output_path fresh
     = (Raise (OSError default_output_path), fresh).
Proof. split; reflexivity. Qed.

(** ** The whole pipeline *)

Lemma silent_reply (env : Env) (history : list request) (prompt : pystr) :
  (forall h r, remote env h r = Ret []) -> reply env history prompt = [].
Proof. intros H. unfold reply. rewrite H. reflexivity. Qed.

Lemma parsed_or_silent (default : json) (label : string) (w1 : world) :
  parsed_or default label [] w1
  = (Ret default,
     printed w1 (failure_line label (JSONDecodeError (clean_json_output [])) [])).
Proof. reflexivity. Qed.

Lemma plan_roadmap_assemble_object (env : Env) (d : list (pystr * json))
  (persona structure activities : json) :
  is_object structure = true -> is_object activities = true ->
  plan_roadmap_assemble env (JDict d) persona structure activities
  = Ret (JDict
      [ (lit "user_profile_summary",
         JDict [ (lit "persona", persona);
                 (lit "domain", get_or d "domain" (JStr []));
                 (lit "goals", get_or d "goals" (JList []));
                 (lit "weekly_availability_hours",
                  get_or d "weekly_availability_hours" (JInt 0)) ]);
        (lit "roadmap",
         JDict [ (lit "title",
                  JStr (lit "Personalized GenAI Roadmap for " ++ py_str env persona));
                 (lit "duration_days",
                  match member structure "duration_days" with
                  | Some x => x
                  | None => JInt 30
                  end);
                 (lit "total_estimated_hours",
                  match member activities "total_estimated_hours" with
                  | Some x => x
                  | None => JInt 0
                  end);
                 (lit "levels",
                  match member activities "levels" with
                  | Some x => x
                  | None => JList []
                  end) ]) ]).
Proof.
  destruct structure; try discriminate. destruct activities; try discriminate.
  intros _ _. reflexivity.
Qed.

(** C2.  When every model call returns the empty string, that is, when
    [generate] hands back [""] for every prompt (the model answered
    nothing, or whitespace only, or the call failed), [plan_roadmap] (given
    a profile that is an object) returns a record whose roadmap has
    [duration_days] 30, [total_estimated_hours] 0 and no levels, and
    [format_table] renders that record as the header block alone: a rule,
    the title, the duration and hours line, and two rules.  The whole
    pipeline run on such a model returns the same record for the empty
    profile and persona, with its table. *)
Theorem silent_model_default_roadmap (env : Env) (w : world)
  (d : list (pystr * json)) (persona : json) :
  (forall history prompt, reply env history prompt = []) ->
  let record (d : list (pystr * json)) (persona : json) :=
    JDict
      [ (lit "user_profile_summary",
         JDict [ (lit "persona", persona);
                 (lit "domain", get_or d "domain" (JStr []));
                 (lit "goals", get_or d "goals" (JList []));
                 (lit "weekly_availability_hours",
                  get_or d "weekly_availability_hours" (JInt 0)) ]);
        (lit "roadmap",
         JDict [ (lit "title",
                  JStr (lit "Personalized GenAI Roadmap for " ++ py_str env persona));
                 (lit "duration_days", JInt 30);
                 (lit "total_estimated_hours", JInt 0);
                 (lit "levels", JList []) ]) ] in
  let table (persona : json) :=
    header_block (lit "Personalized GenAI Roadmap for " ++ py_str env persona)
      (lit "30") (lit "0") in
  fst (plan_roadmap env (JDict d) persona w) = Ret (record d persona)
  /\ format_table env (record d persona) = Ret (table persona)
  /\ (forall r i g,
        fst (generate_roadmap env r i g false w)
        = Ret (record [] (JStr []), table (JStr []), None)).
Proof.
  intros H record table.
  assert (P : forall d persona w,
             fst (plan_roadmap env (JDict d) persona w) = Ret (record d persona)).
  { intros d0 persona0 w0. unfold plan_roadmap. run.
    rewrite plan_roadmap_think_eq. cbv zeta.
    rewrite H. rewrite parsed_or_silent.
    rewrite plan_roadmap_plan_eq. cbv zeta.
    rewrite H. rewrite parsed_or_silent.
    rewrite plan_roadmap_activities_eq. cbv zeta.
    rewrite H. rewrite parsed_or_silent.
    rewrite plan_roadmap_assemble_object by reflexivity. reflexivity. }
  assert (T : forall d persona,
             format_table env (record d persona) = Ret (table persona)).
  { intros d0 persona0. reflexivity. }
  split; [apply P|]. split; [apply T|].
  intros r i g. unfold generate_roadmap. run.
  rewrite extract_user_data_eq. cbv zeta.
  rewrite H.
  change (json_loads (clean_json_output [])) with (@None json). cbv beta iota.
  rewrite classify_persona_eq. cbv zeta.
  rewrite H.
  change (json_loads (clean_json_output [])) with (@None json).
  unfold classified. cbv beta iota delta [fst].
  match goal with
  | |- context [plan_roadmap env (JDict []) (JStr []) ?w0] =>
      pose proof (P [] (JStr []) w0) as E;
      destruct (plan_roadmap env (JDict []) (JStr []) w0) as [o w1]
  end.
  cbn [fst] in E. subst o. cbv beta iota.
  rewrite T. reflexivity.
Qed.

(** A model whose first call fails, whose second answer is whitespace and
    which answers nothing afterwards: the client hands back the empty
    string every time. *)
Lemma failing_then_blank_then_silent (history : list request) (prompt : pystr) :
  reply (demo_env [Raise (RemoteError (lit "quota exceeded")); Ret (lit "  " ++ nl)]
           false true)
    history prompt
  = [].
Proof.
  unfold reply. cbn [remote demo_env]. unfold scripted.
  destruct (List.length history) as [|[|[|n]]]; reflexivity.
Qed.

Lemma silent_model_default_roadmap_witness :
  fst (generate_roadmap
         (demo_env [Raise (RemoteError (lit "quota exceeded")); Ret (lit "  " ++ nl)]
            false true)
         (lit "5 years backend, Python advanced")
         (lit "prefers hands-on, 8 hrs/week")
         (lit "integrate GenAI into workflow") false fresh)
  = Ret (JDict
           [ (lit "user_profile_summary",
              JDict [ (lit "persona", JStr []);
                      (lit "domain", JStr []);
                      (lit "goals", JList []);
                      (lit "weekly_availability_hours", JInt 0) ]);
             (lit "roadmap",
              JDict [ (lit "title", JStr (lit "Personalized GenAI Roadmap for "));
                      (lit "duration_days", JInt 30);
                      (lit "total_estimated_hours", JInt 0);
                      (lit "levels", JList []) ]) ],
         header_block (lit "Personalized GenAI Roadmap for ") (lit "30") (lit "0"),
         None).
Proof.
  destruct (silent_model_default_roadmap
              (demo_env [Raise (RemoteError (lit "quota exceeded"));
                         Ret (lit "  " ++ nl)] false true)
              fresh [] (JStr []) failing_then_blank_then_silent) as [_ [_ H]].
  exact (H _ _ _).
Defined.







(** X2.  The run as a whole can raise all the same.  When the answer to
    the profile request is well-formed JSON that is not an object,
    [extract_user_data] returns it, and [plan_roadmap], after its three
    requests, calls [get] on it outside any [try] block: [generate_roadmap]
    raises [AttributeError]. *)
Theorem generate_roadmap_raises_on_non_object_profile (env : Env) (r i g : pystr)
  (want_pdf : bool) (w : world) (v : json) :
  json_loads (clean_json_output
                (reply env (calls w) (extract_user_data_prompt r i g))) = Some v ->
  is_object v = false ->
  exists w',
    generate_roadmap env r i g want_pdf w
    = (Raise (AttributeError (type_name_of v) (lit "get")), w').
Proof.
  intros P O. unfold generate_roadmap. run.
  rewrite extract_user_data_eq. cbv zeta. rewrite P.
  match goal with
  | |- context [classify_persona env v ?w0] =>
      destruct (classify_persona_returns env v w0) as [pj [w1 E1]]; rewrite E1
  end.
  unfold plan_roadmap. run.
  destruct (plan_roadmap_think_returns env v (fst pj) w1) as [topics [w2 E2]].
  rewrite E2.
  destruct (plan_roadmap_plan_returns env topics w2) as [structure [w3 E3]].
  rewrite E3.
  destruct (plan_roadmap_activities_returns env v (fst pj) structure w3)
    as [activities [w4 E4]].
  rewrite E4.
  exists w4. destruct v; try discriminate O; reflexivity.
Qed.

Lemma generate_roadmap_raises_on_non_object_profile_witness :
  fst (generate_roadmap (demo_env [Ret (lit "[]")] false true)
         (lit "5 years backend, Python advanced")
         (lit "prefers hands-on, 8 hrs/week")
         (lit "integrate GenAI into workflow") false fresh)
  = Raise (AttributeError (lit "list") (lit "get")).
Proof.
  destruct (generate_roadmap_raises_on_non_object_profile
              (demo_env [Ret (lit "[]")] false true)
              (lit "5 years backend, Python advanced")
              (lit "prefers hands-on, 8 hrs/week")
              (lit "integrate GenAI into workflow") false fresh (JList []))
    as [w' E]; [vm_compute; reflexivity|reflexivity|].
  rewrite E. reflexivity.
Defined.

(** ** Requests sent and records assembled *)

Lemma parsed_or_sends (env : Env) (default : json) (label : string) (p : pystr)
  (w : world) :
  exists v w',
    parsed_or default label (reply env (calls w) p) (after_call env p w) = (Ret v, w')
    /\ calls w' = calls w ++ [default_request p]
    /\ files w' = files w.
Proof.
  unfold parsed_or.
  assert (F : files (after_call env p w) = files w).
  { unfold after_call. destruct (remote env (calls w) _); reflexivity. }
  destruct (json_loads _); eexists; eexists;
    (split; [reflexivity|split; [apply calls_after_call|exact F]]).
Qed.

Lemma extract_user_data_sends (env : Env) (r i g : pystr) (w : world) :
  exists v w',
    extract_user_data env r i g w = (Ret v, w')
    /\ calls w' = calls w ++ [default_request (extract_user_data_prompt r i g)]
    /\ files w' = files w.
Proof.
  rewrite extract_user_data_eq. cbv zeta.
  assert (F : files (after_call env (extract_user_data_prompt r i g) w) = files w).
  { unfold after_call. destruct (remote env (calls w) _); reflexivity. }
  destruct (json_loads _); eexists; eexists;
    (split; [reflexivity|split; [apply calls_after_call|exact F]]).
Qed.

Lemma classify_persona_sends (env : Env) (user_data : json) (w : world) :
  exists pj w',
    classify_persona env user_data w = (Ret pj, w')
    /\ calls w' = calls w ++ [default_request (classify_persona_prompt env user_data)]
    /\ files w' = files w.
Proof.
  rewrite classify_persona_eq. cbv zeta. unfold classified.
  assert (F : files (after_call env (classify_persona_prompt env user_data) w)
              = files w).
  { unfold after_call. destruct (remote env (calls w) _); reflexivity. }
  destruct (json_loads _) as [[]|]; eexists; eexists;
    (split; [reflexivity|split; [apply calls_after_call|exact F]]).
Qed.

Lemma plan_roadmap_assemble_eq (env : Env) (user_data persona structure activities : json) :
  plan_roadmap_assemble env user_data persona structure activities
  = assembled env user_data persona structure activities.
Proof.
  destruct user_data, structure, activities; reflexivity.
Qed.

Lemma plan_roadmap_trace_assemble_eq (env : Env)
  (user_data persona structure activities : json) :
  plan_roadmap_trace_assemble env user_data persona structure activities
  = assembled env user_data persona structure activities.
Proof.
  destruct user_data, structure, activities; reflexivity.
Qed.

(** The three steps of the planner, one after the other. *)
Lemma plan_roadmap_steps (env : Env) (user_data persona : json) (w : world) :
  exists topics structure activities w1 w2 w3,
    plan_roadmap_think env user_data persona w = (Ret topics, w1)
    /\ plan_roadmap_plan env topics w1 = (Ret structure, w2)
    /\ plan_roadmap_activities env user_data persona structure w2
       = (Ret activities, w3)
    /\ plan_roadmap env user_data persona w
       = (assembled env user_data persona structure activities, w3)
    /\ calls w3
       = calls w
         ++ [ default_request (plan_roadmap_think_prompt env user_data persona);
              default_request (plan_roadmap_plan_prompt env topics);
              default_request
                (plan_roadmap_activities_prompt env user_data persona structure) ]
    /\ files w3 = files w.
Proof.
  destruct (parsed_or_sends env (JList [])
              "[RoadmapPlanner][Think] Failed to parse topics JSON: "
              (plan_roadmap_think_prompt env user_data persona) w)
    as [topics [w1 [E1 [C1 F1]]]].
  destruct (parsed_or_sends env (JDict [])
              "[RoadmapPlanner][Plan] Failed to parse structure JSON: "
              (plan_roadmap_plan_prompt env topics) w1)
    as [structure [w2 [E2 [C2 F2]]]].
  destruct (parsed_or_sends env (JDict [])
              "[RoadmapPlanner][Activities] Failed to parse activities JSON: "
              (plan_roadmap_activities_prompt env user_data persona structure) w2)
    as [activities [w3 [E3 [C3 F3]]]].
  assert (T1 : plan_roadmap_think env user_data persona w = (Ret topics, w1))
    by (rewrite plan_roadmap_think_eq; exact E1).
  assert (T2 : plan_roadmap_plan env topics w1 = (Ret structure, w2))
    by (rewrite plan_roadmap_plan_eq; exact E2).
  assert (T3 : plan_roadmap_activities env user_data persona structure w2
               = (Ret activities, w3))
    by (rewrite plan_roadmap_activities_eq; exact E3).
  exists topics, structure, activities, w1, w2, w3.
  split; [exact T1|]. split; [exact T2|]. split; [exact T3|].
  split; [|split].
  - unfold plan_roadmap. run. rewrite T1, T2, T3.
    rewrite plan_roadmap_assemble_eq. reflexivity.
  - rewrite C3, C2, C1. repeat rewrite <- app_assoc. reflexivity.
  - rewrite F3, F2, F1. reflexivity.
Qed.

(** X7.  [plan_roadmap] runs its three steps, none of which raises, and
    then raises itself exactly when the profile, the structure or the
    activities is not an object, for it calls [get] on each outside any
    [try] block: the [AttributeError] names the type of the first of the
    three that is not an object.  When all three are objects the record
    carries the persona, a title made of it, and the members of the three
    objects as they are, each with the default of its [get] when missing;
    nothing checks their values. *)
Theorem plan_roadmap_record_or_first_non_object (env : Env)
  (user_data persona : json) (w : world) :
  exists topics structure activities w1 w2 w3,
    plan_roadmap_think env user_data persona w = (Ret topics, w1)
    /\ plan_roadmap_plan env topics w1 = (Ret structure, w2)
    /\ plan_roadmap_activities env user_data persona structure w2
       = (Ret activities, w3)
    /\ snd (plan_roadmap env user_data persona w) = w3
    /\ match first_non_object [user_data; structure; activities] with
       | Some v =>
           fst (plan_roadmap env user_data persona w)
           = Raise (AttributeError (type_name_of v) (lit "get"))
       | None =>
           exists d s a,
             user_data = JDict d /\ structure = JDict s /\ activities = JDict a
             /\ fst (plan_roadmap env user_data persona w)
                = Ret (roadmap_record env persona d s a)
       end.
Proof.
  destruct (plan_roadmap_steps env user_data persona w)
    as [topics [structure [activities [w1 [w2 [w3 [E1 [E2 [E3 [E _]]]]]]]]]].
  exists topics, structure, activities, w1, w2, w3.
  rewrite E. cbn [fst snd]. repeat split; try assumption.
  destruct user_data, structure, activities; cbn;
    try reflexivity.
  eexists. eexists. eexists. repeat split; reflexivity.
Qed.

(** ** The PDF renderer and the formatter *)

(** X8.  With the backend available, [generate_pdf] fails on a record
    exactly where [format_table] fails, with the same exception and before
    any file is written; on a record that [format_table] renders it writes
    one file at the output path and returns the path, unless the path
    cannot be written, which raises [OSError]. *)
Theorem generate_pdf_fails_where_format_table_fails (env : Env) (roadmap_data : json)
  (output_path : pystr) (w : world) :
  REPORTLAB_AVAILABLE env = true ->
  match format_table env roadmap_data with
  | Raise e => generate_pdf env roadmap_data output_path w = (Raise e, w)
  | Ret _ =>
      exists c,
        pdf_document env roadmap_data = Ret c
        /\ generate_pdf env roadmap_data output_path w
           = if fs_writable env output_path then
               (Ret output_path,
                {| calls := calls w; stdout := stdout w;
                   files := (output_path, c) :: files w |})
             else (Raise (OSError output_path), w)
  end.
Proof.
  intros Ha. rewrite generate_pdf_eq, Ha.
  pose proof (pdf_document_ends_alike env roadmap_data) as G.
  destruct (pdf_document env roadmap_data) as [c|e],
           (format_table env roadmap_data) as [text|e']; simpl in G;
    try contradiction.
  - exists c. split; reflexivity.
  - subst e'. reflexivity.
Qed.

Lemma generate_pdf_fails_where_format_table_fails_witness :
  generate_pdf (demo_env [] true true)
    (JDict [(lit "roadmap", JDict [(lit "levels", JList [JInt 1])])])
    default_output_path fresh
  = (Raise (AttributeError (lit "int") (lit "get")), fresh).
Proof.
  exact (generate_pdf_fails_where_format_table_fails (demo_env [] true true)
           (JDict [(lit "roadmap", JDict [(lit "levels", JList [JInt 1])])])
           default_output_path fresh eq_refl).
Defined.

(** ** The run of the agent *)

Lemma generate_roadmap_run (env : Env) (r i g : pystr) (want_pdf : bool) (w : world) :
  exists user_data (pj : json * json) topics structure activities w5,
    calls w5
    = calls w
      ++ map default_request
           [ extract_user_data_prompt r i g;
             classify_persona_prompt env user_data;
             plan_roadmap_think_prompt env user_data (fst pj);
             plan_roadmap_plan_prompt env topics;
             plan_roadmap_activities_prompt env user_data (fst pj) structure ]
    /\ files w5 = files w
    /\ generate_roadmap env r i g want_pdf w
       = finished env want_pdf
           (assembled env user_data (fst pj) structure activities) w5.
Proof.
  destruct (extract_user_data_sends env r i g w) as [user_data [w1 [E1 [C1 F1]]]].
  destruct (classify_persona_sends env user_data w1) as [pj [w2 [E2 [C2 F2]]]].
  destruct (plan_roadmap_steps env user_data (fst pj) w2)
    as [topics [structure [activities [w3 [w4 [w5 [_ [_ [_ [E3 [C3 F3]]]]]]]]]]].
  exists user_data, pj, topics, structure, activities, w5.
  split; [|split].
  - rewrite C3, C2, C1. cbn [map]. repeat rewrite <- app_assoc. reflexivity.
  - rewrite F3, F2, F1. reflexivity.
  - unfold generate_roadmap. run. rewrite E1, E2, E3.
    unfold finished.
    destruct (assembled env user_data (fst pj) structure activities) as [rd|e];
      [|reflexivity].
    destruct (format_table env rd) as [table|e]; [|reflexivity].
    destruct (want_pdf && REPORTLAB_AVAILABLE env) eqn:P; [|reflexivity].
    apply andb_true_iff in P as [_ Ha].
    unfold named_temporary_file. cbv zeta.
    destruct (fs_writable env (temp_file_name env (lit ".pdf"))) eqn:W;
      [|reflexivity].
    rewrite generate_pdf_eq, Ha, W. cbn [calls stdout files].
    destruct (pdf_document env rd); reflexivity.
Qed.

(** X9.  A run of [generate_roadmap] sends exactly five requests, whatever
    the model answers and whether the run returns or raises: the profile
    request, the persona request, and the three requests of the planner, in
    this order, each once and each with the default temperature and output
    length.  Nothing is sent again after a failure. *)
Theorem generate_roadmap_sends_five_requests (env : Env) (r i g : pystr)
  (want_pdf : bool) (w : world) :
  exists user_data persona topics structure,
    calls (snd (generate_roadmap env r i g want_pdf w))
    = calls w
      ++ map default_request
           [ extract_user_data_prompt r i g;
             classify_persona_prompt env user_data;
             plan_roadmap_think_prompt env user_data persona;
             plan_roadmap_plan_prompt env topics;
             plan_roadmap_activities_prompt env user_data persona structure ].
Proof.
  destruct (generate_roadmap_run env r i g want_pdf w)
    as [user_data [pj [topics [structure [activities [w5 [C [_ E]]]]]]]].
  exists user_data, (fst pj), topics, structure. rewrite E, <- C.
  unfold finished.
  destruct (assembled _ _ _ _ _) as [rd|e]; [|reflexivity].
  destruct (format_table env rd); [|reflexivity].
  destruct (want_pdf && REPORTLAB_AVAILABLE env); [|reflexivity].
  cbv zeta. destruct (fs_writable env _); [|reflexivity].
  destruct (pdf_document env rd); reflexivity.
Qed.

Lemma for_each_wrong_kind {S : Type} (items : list json)
  (body : json -> S -> outcome S) :
  (forall x s e, body x s = Raise e -> wrong_kind e = true) ->
  forall s e, for_each items body s = Raise e -> wrong_kind e = true.
Proof.
  intros H. induction items as [|x r IH]; intros s e; simpl; [discriminate|].
  destruct (body x s) as [s'|e'] eqn:E.
  - apply IH.
  - intros G. injection G as <-. apply (H x s e' E).
Qed.

Lemma py_get_wrong_kind (v : json) (key : pystr) (default : json) (e : exn) :
  py_get v key default = Raise e -> wrong_kind e = true.
Proof. destruct v; simpl; intros H; try discriminate H; injection H as <-; reflexivity. Qed.

Lemma py_iter_wrong_kind (v : json) (e : exn) :
  py_iter v = Raise e -> wrong_kind e = true.
Proof. destruct v; simpl; intros H; try discriminate H; injection H as <-; reflexivity. Qed.

Lemma format_topic_wrong_kind (env : Env) (topic : json) (lines : list pystr) (e : exn) :
  format_topic env topic lines = Raise e -> wrong_kind e = true.
Proof.
  destruct topic; simpl; intros H; try discriminate H; injection H as <-; reflexivity.
Qed.

Lemma format_level_wrong_kind (env : Env) (level : json) (lines : list pystr) (e : exn) :
  format_level env level lines = Raise e -> wrong_kind e = true.
Proof.
  unfold format_level. run.
  destruct level as [| | | | | |d]; simpl;
    try (intros H; injection H as <-; reflexivity).
  destruct (py_iter _) as [topics|e'] eqn:E.
  - apply for_each_wrong_kind. intros x s. apply format_topic_wrong_kind.
  - intros H. injection H as <-. apply (py_iter_wrong_kind _ _ E).
Qed.

Lemma format_table_wrong_kind (env : Env) (roadmap_data : json) (e : exn) :
  format_table env roadmap_data = Raise e -> wrong_kind e = true.
Proof.
  unfold format_table. run.
  destruct (py_get roadmap_data _ _) as [roadmap|e'] eqn:E0;
    [|intros H; injection H as <-; apply (py_get_wrong_kind _ _ _ _ E0)].
  destruct roadmap as [| | | | | |d]; simpl;
    try (intros H; injection H as <-; reflexivity).
  destruct (py_iter _) as [levels|e'] eqn:E.
  - destruct (for_each levels _ _) as [l|e'] eqn:F; [discriminate|].
    intros H. injection H as <-.
    apply (for_each_wrong_kind levels (format_level env)
             (fun x s => format_level_wrong_kind env x s) _ _ F).
  - intros H. injection H as <-. apply (py_iter_wrong_kind _ _ E).
Qed.

Lemma assembled_wrong_kind (env : Env) (user_data persona structure activities : json)
  (e : exn) :
  assembled env user_data persona structure activities = Raise e ->
  wrong_kind e = true.
Proof.
  destruct user_data, structure, activities; simpl; intros H;
    try discriminate H; injection H as <-; reflexivity.
Qed.

(** X10.  What a run of [generate_roadmap] can raise.  A failed model call
    and a reply that does not parse never reach the caller: the only
    exceptions are those of reading a value of the wrong kind
    ([AttributeError] on a value without [get], [TypeError] on a value that
    cannot be iterated), from the assembly of the record or from
    [format_table], and [OSError] on the temporary file of the PDF. *)
Theorem generate_roadmap_raises_only (env : Env) (r i g : pystr) (want_pdf : bool)
  (w : world) (e : exn) :
  fst (generate_roadmap env r i g want_pdf w) = Raise e ->
  wrong_kind e = true
  \/ (want_pdf = true /\ REPORTLAB_AVAILABLE env = true
      /\ fs_writable env (temp_file_name env (lit ".pdf")) = false
      /\ e = OSError (temp_file_name env (lit ".pdf"))).
Proof.
  destruct (generate_roadmap_run env r i g want_pdf w)
    as [user_data [pj [topics [structure [activities [w5 [_ [_ E]]]]]]]].
  rewrite E. unfold finished.
  destruct (assembled _ _ _ _ _) as [rd|e'] eqn:A.
  - pose proof (pdf_document_ends_alike env rd) as G.
    destruct (format_table env rd) as [table|e'] eqn:T.
    + destruct (want_pdf && REPORTLAB_AVAILABLE env) eqn:P; [|discriminate].
      apply andb_true_iff in P as [P1 P2]. cbv zeta.
      destruct (fs_writable env _) eqn:W.
      * destruct (pdf_document env rd); [discriminate|contradiction].
      * cbn [fst]. intros H. injection H as <-. right. repeat split; assumption.
    + cbn [fst]. intros H. injection H as <-. left.
      apply (format_table_wrong_kind env rd e' T).
  - cbn [fst]. intros H. injection H as <-. left.
    apply (assembled_wrong_kind _ _ _ _ _ _ A).
Qed.

Lemma generate_roadmap_raises_only_witness :
  exists e,
    fst (generate_roadmap (demo_env helpful_model true false)
           (lit "5 years backend, Python advanced")
           (lit "prefers hands-on, 8 hrs/week")
           (lit "integrate GenAI into workflow") true fresh) = Raise e
    /\ (wrong_kind e = true
        \/ (true = true /\ REPORTLAB_AVAILABLE (demo_env helpful_model true false) = true
            /\ fs_writable (demo_env helpful_model true false)
                 (temp_file_name (demo_env helpful_model true false) (lit ".pdf"))
               = false
            /\ e = OSError (temp_file_name (demo_env helpful_model true false)
                              (lit ".pdf")))).
Proof.
  exists (OSError (lit "/tmp/roadmap.pdf")).
  assert (E : fst (generate_roadmap (demo_env helpful_model true false)
                     (lit "5 years backend, Python advanced")
                     (lit "prefers hands-on, 8 hrs/week")
                     (lit "integrate GenAI into workflow") true fresh)
              = Raise (OSError (lit "/tmp/roadmap.pdf")))
    by (vm_compute; reflexivity).
  split; [exact E|].
  exact (generate_roadmap_raises_only _ _ _ _ _ _ _ E).
Defined.

(** X11.  What a run of [generate_roadmap] returns.  The table is
    [format_table] of the record returned.  The path is [None] unless a PDF
    was asked for and the backend is available; then it is the name of the
    temporary file, and the last thing written there is the document
    [generate_pdf] draws for the record.  Without a PDF the run writes no
    file. *)
Theorem generate_roadmap_returns (env : Env) (r i g : pystr) (want_pdf : bool)
  (w w' : world) (roadmap_data : json) (roadmap_table : pystr)
  (pdf_path : option pystr) :
  generate_roadmap env r i g want_pdf w
  = (Ret (roadmap_data, roadmap_table, pdf_path), w') ->
  format_table env roadmap_data = Ret roadmap_table
  /\ if want_pdf && REPORTLAB_AVAILABLE env then
       pdf_path = Some (temp_file_name env (lit ".pdf"))
       /\ exists c,
            pdf_document env roadmap_data = Ret c
            /\ files w'
               = (temp_file_name env (lit ".pdf"), c)
                 :: (temp_file_name env (lit ".pdf"), []) :: files w
     else pdf_path = None /\ files w' = files w.
Proof.
  destruct (generate_roadmap_run env r i g want_pdf w)
    as [user_data [pj [topics [structure [activities [w5 [_ [F E]]]]]]]].
  rewrite E. unfold finished.
  destruct (assembled _ _ _ _ _) as [rd|e']; [|discriminate].
  destruct (format_table env rd) as [table|e'] eqn:T; [|discriminate].
  destruct (want_pdf && REPORTLAB_AVAILABLE env).
  - cbv zeta. destruct (fs_writable env _); [|discriminate].
    destruct (pdf_document env rd) as [c|e'] eqn:D; [|discriminate].
    intros H. injection H as <- <- <- <-. rewrite T. split; [reflexivity|].
    split; [reflexivity|]. exists c. rewrite D, <- F. split; reflexivity.
  - intros H. injection H as <- <- <- <-. rewrite T. split; [reflexivity|].
    split; [reflexivity|exact F].
Qed.

Lemma generate_roadmap_returns_witness :
  exists roadmap_data roadmap_table c w',
    generate_roadmap (demo_env helpful_model true true)
      (lit "5 years backend, Python advanced")
      (lit "prefers hands-on, 8 hrs/week")
      (lit "integrate GenAI into workflow") true fresh
    = (Ret (roadmap_data, roadmap_table, Some (lit "/tmp/roadmap.pdf")), w')
    /\ format_table (demo_env helpful_model true true) roadmap_data
       = Ret roadmap_table
    /\ pdf_document (demo_env helpful_model true true) roadmap_data = Ret c
    /\ files w' = [(lit "/tmp/roadmap.pdf", c); (lit "/tmp/roadmap.pdf", [])].
Proof.
  destruct (generate_roadmap (demo_env helpful_model true true)
              (lit "5 years backend, Python advanced")
              (lit "prefers hands-on, 8 hrs/week")
              (lit "integrate GenAI into workflow") true fresh)
    as [[[[rd table] path]|e] w'] eqn:E.
  - destruct (generate_roadmap_returns _ _ _ _ _ _ _ _ _ _ E) as [T [P [c [D F]]]].
    exists rd, table, c, w'. rewrite P. repeat split; assumption.
  - vm_compute in E. discriminate E.
Defined.

(** ** The planner with topics computed beforehand *)

(** X12.  Given topics computed beforehand (any value but [None], which
    stands for no topics), [plan_roadmap_trace] skips the first step: it
    sends two requests only, for the structure and for the activities.  The trace still carries, under ['topics'], the prompt of
    the step it skipped, which was never sent, and as the response the
    given topics dumped as JSON, or ["[]"] when they count as false. *)
Theorem plan_roadmap_trace_given_topics (env : Env) (user_data persona topics : json)
  (w : world) :
  topics <> JNull ->
  exists structure activities w2,
    let p1 := plan_roadmap_think_prompt env user_data persona in
    let p2 := plan_roadmap_trace_plan_prompt env topics in
    let p3 := plan_roadmap_trace_activities_prompt env user_data persona structure in
    calls w2 = calls w ++ [default_request p2; default_request p3]
    /\ plan_roadmap_trace env user_data persona (Some topics) w
       = attach (fun record =>
                   (record,
                    {| trace_topics := p1; trace_structure := p2;
                       trace_activities := p3 |},
                    {| trace_topics :=
                         if py_truthy env topics then json_dumps env topics
                         else lit "[]";
                       trace_structure := reply env (calls w) p2;
                       trace_activities :=
                         reply env (calls w ++ [default_request p2]) p3 |}))
           (assembled env user_data persona structure activities, w2).
Proof.
  intros _.
  destruct (parsed_or_sends env (JDict [])
              "[RoadmapPlanner][Plan] Failed to parse structure JSON: "
              (plan_roadmap_trace_plan_prompt env topics) w)
    as [structure [w1 [E1 [C1 _]]]].
  destruct (parsed_or_sends env (JDict [])
              "[RoadmapPlanner][Activities] Failed to parse activities JSON: "
              (plan_roadmap_trace_activities_prompt env user_data persona structure) w1)
    as [activities [w2 [E2 [C2 _]]]].
  exists structure, activities, w2. cbv zeta. split.
  - rewrite C2, C1, <- app_assoc. reflexivity.
  - unfold plan_roadmap_trace, plan_roadmap_trace_think. run.
    rewrite plan_roadmap_trace_plan_eq. cbv zeta. rewrite E1.
    cbv beta iota delta [attach fst snd].
    rewrite plan_roadmap_trace_activities_eq. cbv zeta. rewrite E2.
    cbv beta iota delta [attach fst snd].
    rewrite plan_roadmap_trace_assemble_eq, C1.
    destruct (assembled env user_data persona structure activities); reflexivity.
Qed.

Lemma plan_roadmap_trace_given_topics_witness :
  exists structure activities w2,
    calls w2
    = calls fresh
      ++ [ default_request
             (plan_roadmap_trace_plan_prompt
                (demo_env [Ret structure_response; Ret activities_response] false true)
                (JList []));
           default_request
             (plan_roadmap_trace_activities_prompt
                (demo_env [Ret structure_response; Ret activities_response]
                   false true)
                (JDict []) (JStr (lit "College student")) structure) ]
    /\ fst (plan_roadmap_trace
              (demo_env [Ret structure_response; Ret activities_response] false true)
              (JDict []) (JStr (lit "College student")) (Some (JList [])) fresh)
       = fst (attach
                (fun record =>
                   (record,
                    {| trace_topics :=
                         plan_roadmap_think_prompt
                           (demo_env [Ret structure_response; Ret activities_response]
                              false true)
                           (JDict []) (JStr (lit "College student"));
                       trace_structure :=
                         plan_roadmap_trace_plan_prompt
                           (demo_env [Ret structure_response; Ret activities_response]
                              false true)
                           (JList []);
                       trace_activities :=
                         plan_roadmap_trace_activities_prompt
                           (demo_env [Ret structure_response; Ret activities_response]
                              false true)
                           (JDict []) (JStr (lit "College student")) structure |},
                    {| trace_topics := lit "[]";
                       trace_structure := structure_response;
                       trace_activities := activities_response |}))
                (assembled
                   (demo_env [Ret structure_response; Ret activities_response]
                      false true)
                   (JDict []) (JStr (lit "College student")) structure activities,
                 w2)).
Proof.
  assert (N : JList [] <> JNull) by discriminate.
  destruct (plan_roadmap_trace_given_topics
              (demo_env [Ret structure_response; Ret activities_response] false true)
              (JDict []) (JStr (lit "College student")) (JList []) fresh N)
    as [structure [activities [w2 [C E]]]].
  exists structure, activities, w2. split; [exact C|].
  rewrite E. reflexivity.
Defined.

(** ** Pages of the PDF *)

Lemma draw_wrapped_eq (env : Env) (c : canvas) (text : json) (x y : Z)
  (font_name : pystr) (font_size max_width : Z) :
  draw_wrapped env c text x y font_name font_size max_width
  = let lines := simpleSplit env (py_str env text) font_name font_size max_width in
    (c ++ SetFont font_name font_size :: draw_lines x y lines,
     (y - line_space * Z.of_nat (List.length lines))%Z).
Proof.
  unfold draw_wrapped. cbv zeta.
  generalize (simpleSplit env (py_str env text) font_name font_size max_width).
  intros lines.
  assert (G : forall c0 y0,
             fold_left
               (fun cy line =>
                  (fst cy ++ [DrawString x (snd cy) line], (snd cy - line_space)%Z))
               lines (c0, y0)
             = (c0 ++ draw_lines x y0 lines,
                (y0 - line_space * Z.of_nat (List.length lines))%Z)).
  { induction lines as [|l r IH]; intros c0 y0.
    - simpl. rewrite app_nil_r. f_equal. lia.
    - cbn [fold_left fst snd draw_lines List.length]. rewrite IH.
      rewrite <- app_assoc. f_equal. lia. }
  rewrite G. rewrite <- app_assoc. reflexivity.
Qed.





Lemma page_breaks_app (c1 c2 : canvas) :
  page_breaks (c1 ++ c2) = (page_breaks c1 + page_breaks c2)%nat.
Proof. unfold page_breaks. rewrite filter_app, length_app. reflexivity. Qed.

Lemma page_breaks_lines (x y : Z) (lines : list pystr) :
  page_breaks (draw_lines x y lines) = 0%nat.
Proof. revert y. induction lines as [|l r IH]; intros y; [reflexivity|apply IH]. Qed.

Lemma page_breaks_font (f : pystr) (n : Z) (c : canvas) :
  page_breaks (SetFont f n :: c) = page_breaks c.
Proof. reflexivity. Qed.




(** ** The layout of the table *)

Lemma for_each_format_topic (env : Env) (topics : list json) (lines : list pystr) :
  forallb is_object topics = true ->
  for_each topics (format_topic env) lines
  = Ret (lines ++ flat_map (table_topic env) topics).
Proof.
  revert lines. induction topics as [|t r IH]; intros lines H.
  - simpl. rewrite app_nil_r. reflexivity.
  - cbn [forallb] in H. apply andb_true_iff in H as [Ht Hr].
    destruct t as [| | | | | |d]; try discriminate Ht.
    cbn [for_each]. unfold format_topic at 1. run. unfold py_get. cbv beta iota.
    rewrite IH by exact Hr. cbn [flat_map].
    repeat rewrite <- app_assoc. reflexivity.
Qed.

Lemma format_level_lines (env : Env) (level : json) (lines : list pystr) :
  level_ok level = true ->
  format_level env level lines = Ret (lines ++ table_level env level).
Proof.
  destruct level as [| | | | | |d]; try discriminate. unfold level_ok. intros H.
  unfold format_level. run. unfold py_get. cbv beta iota.
  unfold table_level, items_of, shown, member.
  destruct (dict_get d (lit "topics")) as [[| | | | |topics|]|]; try discriminate;
    cbv beta iota delta [py_iter].
  - rewrite for_each_format_topic by exact H.
    repeat rewrite <- app_assoc. reflexivity.
  - cbn [for_each flat_map]. repeat rewrite <- app_assoc. reflexivity.
Qed.

Lemma for_each_format_level (env : Env) (levels : list json) (lines : list pystr) :
  forallb level_ok levels = true ->
  for_each levels (format_level env) lines
  = Ret (lines ++ flat_map (table_level env) levels).
Proof.
  revert lines. induction levels as [|l r IH]; intros lines H.
  - simpl. rewrite app_nil_r. reflexivity.
  - cbn [forallb] in H. apply andb_true_iff in H as [Hl Hr].
    cbn [for_each]. rewrite format_level_lines by exact Hl.
    rewrite IH by exact Hr. cbn [flat_map]. rewrite <- app_assoc. reflexivity.
Qed.

(** X14.  The layout of the table.  For a record whose levels are a list
    of objects and whose topics are lists of objects, [format_table]
    returns, joined by line breaks: a rule of 60 equals signs after a line
    break, the title, the duration and hours line, a rule; then for each
    level, in the order of the record, its heading after an empty line, a
    rule of 60 hyphens, and for each of its topics four lines (topic,
    activity, hours, justification) followed by an empty line; then a
    closing rule and a line break.  So it has five entries, two more for
    each level and four more for each topic. *)
Theorem format_table_layout (env : Env) (roadmap_data : json) :
  record_ok roadmap_data = true ->
  format_table env roadmap_data
  = Ret (join nl (table_lines env (roadmap_of roadmap_data)))
  /\ List.length (table_lines env (roadmap_of roadmap_data))
     = (5 + 2 * List.length (items_of (roadmap_of roadmap_data) "levels")
        + 4 * list_sum
                (map (fun level => List.length (items_of level "topics"))
                   (items_of (roadmap_of roadmap_data) "levels")))%nat.
Proof.
  intros H. split.
  - destruct roadmap_data as [| | | | | |d]; try discriminate. unfold record_ok in H.
    unfold format_table. run. unfold py_get at 1. cbv beta iota.
    unfold roadmap_of, member.
    set (roadmap := match dict_get d (lit "roadmap") with
                    | Some x => x
                    | None => JDict []
                    end).
    assert (Hr : roadmap_ok roadmap = true).
    { subst roadmap. destruct (dict_get d (lit "roadmap")); [exact H|reflexivity]. }
    clearbody roadmap. clear H.
    destruct roadmap as [| | | | | |r]; try discriminate. unfold roadmap_ok in Hr.
    unfold py_get. cbv beta iota.
    unfold table_lines, items_of, shown, member.
    destruct (dict_get r (lit "levels")) as [[| | | | |levels|]|]; try discriminate;
      cbv beta iota delta [py_iter].
    + rewrite for_each_format_level by exact Hr. reflexivity.
    + reflexivity.
  - unfold table_lines. rewrite length_app, length_app. cbn [List.length].
    generalize (items_of (roadmap_of roadmap_data) "levels"). intros levels.
    assert (G : List.length (flat_map (table_level env) levels)
                = (2 * List.length levels
                   + 4 * list_sum
                           (map (fun level => List.length (items_of level "topics"))
                              levels))%nat).
    { induction levels as [|l r IH]; [reflexivity|].
      cbn [flat_map map list_sum List.length]. rewrite length_app, IH.
      unfold table_level. cbn [List.length].
      assert (T : forall ts, List.length (flat_map (table_topic env) ts)
                             = (4 * List.length ts)%nat).
      { induction ts as [|t ts' IHt]; [reflexivity|].
        cbn [flat_map]. rewrite length_app, IHt. unfold table_topic. cbn [List.length]. lia. }
      rewrite T.
      match goal with
      | |- context [list_sum (?a :: ?m)] =>
          change (list_sum (a :: m)) with (a + list_sum m)%nat
      end.
      lia. }
    rewrite G. lia.
Qed.

Lemma format_table_layout_witness :
  format_table (demo_env [] false true)
    (JDict [(lit "roadmap",
             JDict [(lit "levels",
                     JList [JDict [(lit "level", JInt 1);
                                   (lit "topics", JList [JDict []])]])])])
  = Ret (join nl
           [ nl ++ rule equals_sign;
             lit "GenAI Roadmap";
             lit "Duration: 0 days | Total Hours: 0";
             rule equals_sign;
             nl ++ lit "Level 1:  (Est. 0 hrs)";
             rule hyphen;
             lit "- Topic: ";
             lit "  Activity: ";
             lit "  Est. Hours: 0";
             lit "  Justification: " ++ nl;
             rule equals_sign ++ nl ]).
Proof.
  destruct (format_table_layout (demo_env [] false true)
              (JDict [(lit "roadmap",
                       JDict [(lit "levels",
                               JList [JDict [(lit "level", JInt 1);
                                             (lit "topics", JList [JDict []])]])])])
              eq_refl) as [E _].
  rewrite E. reflexivity.
Defined.

(** ** What the normalizer leaves *)

Lemma infix_refl (s : pystr) : infix s s.
Proof. exists [], []. rewrite app_nil_r. reflexivity. Qed.

Lemma infix_trans (a b c : pystr) : infix a b -> infix b c -> infix a c.
Proof.
  intros [p1 [q1 ->]] [p2 [q2 ->]]. exists (p2 ++ p1), (q1 ++ q2).
  repeat rewrite <- app_assoc. reflexivity.
Qed.

Lemma infix_suffix (p s : pystr) : infix s (p ++ s).
Proof. exists p, []. rewrite app_nil_r. reflexivity. Qed.

Lemma infix_prefix (s q : pystr) : infix s (s ++ q).
Proof. exists [], q. reflexivity. Qed.

Lemma lstrip_infix (s : pystr) : infix (lstrip s) s.
Proof.
  induction s as [|c r IH]; simpl; [apply infix_refl|].
  destruct (py_isspace c); [|apply infix_refl].
  apply (infix_trans _ r); [exact IH|apply (infix_suffix [c])].
Qed.

Lemma strip_infix (s : pystr) : infix (strip s) s.
Proof.
  unfold strip. apply (infix_trans _ (lstrip s)); [|apply lstrip_infix].
  destruct (rstrip_split (lstrip s)) as [ws [_ E]].
  rewrite E at 2. apply infix_prefix.
Qed.

Lemma skipn_infix (n : nat) (s : pystr) : infix (skipn n s) s.
Proof.
  exists (firstn n s), []. rewrite app_nil_r. symmetry. apply firstn_skipn.
Qed.

Lemma drop_while_infix (p : codepoint -> bool) (s : pystr) : infix (drop_while p s) s.
Proof.
  induction s as [|c r IH]; simpl; [apply infix_refl|].
  destruct (p c); [|apply infix_refl].
  apply (infix_trans _ r); [exact IH|apply (infix_suffix [c])].
Qed.

Lemma sub_fence_prefix_infix (s : pystr) : infix (sub_fence_prefix s) s.
Proof.
  unfold sub_fence_prefix. destruct (startswith s fence); [|apply infix_refl].
  apply (infix_trans _ (skipn 3 s)); [|apply skipn_infix].
  apply (infix_trans _ (drop_while is_ascii_letter (skipn 3 s)));
    [|apply drop_while_infix].
  destruct (drop_while is_ascii_letter (skipn 3 s)) as [|c r]; [apply infix_refl|].
  destruct c as [|p]; [apply infix_refl|].
  repeat (destruct p as [p|p|]; try apply infix_refl).
  apply (infix_suffix [10%N]).
Qed.

Lemma drop_last_infix (n : nat) (s : pystr) : infix (drop_last n s) s.
Proof.
  unfold drop_last. exists [], (skipn (List.length s - n) s).
  symmetry. apply firstn_skipn.
Qed.

(** X15.  The normalizer only cuts: what [clean_json_output] returns
    occurs in its input as one piece, so it adds no character, changes
    none and reorders none, and its result is never longer than the
    input. *)
Theorem clean_json_output_cuts_only (output : pystr) :
  infix (clean_json_output output) output
  /\ (List.length (clean_json_output output) <= List.length output)%nat.
Proof.
  assert (G : infix (clean_json_output output) output).
  { unfold clean_json_output.
    apply (infix_trans _ (strip output)); [|apply strip_infix].
    destruct (startswith (strip output) fence).
    - eapply infix_trans; [apply strip_infix|].
      apply (infix_trans _ (sub_fence_prefix (strip output)));
        [|apply sub_fence_prefix_infix].
      destruct (endswith _ fence); [apply drop_last_infix|apply infix_refl].
    - apply strip_infix. }
  split; [exact G|].
  destruct G as [p [q E]]. rewrite E at 2. repeat rewrite length_app. lia.
Qed.

(** ** Replies that open with prose *)

Lemma json_start_literal (c a : codepoint) (s p : pystr) :
  startswith (c :: s) (a :: p) = true -> json_start a = true -> json_start c = true.
Proof.
  cbn [startswith]. intros H Ha. apply andb_true_iff in H as [E _].
  apply N.eqb_eq in E. subst c. exact Ha.
Qed.

Lemma json_start_number (c : codepoint) (s : pystr) (v : json) (r : pystr) :
  match_number (c :: s) = Some (v, r) -> json_start c = true.
Proof.
  unfold match_number, number_sign.
  destruct (c =? 45)%N eqn:E.
  - intros _. apply N.eqb_eq in E. subst c. reflexivity.
  - unfold number_int at 1.
    destruct (c =? 48)%N eqn:E0.
    + intros _. apply N.eqb_eq in E0. subst c. reflexivity.
    + destruct (is_digit c) eqn:Hd; [|discriminate].
      intros _. unfold json_start. rewrite Hd. reflexivity.
Qed.

Lemma scan_once_json_start (fuel : nat) (s : pystr) (v : json) (r : pystr) :
  scan_once fuel s = Scanned (v, r) ->
  exists c s', s = c :: s' /\ json_start c = true.
Proof.
  destruct fuel as [|f]; [discriminate|].
  destruct s as [|c s]; [discriminate|].
  intros H. exists c, s. split; [reflexivity|]. unfold_scan H.
  destruct (c =? 34)%N eqn:E1.
  { apply N.eqb_eq in E1. subst c. reflexivity. }
  destruct (c =? 123)%N eqn:E2.
  { apply N.eqb_eq in E2. subst c. reflexivity. }
  destruct (c =? 91)%N eqn:E3.
  { apply N.eqb_eq in E3. subst c. reflexivity. }
  destruct (startswith (c :: s) (lit "null")) eqn:L1.
  { apply (json_start_literal c _ s _ L1). reflexivity. }
  destruct (startswith (c :: s) (lit "true")) eqn:L2.
  { apply (json_start_literal c _ s _ L2). reflexivity. }
  destruct (startswith (c :: s) (lit "false")) eqn:L3.
  { apply (json_start_literal c _ s _ L3). reflexivity. }
  destruct (match_number (c :: s)) as [[v' r']|] eqn:E.
  { apply (json_start_number c s v' r' E). }
  destruct (startswith (c :: s) (lit "NaN")) eqn:L4.
  { apply (json_start_literal c _ s _ L4). reflexivity. }
  destruct (startswith (c :: s) (lit "Infinity")) eqn:L5.
  { apply (json_start_literal c _ s _ L5). reflexivity. }
  destruct (startswith (c :: s) (lit "-Infinity")) eqn:L6; [|discriminate H].
  apply (json_start_literal c _ s _ L6). reflexivity.
Qed.

Lemma not_fence_led (c : codepoint) : json_start c = false -> c <> 96%N ->
  forall s, startswith (c :: s) fence = false.
Proof.
  intros _ N s.
  change (startswith (c :: s) fence)
    with ((96 =? c)%N && startswith s [96%N; 96%N]).
  destruct (96 =? c)%N eqn:E; [|reflexivity].
  apply N.eqb_eq in E. congruence.
Qed.

Lemma json_loads_needs_start (s : pystr) (c : codepoint) (rest : pystr) :
  skip_ws s = c :: rest -> json_start c = false -> json_loads s = None.
Proof.
  intros E H. unfold json_loads. rewrite E.
  destruct (scan_once _ (c :: rest)) as [[v r]| |] eqn:S; try reflexivity.
  apply scan_once_json_start in S as [c' [s' [Es Hs]]].
  injection Es as <- _. rewrite H in Hs. discriminate Hs.
Qed.

Lemma lstrip_length (s : pystr) : (List.length (lstrip s) <= List.length s)%nat.
Proof.
  induction s as [|c r IH]; simpl; [lia|].
  destruct (py_isspace c); simpl; lia.
Qed.

Lemma reply_trimmed (env : Env) (history : list request) (prompt : pystr) :
  strip (reply env history prompt) = reply env history prompt.
Proof.
  unfold reply. destruct (remote env history _); [apply strip_idem|reflexivity].
Qed.

Lemma strip_head_not_space (s : pystr) (c : codepoint) (rest : pystr) :
  strip s = c :: rest -> py_isspace c = false.
Proof.
  intros E. pose proof (strip_trimmed s) as [L _]. rewrite E in L.
  destruct (py_isspace c) eqn:H; [|reflexivity].
  simpl in L. rewrite H in L.
  pose proof (lstrip_length rest) as G. rewrite L in G. simpl in G. lia.
Qed.

(** A trimmed text that opens with a character no JSON value begins with,
    and not with a fence, is left as it is by the normalizer and refused
    by the decoder. *)
Lemma prose_is_not_json (out : pystr) (c : codepoint) (rest : pystr) :
  strip out = c :: rest -> json_start c = false -> c <> 96%N ->
  json_loads (clean_json_output out) = None.
Proof.
  intros E H N.
  rewrite clean_unfenced by (rewrite E; apply not_fence_led; assumption).
  rewrite E. apply (json_loads_needs_start _ c rest); [|exact H].
  simpl. destruct (is_json_ws c) eqn:W; [|reflexivity].
  apply py_isspace_json_ws in W.
  rewrite (strip_head_not_space out c rest E) in W. discriminate W.
Qed.

(** X16.  A reply that opens with prose is lost whole.  When the text the
    model client hands to a stage begins with a character that no JSON
    value begins with and that is not a backquote (a letter of "Here is",
    say), the normalizer removes nothing, the decoder refuses the text, and
    the stage returns its default, whatever JSON the reply holds further
    on. *)
Theorem reply_opening_with_prose_is_dropped (env : Env) (w : world) (c : codepoint) :
  json_start c = false -> c <> 96%N ->
  (forall r i g rest,
     reply env (calls w) (extract_user_data_prompt r i g) = c :: rest ->
     fst (extract_user_data env r i g w) = Ret (JDict []))
  /\ (forall user_data rest,
        reply env (calls w) (classify_persona_prompt env user_data) = c :: rest ->
        fst (classify_persona env user_data w) = Ret (JStr [], JStr []))
  /\ (forall user_data persona rest,
        reply env (calls w) (plan_roadmap_think_prompt env user_data persona)
        = c :: rest ->
        fst (plan_roadmap_think env user_data persona w) = Ret (JList []))
  /\ (forall topics rest,
        reply env (calls w) (plan_roadmap_plan_prompt env topics) = c :: rest ->
        fst (plan_roadmap_plan env topics w) = Ret (JDict []))
  /\ (forall user_data persona structure rest,
        reply env (calls w)
          (plan_roadmap_activities_prompt env user_data persona structure)
        = c :: rest ->
        fst (plan_roadmap_activities env user_data persona structure w)
        = Ret (JDict [])).
Proof.
  intros H N.
  assert (G : forall prompt rest,
             reply env (calls w) prompt = c :: rest ->
             json_loads (clean_json_output (reply env (calls w) prompt)) = None).
  { intros prompt rest E. apply (prose_is_not_json _ c rest); try assumption.
    rewrite reply_trimmed. exact E. }
  repeat split; intros.
  - rewrite extract_user_data_eq. cbv zeta. rewrite (G _ _ H0). reflexivity.
  - rewrite classify_persona_eq. cbv zeta. rewrite (G _ _ H0). reflexivity.
  - rewrite plan_roadmap_think_eq. cbv zeta. unfold parsed_or.
    rewrite (G _ _ H0). reflexivity.
  - rewrite plan_roadmap_plan_eq. cbv zeta. unfold parsed_or.
    rewrite (G _ _ H0). reflexivity.
  - rewrite plan_roadmap_activities_eq. cbv zeta. unfold parsed_or.
    rewrite (G _ _ H0). reflexivity.
Qed.

Lemma reply_opening_with_prose_is_dropped_witness :
  fst (extract_user_data
         (demo_env [Ret (lit "Here is the profile: " ++ profile_response)] false true)
         (lit "5 years backend, Python advanced")
         (lit "prefers hands-on, 8 hrs/week")
         (lit "integrate GenAI into workflow") fresh)
  = Ret (JDict []).
Proof.
  assert (N : 72%N <> 96%N) by discriminate.
  destruct (reply_opening_with_prose_is_dropped
              (demo_env [Ret (lit "Here is the profile: " ++ profile_response)]
                 false true)
              fresh 72%N eq_refl N) as [H _].
  eapply H. vm_compute. reflexivity.
Defined.

(** ** Text after a JSON value

    A scanner that has read a value reads the same value when more text
    follows, provided the text that follows begins with whitespace. *)

Lemma span_led (p : codepoint -> bool) (s x : pystr) :
  (forall c, is_json_ws c = true -> p c = false) ->
  ws_led x = true ->
  span p (s ++ x) = (fst (span p s), snd (span p s) ++ x).
Proof.
  intros Hp Hx. induction s as [|c s IH]; cbn [app span].
  - destruct x as [|w x']; [reflexivity|].
    cbn [span]. rewrite (Hp w Hx). reflexivity.
  - destruct (p c); [|reflexivity].
    rewrite IH. destruct (span p s). reflexivity.
Qed.

Lemma number_sign_led (s x : pystr) :
  ws_led x = true ->
  number_sign (s ++ x) = (fst (number_sign s), snd (number_sign s) ++ x).
Proof.
  intros Hx. destruct s as [|c s]; cbn [app number_sign].
  - destruct x as [|w x']; [reflexivity|].
    cbn [ws_led] in Hx. ws_char w Hx; reflexivity.
  - destruct (c =? 45)%N; reflexivity.
Qed.

Lemma number_int_led (s x : pystr) :
  ws_led x = true -> number_int (s ++ x) = followed_by_opt x (number_int s).
Proof.
  intros Hx. destruct s as [|c s]; cbn [app number_int].
  - destruct x as [|w x']; [reflexivity|].
    cbn [ws_led] in Hx. ws_char w Hx; reflexivity.
  - destruct (c =? 48)%N; [reflexivity|]. destruct (is_digit c); [|reflexivity].
    rewrite (span_led is_digit s x is_digit_ws Hx).
    destruct (span is_digit s). reflexivity.
Qed.

Lemma number_frac_led (s x : pystr) :
  ws_led x = true ->
  number_frac (s ++ x) = (fst (number_frac s), snd (number_frac s) ++ x).
Proof.
  intros Hx. destruct s as [|c s]; cbn [app number_frac].
  - destruct x as [|w x']; [reflexivity|].
    cbn [ws_led] in Hx. ws_char w Hx; reflexivity.
  - destruct (c =? 46)%N; [|reflexivity].
    rewrite (span_led is_digit s x is_digit_ws Hx).
    destruct (span is_digit s) as [[|d ds] rest]; reflexivity.
Qed.

Lemma number_exp_led (s x : pystr) :
  ws_led x = true ->
  number_exp (s ++ x) = (fst (number_exp s), snd (number_exp s) ++ x).
Proof.
  intros Hx. destruct s as [|e s]; cbn [app number_exp].
  - destruct x as [|w x']; [reflexivity|].
    cbn [ws_led] in Hx. ws_char w Hx; reflexivity.
  - destruct ((e =? 101) || (e =? 69))%N; [|reflexivity].
    destruct s as [|g s']; cbn [app].
    + pose proof (span_led is_digit [] x is_digit_ws Hx) as E.
      cbn [app span fst snd] in E.
      destruct x as [|w x']; [reflexivity|].
      assert (G : ((w =? 43) || (w =? 45))%N = false).
      { cbn [ws_led] in Hx. ws_char w Hx; reflexivity. }
      rewrite G, E. reflexivity.
    + destruct ((g =? 43) || (g =? 45))%N.
      * rewrite (span_led is_digit s' x is_digit_ws Hx).
        destruct (span is_digit s') as [[|d ds] rest]; reflexivity.
      * change (g :: s' ++ x) with ((g :: s') ++ x).
        rewrite (span_led is_digit (g :: s') x is_digit_ws Hx).
        destruct (span is_digit (g :: s')) as [[|d ds] rest]; reflexivity.
Qed.

Lemma match_number_led (s x : pystr) :
  ws_led x = true -> match_number (s ++ x) = followed_by_opt x (match_number s).
Proof.
  intros Hx. unfold match_number.
  rewrite (number_sign_led s x Hx). destruct (number_sign s) as [sign s1].
  cbn [fst snd]. rewrite (number_int_led s1 x Hx).
  destruct (number_int s1) as [[ip s2]|]; [|reflexivity]. cbn [followed_by_opt].
  rewrite (number_frac_led s2 x Hx). destruct (number_frac s2) as [frac s3].
  cbn [fst snd]. rewrite (number_exp_led s3 x Hx).
  destruct (number_exp s3) as [exp s4]. cbn [fst snd].
  destruct frac, exp; reflexivity.
Qed.

Lemma startswith_led (s x p : pystr) :
  ws_led x = true -> forallb (fun c => negb (is_json_ws c)) p = true ->
  startswith (s ++ x) p = startswith s p.
Proof.
  intros Hx. revert s. induction p as [|a p IH]; intros s Hp.
  - destruct s; [destruct x|]; reflexivity.
  - cbn [forallb] in Hp. apply andb_true_iff in Hp as [Ha Hp].
    destruct s as [|c s]; cbn [app startswith].
    + destruct x as [|w x']; [reflexivity|].
      cbn [ws_led] in Hx. cbn [startswith].
      destruct (N.eqb a w) eqn:E; [|reflexivity].
      apply N.eqb_eq in E. subst w. rewrite Hx in Ha. discriminate Ha.
    + rewrite IH by exact Hp. reflexivity.
Qed.

Lemma scan_chars_ext_bounded (n : nat) (x : pystr) :
  forall s cs r, (List.length s <= n)%nat ->
    scan_chars s = Some (cs, r) -> scan_chars (s ++ x) = Some (cs, r ++ x).
Proof.
  induction n as [|n IH]; intros s cs r Hle H.
  - destruct s; [discriminate H|simpl in Hle; lia].
  - destruct s as [|c s]; [discriminate H|]. simpl in Hle.
    assert (IH' : forall t cs r, (List.length t <= List.length s)%nat ->
                    scan_chars t = Some (cs, r) ->
                    scan_chars (t ++ x) = Some (cs, r ++ x)).
    { intros t cs' r' Ht Hs. apply IH; [lia|exact Hs]. }
    cbn [app scan_chars] in *.
    destruct (c =? 34)%N.
    { injection H as <- <-. reflexivity. }
    destruct (c <? 32)%N; [discriminate H|].
    destruct (c =? 92)%N.
    + destruct s as [|e r1]; [discriminate H|]. cbn [app].
      destruct (e =? 117)%N.
      * destruct r1 as [|h1 [|h2 [|h3 [|h4 r2]]]]; try discriminate H. cbn [app].
        destruct (hex4 h1 h2 h3 h4); [|discriminate H].
        destruct (scan_chars r2) as [[cs' rest]|] eqn:E; [|discriminate H].
        injection H as <- <-.
        rewrite (IH' r2 cs' rest) by (cbn [List.length]; try lia; exact E).
        reflexivity.
      * destruct (simple_escape e); [|discriminate H].
        destruct (scan_chars r1) as [[cs' rest]|] eqn:E; [|discriminate H].
        injection H as <- <-.
        rewrite (IH' r1 cs' rest) by (cbn [List.length]; try lia; exact E).
        reflexivity.
    + destruct (scan_chars s) as [[cs' rest]|] eqn:E; [|discriminate H].
      injection H as <- <-.
      rewrite (IH' s cs' rest) by (try lia; exact E). reflexivity.
Qed.

Lemma scanstring_ext (s x str r : pystr) :
  scanstring s = Some (str, r) -> scanstring (s ++ x) = Some (str, r ++ x).
Proof.
  unfold scanstring. destruct (scan_chars s) as [[cs rest]|] eqn:E; [|discriminate].
  intros H. injection H as <- <-.
  rewrite (scan_chars_ext_bounded (List.length s) x s cs rest (le_n _) E).
  reflexivity.
Qed.

Lemma skip_ws_ext (s x : pystr) (c : codepoint) (t : pystr) :
  skip_ws s = c :: t -> skip_ws (s ++ x) = c :: t ++ x.
Proof.
  induction s as [|a s IH]; [discriminate|].
  cbn [app skip_ws]. destruct (is_json_ws a); [exact IH|].
  intros H. injection H as <- <-. reflexivity.
Qed.

Ltac literal_led x Hx c r p H :=
  change (c :: r ++ x) with ((c :: r) ++ x);
  rewrite (startswith_led (c :: r) x p Hx eq_refl);
  let E := fresh "E" in
  destruct (startswith (c :: r) p) eqn:E;
  [injection H as <- <-;
   let n := eval cbv in (List.length p) in
   change (skipn n ((c :: r) ++ x)) with (skipn (List.length p) ((c :: r) ++ x));
   rewrite (skipn_app_startswith (c :: r) x p E); reflexivity|];
  change ((c :: r) ++ x) with (c :: r ++ x).

Lemma scan_ext (fuel : nat) (x : pystr) :
  ws_led x = true ->
  (forall s v r, scan_once fuel s = Scanned (v, r) ->
     scan_once fuel (s ++ x) = Scanned (v, r ++ x))
  /\ (forall acc s v r, parse_array fuel acc s = Scanned (v, r) ->
        parse_array fuel acc (s ++ x) = Scanned (v, r ++ x))
  /\ (forall acc s v r, parse_object fuel acc s = Scanned (v, r) ->
        parse_object fuel acc (s ++ x) = Scanned (v, r ++ x)).
Proof.
  intros Hx. induction fuel as [|f [IHs [IHa IHo]]].
  - repeat split; intros; discriminate.
  - split; [|split].
    + intros s v r0 H. destruct s as [|c r]; [discriminate H|].
      cbn [app]. unfold_scan H.
      cbn -[skipn startswith scanstring match_number skip_ws lit].
      destruct (c =? 34)%N.
      { destruct (scanstring r) as [[str rest]|] eqn:E; [|discriminate H].
        injection H as <- <-. rewrite (scanstring_ext r x str rest E). reflexivity. }
      destruct (c =? 123)%N.
      { destruct (skip_ws r) as [|x0 r1] eqn:E; [discriminate H|].
        rewrite (skip_ws_ext r x x0 r1 E).
        destruct (x0 =? 125)%N; [injection H as <- <-; reflexivity|].
        destruct (x0 =? 34)%N; [|discriminate H]. apply IHo. exact H. }
      destruct (c =? 91)%N.
      { destruct (skip_ws r) as [|x0 r1] eqn:E; [discriminate H|].
        rewrite (skip_ws_ext r x x0 r1 E).
        destruct (x0 =? 93)%N; [injection H as <- <-; reflexivity|].
        change (x0 :: r1 ++ x) with ((x0 :: r1) ++ x). apply IHa. exact H. }
      literal_led x Hx c r (lit "null") H.
      literal_led x Hx c r (lit "true") H.
      literal_led x Hx c r (lit "false") H.
      change (c :: r ++ x) with ((c :: r) ++ x).
      rewrite (match_number_led (c :: r) x Hx).
      destruct (match_number (c :: r)) as [[? ?]|];
        [injection H as <- <-; reflexivity|].
      cbn [followed_by_opt].
      change ((c :: r) ++ x) with (c :: r ++ x).
      literal_led x Hx c r (lit "NaN") H.
      literal_led x Hx c r (lit "Infinity") H.
      literal_led x Hx c r (lit "-Infinity") H.
      discriminate H.
    + intros acc s v r0 H. unfold_scan H.
      cbn -[skipn startswith scanstring match_number skip_ws lit].
      destruct (scan_once f s) as [[v1 r1]| |] eqn:E; try discriminate H.
      rewrite (IHs s v1 r1 E).
      destruct (skip_ws r1) as [|x0 r2] eqn:E1; [discriminate H|].
      rewrite (skip_ws_ext r1 x x0 r2 E1).
      destruct (x0 =? 93)%N; [injection H as <- <-; reflexivity|].
      destruct (x0 =? 44)%N; [|discriminate H].
      destruct (skip_ws r2) as [|y t] eqn:E2.
      { apply (proj1 (proj2 (scan_progress f))) in H. simpl in H. lia. }
      rewrite (skip_ws_ext r2 x y t E2).
      change (y :: t ++ x) with ((y :: t) ++ x). apply IHa. exact H.
    + intros acc s v r0 H. unfold_scan H.
      cbn -[skipn startswith scanstring match_number skip_ws lit].
      destruct (scanstring s) as [[key r]|] eqn:E; [|discriminate H].
      rewrite (scanstring_ext s x key r E).
      destruct (skip_ws r) as [|x0 r1] eqn:E0; [discriminate H|].
      rewrite (skip_ws_ext r x x0 r1 E0).
      destruct (x0 =? 58)%N; [|discriminate H].
      destruct (scan_once f (skip_ws r1)) as [[v1 r2]| |] eqn:E1; try discriminate H.
      destruct (skip_ws r1) as [|y1 t1] eqn:E1'.
      { apply (proj1 (scan_progress f)) in E1. simpl in E1. lia. }
      rewrite (skip_ws_ext r1 x y1 t1 E1').
      change (y1 :: t1 ++ x) with ((y1 :: t1) ++ x).
      rewrite (IHs _ v1 r2 E1).
      destruct (skip_ws r2) as [|y r3] eqn:E2; [discriminate H|].
      rewrite (skip_ws_ext r2 x y r3 E2).
      destruct (y =? 125)%N; [injection H as <- <-; reflexivity|].
      destruct (y =? 44)%N; [|discriminate H].
      destruct (skip_ws r3) as [|q r4] eqn:E3; [discriminate H|].
      rewrite (skip_ws_ext r3 x q r4 E3).
      destruct (q =? 34)%N; [|discriminate H]. apply IHo. exact H.
Qed.

Lemma json_loads_trimmed_core (t : pystr) (v : json) :
  json_loads t = Some v ->
  exists ws1 ws2 c u',
    json_ws ws1 = true /\ json_ws ws2 = true
    /\ t = ws1 ++ strip t ++ ws2
    /\ strip t = c :: u' /\ opens c = true
    /\ forall k, scan_once (S (2 * List.length (strip t)) + k) (strip t)
                 = Scanned (v, []).
Proof.
  intros H.
  destruct (json_loads_shape t v H)
    as [ws1 [u [ws2 [Et [H1 [H2 [[c [u' [Ec Hc]]] [[p [z [Ez Hz]]] E]]]]]]]].
  assert (Es : strip t = u).
  { rewrite Et. unfold strip.
    rewrite lstrip_all_space by (apply all_space_json_ws; exact H1).
    rewrite Ec. change ((c :: u') ++ ws2) with (c :: u' ++ ws2).
    rewrite lstrip_nonspace by (apply opens_not_space; exact Hc).
    change (c :: u' ++ ws2) with ((c :: u') ++ ws2). rewrite <- Ec.
    rewrite rstrip_all_space by (apply all_space_json_ws; exact H2).
    rewrite Ez. apply rstrip_snoc_nonspace, closes_not_space. exact Hz. }
  exists ws1, ws2, c, u'. rewrite Es.
  repeat split; try assumption.
  intros k.
  rewrite (proj1 (scan_app _ ws2 H2)) in E.
  destruct (scan_once (S (2 * List.length t)) u) as [[v' r]| |] eqn:Sc;
    try discriminate E.
  cbn [followed_by] in E. injection E as -> Hr.
  assert (r = []).
  { apply (f_equal (@List.length _)) in Hr. rewrite length_app in Hr.
    destruct r; [reflexivity|simpl in Hr; lia]. }
  subst r.
  assert (L : (List.length u <= List.length t)%nat).
  { rewrite Et. repeat rewrite length_app. lia. }
  replace (S (2 * List.length t))
    with (S (2 * List.length u) + 2 * (List.length t - List.length u))%nat
    in Sc by lia.
  rewrite scan_once_any_fuel in Sc. rewrite scan_once_any_fuel. exact Sc.
Qed.

Lemma skip_ws_past (ws s : pystr) : json_ws ws = true -> skip_ws (ws ++ s) = skip_ws s.
Proof.
  induction ws as [|c ws IH]; [reflexivity|].
  intros H. apply json_ws_cons in H as [Hc Hw]. simpl. rewrite Hc. auto.
Qed.

Lemma ws_led_app (ws x : pystr) :
  json_ws ws = true -> ws_led x = true -> ws_led (ws ++ x) = true.
Proof.
  destruct ws as [|c ws]; [intros _ H; exact H|].
  intros H _. apply json_ws_cons in H as [Hc _]. exact Hc.
Qed.

(** What follows a JSON text decides: whitespace alone changes nothing,
    anything else after whitespace makes the decoder refuse the whole. *)
Lemma json_loads_then_text (t x : pystr) (v : json) :
  json_loads t = Some v -> ws_led x = true ->
  json_loads (t ++ x) = match skip_ws x with [] => Some v | _ :: _ => None end.
Proof.
  intros H Hx.
  destruct (json_loads_trimmed_core t v H)
    as [ws1 [ws2 [c [u' [H1 [H2 [Et [Ec [Hc Sc]]]]]]]]].
  set (u := strip t) in *.
  assert (Hx' : ws_led (ws2 ++ x) = true) by (apply ws_led_app; assumption).
  assert (E : t ++ x = ws1 ++ u ++ (ws2 ++ x)).
  { rewrite Et at 1. repeat rewrite <- app_assoc. reflexivity. }
  unfold json_loads. rewrite E at 2. rewrite (skip_ws_past ws1 _ H1).
  assert (K : skip_ws (u ++ ws2 ++ x) = u ++ ws2 ++ x).
  { rewrite Ec. simpl. destruct (is_json_ws c) eqn:W; [|reflexivity].
    apply py_isspace_json_ws in W. rewrite (opens_not_space c Hc) in W.
    discriminate W. }
  rewrite K.
  assert (L : (List.length u <= List.length (t ++ x))%nat).
  { rewrite E. repeat rewrite length_app. lia. }
  replace (S (2 * List.length (t ++ x)))
    with (S (2 * List.length u) + 2 * (List.length (t ++ x) - List.length u))%nat
    by lia.
  rewrite (proj1 (scan_ext _ (ws2 ++ x) Hx') u v [] (Sc _)).
  cbn [app]. rewrite (skip_ws_past ws2 x H2). reflexivity.
Qed.

Lemma rstrip_length (s : pystr) : (List.length (rstrip s) <= List.length s)%nat.
Proof.
  destruct (rstrip_split s) as [ws [_ E]]. rewrite E at 2. rewrite length_app. lia.
Qed.

Lemma trimmed_last (a : pystr) (z : codepoint) :
  rstrip (a ++ [z]) = a ++ [z] -> py_isspace z = false.
Proof.
  intros H. destruct (py_isspace z) eqn:E; [|reflexivity].
  rewrite rstrip_all_space in H by (unfold all_space; simpl; rewrite E; reflexivity).
  pose proof (rstrip_length a) as L. rewrite H, length_app in L. simpl in L. lia.
Qed.

Lemma startswith_app_long (s x p : pystr) :
  (List.length p <= List.length s)%nat -> startswith (s ++ x) p = startswith s p.
Proof.
  revert s. induction p as [|a p IH]; intros s H; [destruct s; [destruct x|]; reflexivity|].
  destruct s as [|c s]; [simpl in H; lia|].
  cbn [app startswith]. rewrite IH by (simpl in H; lia). reflexivity.
Qed.

Lemma endswith_app_long (pre s p : pystr) :
  (List.length p <= List.length s)%nat -> endswith (pre ++ s) p = endswith s p.
Proof.
  intros H. unfold endswith. rewrite rev_app_distr.
  apply startswith_app_long. repeat rewrite length_rev. exact H.
Qed.

(** A fenced block followed by more text: the normalizer removes the
    opening fence line and leaves the rest, closing fence included. *)
Lemma clean_fenced_then_text (tag inner post : pystr) :
  forallb is_ascii_letter tag = true ->
  strip (fenced_block tag inner ++ post) = fenced_block tag inner ++ post ->
  endswith (fenced_block tag inner ++ post) fence = false ->
  clean_json_output (fenced_block tag inner ++ post)
  = strip (inner ++ nl ++ fence ++ post).
Proof.
  intros Ht Hs He. unfold clean_json_output. rewrite Hs. cbv zeta.
  assert (F : fenced_block tag inner ++ post
              = fence ++ tag ++ nl ++ (inner ++ nl ++ fence ++ post)).
  { unfold fenced_block. repeat rewrite <- app_assoc. reflexivity. }
  rewrite F. rewrite (startswith_app fence).
  unfold sub_fence_prefix. rewrite (startswith_app fence).
  change (skipn 3 (fence ++ tag ++ nl ++ (inner ++ nl ++ fence ++ post)))
    with (tag ++ nl ++ (inner ++ nl ++ fence ++ post)).
  rewrite drop_while_letters by exact Ht.
  change (nl ++ (inner ++ nl ++ fence ++ post))
    with (10%N :: (inner ++ nl ++ fence ++ post)). cbv iota beta.
  assert (G : endswith (inner ++ nl ++ fence ++ post) fence = false).
  { rewrite <- He, F.
    change (fence ++ tag ++ nl ++ inner ++ nl ++ fence ++ post)
      with (fence ++ tag ++ nl ++ (inner ++ nl ++ fence ++ post)).
    replace (fence ++ tag ++ nl ++ (inner ++ nl ++ fence ++ post))
      with ((fence ++ tag ++ nl) ++ (inner ++ nl ++ fence ++ post))
      by (repeat rewrite <- app_assoc; reflexivity).
    symmetry. apply endswith_app_long.
    repeat rewrite length_app. simpl. lia. }
  rewrite G. reflexivity.
Qed.

(** X17.  Commentary after the fence loses the reply.  When the model
    wraps well-formed JSON in a fenced block and goes on writing after the
    closing fence, the normalizer removes the opening fence line only (the
    text no longer ends with a fence), the decoder meets the closing fence
    after the value and refuses the whole, and [extract_user_data] returns
    its empty default although the reply held the JSON it asked for. *)
Theorem commentary_after_fence_is_lost (env : Env) (r i g : pystr) (w : world)
  (t tag post : pystr) (v : json) :
  json_loads t = Some v ->
  forallb is_ascii_letter tag = true ->
  post <> [] ->
  endswith (fenced_block tag t ++ post) fence = false ->
  reply env (calls w) (extract_user_data_prompt r i g) = fenced_block tag t ++ post ->
  json_loads (clean_json_output (fenced_block tag t ++ post)) = None
  /\ fst (extract_user_data env r i g w) = Ret (JDict []).
Proof.
  intros Hv Ht Hp He Hr.
  assert (Hs : strip (fenced_block tag t ++ post) = fenced_block tag t ++ post).
  { rewrite <- Hr. apply reply_trimmed. }
  assert (G : json_loads (clean_json_output (fenced_block tag t ++ post)) = None).
  { rewrite (clean_fenced_then_text tag t post Ht Hs He).
    destruct (exists_last Hp) as [post' [z Ep]].
    assert (Hz : py_isspace z = false).
    { apply (trimmed_last (fenced_block tag t ++ post')).
      pose proof (strip_trimmed (fenced_block tag t ++ post)) as [_ R].
      rewrite Hs, Ep, app_assoc in R. exact R. }
    destruct (json_loads_trimmed_core t v Hv)
      as [ws1 [ws2 [c [u' [H1 [H2 [Et [Ec [Hc _]]]]]]]]].
    destruct (json_loads_strip t v Hv) as [Hu _].
    assert (E : strip (t ++ nl ++ fence ++ post)
                = strip t ++ (ws2 ++ nl ++ fence ++ post)).
    { rewrite Et at 1. rewrite Ec, Ep.
      assert (X : (ws1 ++ (c :: u') ++ ws2) ++ nl ++ fence ++ post' ++ [z]
                  = ws1 ++ (c :: (u' ++ ws2 ++ nl ++ fence ++ post') ++ [z]) ++ []).
      { rewrite app_nil_r. cbn [app]. repeat (rewrite <- app_assoc; cbn [app]).
        reflexivity. }
      rewrite X, strip_padded;
        [ cbn [app]; repeat (rewrite <- app_assoc; cbn [app]); reflexivity
        | apply all_space_json_ws; exact H1
        | reflexivity
        | apply opens_not_space; exact Hc
        | exact Hz ]. }
    rewrite E.
    rewrite (json_loads_then_text (strip t) (ws2 ++ nl ++ fence ++ post) v Hu)
      by (apply ws_led_app; [exact H2|reflexivity]).
    rewrite (skip_ws_past ws2 _ H2). reflexivity. }
  split; [exact G|].
  rewrite extract_user_data_eq. cbv zeta. rewrite Hr, G. reflexivity.
Qed.

Lemma commentary_after_fence_is_lost_witness :
  json_loads profile_response
  = Some (JDict [ (lit "domain", JStr (lit "backend engineering"));
                  (lit "weekly_availability_hours", JInt 8) ])
  /\ fst (extract_user_data
            (demo_env [Ret (fenced_block (lit "json") profile_response
                            ++ nl ++ lit "Let me know if you need more.")]
               false true)
            (lit "5 years backend, Python advanced")
            (lit "prefers hands-on, 8 hrs/week")
            (lit "integrate GenAI into workflow") fresh)
     = Ret (JDict []).
Proof.
  assert (Hv : json_loads profile_response
               = Some (JDict [ (lit "domain", JStr (lit "backend engineering"));
                               (lit "weekly_availability_hours", JInt 8) ]))
    by (vm_compute; reflexivity).
  split; [exact Hv|].
  assert (Hp : nl ++ lit "Let me know if you need more." <> []) by discriminate.
  destruct (commentary_after_fence_is_lost
              (demo_env [Ret (fenced_block (lit "json") profile_response
                              ++ nl ++ lit "Let me know if you need more.")]
                 false true)
              (lit "5 years backend, Python advanced")
              (lit "prefers hands-on, 8 hrs/week")
              (lit "integrate GenAI into workflow") fresh
              profile_response (lit "json")
              (nl ++ lit "Let me know if you need more.") _ Hv eq_refl Hp)
    as [_ H]; [vm_compute; reflexivity|vm_compute; reflexivity|exact H].
Defined.

(** ** A model call that fails *)

Lemma failed_call_reply (env : Env) (w : world) (prompt : pystr) (e : exn) :
  remote env (calls w) (default_request prompt) = Raise e ->
  reply env (calls w) prompt = []
  /\ after_call env prompt w
     = {| calls := calls w ++ [default_request prompt];
          stdout := stdout w ++ [[Text (lit "[GeminiAPI] Error: "); ExnText e]];
          files := files w |}.
Proof.
  intros H. unfold reply, after_call. rewrite H. split; reflexivity.
Qed.

(** X18.  A failed model call is reported twice and then forgotten.  When
    the remote call of a stage raises, the client prints the error and
    hands on the empty string; the stage finds that the empty string is
    not JSON, prints its own line, with an empty raw output, and returns
    its default.  The caller sees a default and no exception, as for a
    reply that does not parse. *)
Theorem failed_call_is_reported_twice (env : Env) (w : world) (e : exn) :
  (forall r i g,
     remote env (calls w) (default_request (extract_user_data_prompt r i g)) = Raise e ->
     extract_user_data env r i g w
     = (Ret (JDict []),
        after_failed_call w (extract_user_data_prompt r i g) e
          "[UserUnderstanding] Failed to parse JSON: "))
  /\ (forall user_data,
        remote env (calls w) (default_request (classify_persona_prompt env user_data))
        = Raise e ->
        classify_persona env user_data w
        = (Ret (JStr [], JStr []),
           after_failed_call w (classify_persona_prompt env user_data) e
             "[PersonaClassifier] Failed to parse JSON: "))
  /\ (forall user_data persona,
        remote env (calls w)
          (default_request (plan_roadmap_think_prompt env user_data persona))
        = Raise e ->
        plan_roadmap_think env user_data persona w
        = (Ret (JList []),
           after_failed_call w (plan_roadmap_think_prompt env user_data persona) e
             "[RoadmapPlanner][Think] Failed to parse topics JSON: "))
  /\ (forall topics,
        remote env (calls w) (default_request (plan_roadmap_plan_prompt env topics))
        = Raise e ->
        plan_roadmap_plan env topics w
        = (Ret (JDict []),
           after_failed_call w (plan_roadmap_plan_prompt env topics) e
             "[RoadmapPlanner][Plan] Failed to parse structure JSON: "))
  /\ (forall user_data persona structure,
        remote env (calls w)
          (default_request
             (plan_roadmap_activities_prompt env user_data persona structure))
        = Raise e ->
        plan_roadmap_activities env user_data persona structure w
        = (Ret (JDict []),
           after_failed_call w
             (plan_roadmap_activities_prompt env user_data persona structure) e
             "[RoadmapPlanner][Activities] Failed to parse activities JSON: ")).
Proof.
  assert (G : forall prompt label (default : json),
             remote env (calls w) (default_request prompt) = Raise e ->
             parsed_or default label (reply env (calls w) prompt)
               (after_call env prompt w)
             = (Ret default, after_failed_call w prompt e label)).
  { intros prompt label default H.
    destruct (failed_call_reply env w prompt e H) as [R A]. rewrite R, A.
    unfold parsed_or, printed, after_failed_call. cbn [calls stdout files].
    change (json_loads (clean_json_output [])) with (@None json).
    cbv iota. rewrite <- app_assoc. reflexivity. }
  repeat split; intros.
  - rewrite extract_user_data_eq. cbv zeta.
    unfold parsed_or in G.
    apply (G _ "[UserUnderstanding] Failed to parse JSON: "%string (JDict []) H).
  - rewrite classify_persona_eq. cbv zeta.
    destruct (failed_call_reply env w _ e H) as [R A]. rewrite R, A.
    unfold classified, printed, after_failed_call. cbn [calls stdout files].
    change (json_loads (clean_json_output [])) with (@None json).
    cbv iota. rewrite <- app_assoc. reflexivity.
  - rewrite plan_roadmap_think_eq. cbv zeta. apply (G _ _ _ H).
  - rewrite plan_roadmap_plan_eq. cbv zeta. apply (G _ _ _ H).
  - rewrite plan_roadmap_activities_eq. cbv zeta. apply (G _ _ _ H).
Qed.

Lemma failed_call_is_reported_twice_witness :
  extract_user_data
    (demo_env [Raise (RemoteError (lit "quota exceeded"))] false true)
    (lit "5 years backend, Python advanced")
    (lit "prefers hands-on, 8 hrs/week")
    (lit "integrate GenAI into workflow") fresh
  = (Ret (JDict []),
     after_failed_call fresh
       (extract_user_data_prompt
          (lit "5 years backend, Python advanced")
          (lit "prefers hands-on, 8 hrs/week")
          (lit "integrate GenAI into workflow"))
       (RemoteError (lit "quota exceeded"))
       "[UserUnderstanding] Failed to parse JSON: ").
Proof.
  destruct (failed_call_is_reported_twice
              (demo_env [Raise (RemoteError (lit "quota exceeded"))] false true)
              fresh (RemoteError (lit "quota exceeded"))) as [H _].
  apply H. reflexivity.
Defined.

(** ** Page breaks of a document *)

Lemma pdf_topic_adds (env : Env) (margin wrap_width height : Z) (topic : json)
  (c c' : canvas) (y y' : Z) :
  pdf_topic env margin wrap_width height topic (c, y) = Ret (c', y') ->
  exists added, c' = c ++ added /\ (page_breaks added <= 1)%nat.
Proof.
  destruct topic as [| | | | | |d]; try discriminate.
  unfold pdf_topic. run. unfold py_get. cbv beta iota.
  repeat (rewrite draw_wrapped_eq; cbv beta iota zeta).
  repeat match goal with
         | |- context [simpleSplit env ?t ?f ?s ?m] =>
             let l := fresh "l" in
             set (l := simpleSplit env t f s m); clearbody l
         end.
  match goal with |- context [if ?b then _ else _] => destruct b end;
    intros H; injection H as <- _;
    repeat (rewrite <- app_assoc; cbn [app]);
    eexists; (split; [reflexivity|]);
    repeat (rewrite page_breaks_font || rewrite page_breaks_app
            || rewrite page_breaks_lines);
    cbn; lia.
Qed.

Lemma for_each_pdf_topic_adds (env : Env) (margin wrap_width height : Z)
  (topics : list json) :
  forall c y c' y',
    for_each topics (pdf_topic env margin wrap_width height) (c, y) = Ret (c', y') ->
    exists added,
      c' = c ++ added /\ (page_breaks added <= List.length topics)%nat.
Proof.
  induction topics as [|t r IH]; intros c y c' y' H.
  - injection H as <- _. exists []. rewrite app_nil_r. split; [reflexivity|cbn; lia].
  - cbn [for_each] in H.
    destruct (pdf_topic env margin wrap_width height t (c, y)) as [[c1 y1]|e] eqn:E;
      [|discriminate H].
    apply pdf_topic_adds in E as [a1 [-> B1]].
    apply IH in H as [a2 [-> B2]].
    exists (a1 ++ a2). rewrite <- app_assoc. split; [reflexivity|].
    rewrite page_breaks_app. cbn [List.length]. lia.
Qed.

Lemma pdf_level_adds (env : Env) (margin wrap_width height : Z) (level : json)
  (c c' : canvas) (y y' : Z) :
  pdf_level env margin wrap_width height level (c, y) = Ret (c', y') ->
  exists added,
    c' = c ++ added
    /\ (page_breaks added <= List.length (items_of level "topics"))%nat.
Proof.
  destruct level as [| | | | | |d]; try discriminate.
  unfold pdf_level. run. unfold py_get. cbv beta iota.
  rewrite draw_wrapped_eq. cbv beta iota zeta.
  match goal with
  | |- context [simpleSplit env ?t ?f ?s ?m] =>
      let l := fresh "l" in set (l := simpleSplit env t f s m); clearbody l
  end.
  unfold items_of, member.
  destruct (dict_get d (lit "topics")) as [topics|];
    [|cbn; intros H; injection H as <- _;
      repeat (rewrite <- app_assoc; cbn [app]);
      eexists; (split; [reflexivity|]);
      repeat (rewrite page_breaks_font || rewrite page_breaks_app
              || rewrite page_breaks_lines);
      cbn; lia].
  destruct topics as [| | | |s|items|pairs]; try discriminate; cbn [py_iter].
  - (* a string: its characters have no [get] *)
    destruct s as [|a s']; [|discriminate].
    cbn. intros H. injection H as <- _.
    repeat (rewrite <- app_assoc; cbn [app]).
    eexists. split; [reflexivity|].
    repeat (rewrite page_breaks_font || rewrite page_breaks_app
            || rewrite page_breaks_lines).
    cbn. lia.
  - destruct (for_each items _ _) as [[c1 y1]|e] eqn:E; [|discriminate].
    apply for_each_pdf_topic_adds in E as [a1 [-> B1]].
    intros H. injection H as <- _.
    repeat (rewrite <- app_assoc; cbn [app]).
    eexists. split; [reflexivity|].
    repeat (rewrite page_breaks_font || rewrite page_breaks_app
            || rewrite page_breaks_lines).
    cbn. lia.
  - (* an object: its keys have no [get] *)
    destruct pairs as [|kv pairs']; [|discriminate].
    cbn. intros H. injection H as <- _.
    repeat (rewrite <- app_assoc; cbn [app]).
    eexists. split; [reflexivity|].
    repeat (rewrite page_breaks_font || rewrite page_breaks_app
            || rewrite page_breaks_lines).
    cbn. lia.
Qed.

Lemma for_each_pdf_level_adds (env : Env) (margin wrap_width height : Z)
  (levels : list json) :
  forall c y c' y',
    for_each levels (pdf_level env margin wrap_width height) (c, y) = Ret (c', y') ->
    exists added,
      c' = c ++ added
      /\ (page_breaks added
          <= list_sum (map (fun level => List.length (items_of level "topics"))
                         levels))%nat.
Proof.
  induction levels as [|l r IH]; intros c y c' y' H.
  - injection H as <- _. exists []. rewrite app_nil_r. split; [reflexivity|cbn; lia].
  - cbn [for_each] in H.
    destruct (pdf_level env margin wrap_width height l (c, y)) as [[c1 y1]|e] eqn:E;
      [|discriminate H].
    apply pdf_level_adds in E as [a1 [-> B1]].
    apply IH in H as [a2 [-> B2]].
    exists (a1 ++ a2). rewrite <- app_assoc. split; [reflexivity|].
    rewrite page_breaks_app. cbn [map].
    change (list_sum (?a :: ?m)) with (a + list_sum m)%nat. lia.
Qed.

(** X19.  The only page breaks of the PDF are those after topics: the
    document [generate_pdf] draws turns the page at most once for each
    topic of the record.  Level headings never turn the page, so a record
    with many levels and no topic is drawn on one page, its last headings
    below the bottom edge. *)
Theorem generate_pdf_breaks_pages_after_topics_only (env : Env) (roadmap_data : json)
  (c : canvas) :
  pdf_document env roadmap_data = Ret c ->
  (page_breaks c
   <= list_sum (map (fun level => List.length (items_of level "topics"))
                  (items_of (roadmap_of roadmap_data) "levels")))%nat.
Proof.
  unfold pdf_document. run.
  destruct roadmap_data as [| | | | | |d]; try discriminate.
  unfold py_get at 1. cbv beta iota. unfold roadmap_of, member.
  set (roadmap := match dict_get d (lit "roadmap") with
                  | Some x => x
                  | None => JDict []
                  end).
  clearbody roadmap.
  destruct roadmap as [| | | | | |r]; try discriminate.
  unfold py_get. cbv beta iota.
  repeat (rewrite draw_wrapped_eq; cbv beta iota zeta).
  repeat match goal with
         | |- context [simpleSplit env ?t ?f ?s ?m] =>
             let l := fresh "l" in
             set (l := simpleSplit env t f s m); clearbody l
         end.
  unfold items_of at 2. unfold member.
  destruct (dict_get r (lit "levels")) as [levels|];
    [|cbn; intros H; injection H as <-;
      repeat (rewrite page_breaks_font || rewrite page_breaks_app
              || rewrite page_breaks_lines);
      cbn; lia].
  destruct levels as [| | | |s|items|pairs]; try discriminate; cbn [py_iter].
  - destruct s as [|a s']; [|discriminate].
    cbn. intros H. injection H as <-.
    repeat (rewrite page_breaks_font || rewrite page_breaks_app
            || rewrite page_breaks_lines).
    cbn. lia.
  - destruct (for_each items _ _) as [[c1 y1]|e] eqn:E; [|discriminate].
    apply for_each_pdf_level_adds in E as [a1 [-> B1]].
    intros H. injection H as <-. cbn [fst].
    repeat (rewrite page_breaks_font || rewrite page_breaks_app
            || rewrite page_breaks_lines).
    cbn [page_breaks filter List.length Nat.add] in *. lia.
  - destruct pairs as [|kv pairs']; [|discriminate].
    cbn. intros H. injection H as <-.
    repeat (rewrite page_breaks_font || rewrite page_breaks_app
            || rewrite page_breaks_lines).
    cbn. lia.
Qed.

Lemma generate_pdf_breaks_pages_after_topics_only_witness :
  exists c,
    pdf_document (demo_env [] true true)
      (JDict [(lit "roadmap",
               JDict [(lit "levels", JList (repeat (JDict []) 60))])])
    = Ret c
    /\ (page_breaks c <= 0)%nat.
Proof.
  destruct (pdf_document (demo_env [] true true)
              (JDict [(lit "roadmap",
                       JDict [(lit "levels", JList (repeat (JDict []) 60))])]))
    as [c|e] eqn:E.
  - exists c. split; [reflexivity|].
    apply (generate_pdf_breaks_pages_after_topics_only _ _ _ E).
  - vm_compute in E. discriminate E.
Defined.

(** ** Fenced replies *)

Lemma clean_json_output_strip (s : pystr) :
  clean_json_output (strip s) = clean_json_output s.
Proof. unfold clean_json_output. rewrite strip_idem. reflexivity. Qed.

Lemma files_after_call (env : Env) (prompt : pystr) (w : world) :
  files (after_call env prompt w) = files w.
Proof. unfold after_call. destruct (remote env (calls w) _); reflexivity. Qed.

Lemma after_call_same (env env' : Env) (prompt : pystr) (w w' : world) :
  same_but_output w w' ->
  same_but_output (after_call env prompt w) (after_call env' prompt w').
Proof.
  intros [C F]. split.
  - repeat rewrite calls_after_call. rewrite C. reflexivity.
  - repeat rewrite files_after_call. exact F.
Qed.

Lemma printed_same (w w' : world) (line line' : list fpart) :
  same_but_output w w' -> same_but_output (printed w line) (printed w' line').
Proof. intros [C F]. split; assumption. Qed.

Lemma printed_same_left (w w' : world) (line : list fpart) :
  same_but_output w w' -> same_but_output (printed w line) w'.
Proof. intros [C F]. split; assumption. Qed.

Lemma printed_same_right (w w' : world) (line : list fpart) :
  same_but_output w w' -> same_but_output w (printed w' line).
Proof. intros [C F]. split; assumption. Qed.

(** A stage reads the same value from a well-formed reply and from the
    same reply inside a fence; a failed call gives both the empty
    string. *)
Lemma fenced_reply_reads_alike (env : Env) (ws1 tag ws2 : pystr)
  (history : list request) (prompt : pystr) :
  all_space ws1 = true -> all_space ws2 = true ->
  forallb is_ascii_letter tag = true ->
  answers_in_json env ->
  (exists v,
     json_loads (clean_json_output (reply env history prompt)) = Some v
     /\ json_loads (clean_json_output (reply (fencing env ws1 tag ws2) history prompt))
        = Some v)
  \/ (reply env history prompt = []
      /\ reply (fencing env ws1 tag ws2) history prompt = []).
Proof.
  intros H1 H2 Ht HJ. unfold reply. cbn [remote fencing].
  destruct (remote env history (default_request prompt)) as [text|e] eqn:R.
  - left. destruct (HJ _ _ _ R) as [v Hv]. exists v.
    destruct (json_loads_strip text v Hv) as [Hs Hf].
    repeat rewrite clean_json_output_strip.
    rewrite clean_unfenced by exact Hf.
    rewrite clean_fenced_block_padded by assumption.
    split; exact Hs.
  - right. split; reflexivity.
Qed.

Section Fenced.

Variable env : Env.
Variables ws1 tag ws2 : pystr.
Hypothesis Hws1 : all_space ws1 = true.
Hypothesis Hws2 : all_space ws2 = true.
Hypothesis Htag : forallb is_ascii_letter tag = true.
Hypothesis Hjson : answers_in_json env.

Lemma parsed_or_fenced (w w' : world) (default : json) (label : string)
  (prompt : pystr) :
  same_but_output w w' ->
  alike
    (parsed_or default label (reply (fencing env ws1 tag ws2) (calls w) prompt)
       (after_call (fencing env ws1 tag ws2) prompt w))
    (parsed_or default label (reply env (calls w') prompt)
       (after_call env prompt w')).
Proof.
  intros S. pose proof (after_call_same (fencing env ws1 tag ws2) env prompt w w' S) as A.
  destruct S as [C F]. rewrite <- C.
  destruct (fenced_reply_reads_alike env ws1 tag ws2 (calls w) prompt
              Hws1 Hws2 Htag Hjson)
    as [[v [E E']]|[E E']]; unfold parsed_or, alike.
  - rewrite E, E'. split; [reflexivity|exact A].
  - rewrite E, E'. change (json_loads (clean_json_output [])) with (@None json).
    split; [reflexivity|]. apply printed_same. exact A.
Qed.

Lemma extract_user_data_fenced (r i g : pystr) (w w' : world) :
  same_but_output w w' ->
  alike (extract_user_data (fencing env ws1 tag ws2) r i g w)
    (extract_user_data env r i g w').
Proof.
  intros S. repeat rewrite extract_user_data_eq. cbv zeta.
  apply (parsed_or_fenced w w' (JDict [])
           "[UserUnderstanding] Failed to parse JSON: "
           (extract_user_data_prompt r i g) S).
Qed.

Lemma classify_persona_fenced (user_data : json) (w w' : world) :
  same_but_output w w' ->
  alike (classify_persona (fencing env ws1 tag ws2) user_data w)
    (classify_persona env user_data w').
Proof.
  intros S. repeat rewrite classify_persona_eq. cbv zeta.
  change (classify_persona_prompt (fencing env ws1 tag ws2) user_data)
    with (classify_persona_prompt env user_data).
  pose proof (after_call_same (fencing env ws1 tag ws2) env
                (classify_persona_prompt env user_data) w w' S) as A.
  destruct S as [C F]. rewrite <- C.
  destruct (fenced_reply_reads_alike env ws1 tag ws2 (calls w)
              (classify_persona_prompt env user_data) Hws1 Hws2 Htag Hjson)
    as [[v [E E']]|[E E']]; unfold alike.
  - rewrite E, E'. unfold classified.
    destruct v; (split; [reflexivity|]); cbn [snd];
      try (apply printed_same; exact A); exact A.
  - rewrite E, E'. change (json_loads (clean_json_output [])) with (@None json).
    unfold classified. split; [reflexivity|]. apply printed_same. exact A.
Qed.

Lemma plan_roadmap_fenced (user_data persona : json) (w w' : world) :
  same_but_output w w' ->
  alike (plan_roadmap (fencing env ws1 tag ws2) user_data persona w)
    (plan_roadmap env user_data persona w').
Proof.
  intros S. unfold plan_roadmap. run.
  repeat rewrite plan_roadmap_think_eq. cbv zeta.
  change (plan_roadmap_think_prompt (fencing env ws1 tag ws2) user_data persona)
    with (plan_roadmap_think_prompt env user_data persona).
  destruct (parsed_or_fenced w w' (JList [])
              "[RoadmapPlanner][Think] Failed to parse topics JSON: "
              (plan_roadmap_think_prompt env user_data persona) S) as [E1 S1].
  destruct (parsed_or _ _ (reply (fencing env ws1 tag ws2) _ _) _) as [o1 w1].
  destruct (parsed_or _ _ (reply env _ _) _) as [o1' w1'].
  cbn [fst snd] in E1, S1. subst o1'.
  destruct o1 as [topics|e]; [|split; [reflexivity|exact S1]].
  repeat rewrite plan_roadmap_plan_eq. cbv zeta.
  change (plan_roadmap_plan_prompt (fencing env ws1 tag ws2) topics)
    with (plan_roadmap_plan_prompt env topics).
  destruct (parsed_or_fenced w1 w1' (JDict [])
              "[RoadmapPlanner][Plan] Failed to parse structure JSON: "
              (plan_roadmap_plan_prompt env topics) S1) as [E2 S2].
  destruct (parsed_or _ _ (reply (fencing env ws1 tag ws2) _ _) _) as [o2 w2].
  destruct (parsed_or _ _ (reply env _ _) _) as [o2' w2'].
  cbn [fst snd] in E2, S2. subst o2'.
  destruct o2 as [structure|e]; [|split; [reflexivity|exact S2]].
  repeat rewrite plan_roadmap_activities_eq. cbv zeta.
  change (plan_roadmap_activities_prompt (fencing env ws1 tag ws2) user_data persona
            structure)
    with (plan_roadmap_activities_prompt env user_data persona structure).
  destruct (parsed_or_fenced w2 w2' (JDict [])
              "[RoadmapPlanner][Activities] Failed to parse activities JSON: "
              (plan_roadmap_activities_prompt env user_data persona structure) S2)
    as [E3 S3].
  destruct (parsed_or _ _ (reply (fencing env ws1 tag ws2) _ _) _) as [o3 w3].
  destruct (parsed_or _ _ (reply env _ _) _) as [o3' w3'].
  cbn [fst snd] in E3, S3. subst o3'.
  destruct o3 as [activities|e]; [|split; [reflexivity|exact S3]].
  change (plan_roadmap_assemble (fencing env ws1 tag ws2) user_data persona structure
            activities)
    with (plan_roadmap_assemble env user_data persona structure activities).
  destruct (plan_roadmap_assemble env user_data persona structure activities);
    (split; [reflexivity|exact S3]).
Qed.

Lemma generate_roadmap_fenced (r i g : pystr) (want_pdf : bool) (w : world) :
  alike (generate_roadmap (fencing env ws1 tag ws2) r i g want_pdf w)
    (generate_roadmap env r i g want_pdf w).
Proof.
  assert (S : same_but_output w w) by (split; reflexivity).
  unfold generate_roadmap. run.
  destruct (extract_user_data_fenced r i g w w S) as [E1 S1].
  destruct (extract_user_data (fencing env ws1 tag ws2) r i g w) as [o1 w1].
  destruct (extract_user_data env r i g w) as [o1' w1'].
  cbn [fst snd] in E1, S1. subst o1'.
  destruct o1 as [user_data|e]; [|split; [reflexivity|exact S1]].
  destruct (classify_persona_fenced user_data w1 w1' S1) as [E2 S2].
  destruct (classify_persona (fencing env ws1 tag ws2) user_data w1) as [o2 w2].
  destruct (classify_persona env user_data w1') as [o2' w2'].
  cbn [fst snd] in E2, S2. subst o2'.
  destruct o2 as [pj|e]; [|split; [reflexivity|exact S2]].
  destruct (plan_roadmap_fenced user_data (fst pj) w2 w2' S2) as [E3 S3].
  destruct (plan_roadmap (fencing env ws1 tag ws2) user_data (fst pj) w2) as [o3 w3].
  destruct (plan_roadmap env user_data (fst pj) w2') as [o3' w3'].
  cbn [fst snd] in E3, S3. subst o3'.
  destruct o3 as [record|e]; [|split; [reflexivity|exact S3]].
  change (format_table (fencing env ws1 tag ws2) record)
    with (format_table env record).
  destruct (format_table env record) as [table|e]; [|split; [reflexivity|exact S3]].
  change (REPORTLAB_AVAILABLE (fencing env ws1 tag ws2))
    with (REPORTLAB_AVAILABLE env).
  destruct (want_pdf && REPORTLAB_AVAILABLE env) eqn:P;
    [|split; [reflexivity|exact S3]].
  apply andb_true_iff in P as [_ Ha].
  unfold named_temporary_file. cbv zeta.
  change (temp_file_name (fencing env ws1 tag ws2)) with (temp_file_name env).
  change (fs_writable (fencing env ws1 tag ws2)) with (fs_writable env).
  destruct (fs_writable env (temp_file_name env (lit ".pdf"))) eqn:W;
    [|split; [reflexivity|exact S3]].
  repeat rewrite generate_pdf_eq.
  change (REPORTLAB_AVAILABLE (fencing env ws1 tag ws2))
    with (REPORTLAB_AVAILABLE env).
  change (fs_writable (fencing env ws1 tag ws2)) with (fs_writable env).
  change (pdf_document (fencing env ws1 tag ws2) record)
    with (pdf_document env record).
  rewrite Ha, W. destruct S3 as [C3 F3].
  destruct (pdf_document env record); unfold alike, same_but_output;
    cbn [fst snd calls files]; rewrite C3, F3; repeat split; reflexivity.
Qed.

End Fenced.

(** X20.  Fences change nothing.  When every reply of the model is
    well-formed JSON, a run of [generate_roadmap] returns the same record,
    table and path (or raises the same exception), sends the same
    requests and writes the same files if the model instead wraps each of
    its replies in a fenced block, with an alphabetic tag or none and any
    whitespace around the block. *)
Theorem generate_roadmap_ignores_fences (env : Env) (ws1 tag ws2 : pystr)
  (r i g : pystr) (want_pdf : bool) (w : world) :
  all_space ws1 = true -> all_space ws2 = true ->
  forallb is_ascii_letter tag = true ->
  answers_in_json env ->
  fst (generate_roadmap (fencing env ws1 tag ws2) r i g want_pdf w)
  = fst (generate_roadmap env r i g want_pdf w)
  /\ calls (snd (generate_roadmap (fencing env ws1 tag ws2) r i g want_pdf w))
     = calls (snd (generate_roadmap env r i g want_pdf w))
  /\ files (snd (generate_roadmap (fencing env ws1 tag ws2) r i g want_pdf w))
     = files (snd (generate_roadmap env r i g want_pdf w)).
Proof.
  intros H1 H2 Ht HJ.
  destruct (generate_roadmap_fenced env ws1 tag ws2 H1 H2 Ht HJ r i g want_pdf w)
    as [E [C F]].
  repeat split; assumption.
Qed.

Lemma generate_roadmap_ignores_fences_witness :
  fst (generate_roadmap (fencing (always_answers (lit "{}")) nl (lit "json") nl)
         (lit "5 years backend, Python advanced")
         (lit "prefers hands-on, 8 hrs/week")
         (lit "integrate GenAI into workflow") false fresh)
  = fst (generate_roadmap (always_answers (lit "{}"))
           (lit "5 years backend, Python advanced")
           (lit "prefers hands-on, 8 hrs/week")
           (lit "integrate GenAI into workflow") false fresh)
  /\ calls (snd (generate_roadmap
                   (fencing (always_answers (lit "{}")) nl (lit "json") nl)
                   (lit "5 years backend, Python advanced")
                   (lit "prefers hands-on, 8 hrs/week")
                   (lit "integrate GenAI into workflow") false fresh))
     = calls (snd (generate_roadmap (always_answers (lit "{}"))
                     (lit "5 years backend, Python advanced")
                     (lit "prefers hands-on, 8 hrs/week")
                     (lit "integrate GenAI into workflow") false fresh))
  /\ files (snd (generate_roadmap
                   (fencing (always_answers (lit "{}")) nl (lit "json") nl)
                   (lit "5 years backend, Python advanced")
                   (lit "prefers hands-on, 8 hrs/week")
                   (lit "integrate GenAI into workflow") false fresh))
     = files (snd (generate_roadmap (always_answers (lit "{}"))
                     (lit "5 years backend, Python advanced")
                     (lit "prefers hands-on, 8 hrs/week")
                     (lit "integrate GenAI into workflow") false fresh)).
Proof.
  apply generate_roadmap_ignores_fences; try reflexivity.
  intros history req text H. injection H as <-.
  exists (JDict []). vm_compute. reflexivity.
Defined.

(** ** The text of an uploaded file *)

Ltac frun :=
  cbv beta iota zeta delta
    [bind ret F_monad try_finally set_temp_path get_temp_path raise
     NamedTemporaryFile save remove_temp_file read_with os_remove lower_filename
     files_on_disk temp_path].

Lemma disk_remove_absent (d : disk) (path : pystr) :
  path_exists d path = false -> disk_remove d path = d.
Proof.
  unfold path_exists, disk_lookup, disk_remove.
  induction d as [|[p c] d IH]; [reflexivity|].
  cbn [find filter fst]. destruct (pystr_eqb p path); [discriminate|].
  intros H. cbn [negb]. f_equal. apply IH. exact H.
Qed.

Lemma disk_lookup_write (d : disk) (path : pystr) (content : bytes) :
  disk_lookup (disk_write d path content) path = Some content.
Proof.
  unfold disk_lookup, disk_write. cbn [find fst]. rewrite pystr_eqb_refl. reflexivity.
Qed.

Lemma disk_remove_write (d : disk) (path : pystr) (content : bytes) :
  disk_remove (disk_write d path content) path = disk_remove d path.
Proof.
  unfold disk_write, disk_remove at 1. cbn [filter fst]. rewrite pystr_eqb_refl.
  cbn [negb]. fold (disk_remove (disk_remove d path) path).
  apply disk_remove_absent.
  unfold path_exists, disk_lookup, disk_remove.
  induction d as [|[p c] d IH]; [reflexivity|].
  cbn [filter fst]. destruct (pystr_eqb p path) eqn:E; cbn [negb]; [exact IH|].
  cbn [find fst]. rewrite E. exact IH.
Qed.

Lemma extract_text_from_file_on_eq (fenv : FileEnv) (file_storage : upload) (d : disk) :
  extract_text_from_file_on fenv file_storage d
  = match filename file_storage with
    | None => (Err NoneType_has_no_lower, d)
    | Some name =>
        let lowered := py_lower fenv name in
        match named_temporary fenv d (splitext_ext fenv lowered) with
        | Err e => (Err e, d)
        | Ok tmp =>
            let saved := disk_write (disk_write d tmp []) tmp (save_writes file_storage) in
            let left := match tmp with
                        | [] => saved
                        | _ :: _ => disk_remove saved tmp
                        end in
            match save_raises file_storage with
            | Some message => (Err (External message), left)
            | None =>
                (match text_of fenv lowered (save_writes file_storage) with
                 | Ok text => Ok (strip text)
                 | Err e => Err e
                 end, left)
            end
        end
    end.
Proof.
  unfold extract_text_from_file_on, extract_text_from_file, text_of. frun.
  destruct (filename file_storage) as [name|]; [|reflexivity].
  destruct (named_temporary fenv d _) as [tmp|e]; [|reflexivity].
  assert (P : path_exists
                (disk_write (disk_write d tmp []) tmp (save_writes file_storage)) tmp
              = true).
  { unfold path_exists. rewrite disk_lookup_write. reflexivity. }
  destruct (save_raises file_storage) as [message|].
  - destruct tmp as [|a tmp']; [reflexivity|]. rewrite P. reflexivity.
  - destruct (endswith _ (lit ".pdf"));
      [|destruct (endswith _ (lit ".docx"));
        [|destruct (endswith _ (lit ".txt"))]];
      cbv beta iota zeta; try rewrite disk_lookup_write;
      repeat match goal with
             | |- context [pdf_page_texts fenv ?c] => destruct (pdf_page_texts fenv c)
             | |- context [docx2txt_process fenv ?c] =>
                 destruct (docx2txt_process fenv c)
             | |- context [read_utf8 fenv ?c] => destruct (read_utf8 fenv c)
             end;
      cbv beta iota zeta;
      (destruct tmp as [|hd tmp']; [reflexivity|rewrite P; reflexivity]).
Qed.

(** X21.  The temporary file never outlives the call.  Provided the
    temporary-file service gives a new, non-empty name, as [tempfile]
    does, [extract_text_from_file] leaves the disk exactly as it found it,
    whether it returns a text or raises: the [finally] clause removes the
    file after a failed save and after a failed reader alike, and a call
    that fails before the file exists touches nothing. *)
Theorem extract_text_from_file_restores_disk (fenv : FileEnv) (file_storage : upload)
  (d : disk) :
  (forall suffix tmp,
     named_temporary fenv d suffix = Ok tmp -> tmp <> [] /\ path_exists d tmp = false) ->
  snd (extract_text_from_file_on fenv file_storage d) = d.
Proof.
  intros Fresh. rewrite extract_text_from_file_on_eq.
  destruct (filename file_storage) as [name|]; [|reflexivity]. cbv zeta.
  destruct (named_temporary fenv d _) as [tmp|e] eqn:T; [|reflexivity].
  destruct (Fresh _ _ T) as [N A].
  assert (L : match tmp with
              | [] => disk_write (disk_write d tmp []) tmp (save_writes file_storage)
              | _ :: _ =>
                  disk_remove
                    (disk_write (disk_write d tmp []) tmp (save_writes file_storage))
                    tmp
              end = d).
  { destruct tmp as [|a tmp']; [contradiction N; reflexivity|].
    rewrite disk_remove_write, disk_remove_write. apply disk_remove_absent. exact A. }
  rewrite L. destruct (save_raises file_storage); reflexivity.
Qed.

Lemma extract_text_from_file_restores_disk_witness :
  extract_text_from_file_on demo_fenv
    {| filename := Some (lit "notes.txt"); save_writes := [];
       save_raises := None |}
    [(lit "/srv/app.py", [])]
  = (Err (External (lit "UnicodeDecodeError")), [(lit "/srv/app.py", [])]).
Proof.
  assert (F : forall suffix tmp,
             named_temporary demo_fenv [(lit "/srv/app.py", [])] suffix = Ok tmp ->
             tmp <> [] /\ path_exists [(lit "/srv/app.py", [])] tmp = false).
  { intros suffix tmp H. injection H as <-. split; [discriminate|reflexivity]. }
  pose proof (extract_text_from_file_restores_disk demo_fenv
                {| filename := Some (lit "notes.txt"); save_writes := [];
                   save_raises := None |}
                [(lit "/srv/app.py", [])] F) as H.
  destruct (extract_text_from_file_on demo_fenv _ _) as [r d'] eqn:E.
  cbn [snd] in H. subst d'.
  vm_compute in E. injection E as <-. reflexivity.
Defined.

Lemma all_space_join (parts : list pystr) :
  forallb all_space parts = true -> all_space (join nl parts) = true.
Proof.
  induction parts as [|p r IH]; [reflexivity|].
  cbn [forallb]. intros H. apply andb_true_iff in H as [Hp Hr].
  destruct r as [|q r']; [exact Hp|].
  change (join nl (p :: q :: r')) with (p ++ nl ++ join nl (q :: r')).
  unfold all_space in *. repeat rewrite forallb_app.
  rewrite Hp, (IH Hr). reflexivity.
Qed.

Lemma strip_all_space (s : pystr) : all_space s = true -> strip s = [].
Proof.
  intros H. unfold strip. rewrite <- (app_nil_r s).
  rewrite lstrip_all_space by exact H. reflexivity.
Qed.

Lemma join_pages_blank (pages : list (option pystr)) :
  forallb blank_page pages = true -> all_space (join_pages pages) = true.
Proof.
  intros H. unfold join_pages. apply all_space_join.
  rewrite forallb_forall in *. intros text Ht.
  apply in_map_iff in Ht as [page [<- Hp]].
  specialize (H page Hp). destruct page as [[|c r]|]; try reflexivity. exact H.
Qed.

(** X22.  What [extract_text_from_file] returns.  A text it returns has
    no whitespace at either end.  It is the empty string when the file
    name, in lower case, ends with none of [.pdf], [.docx], [.txt], and
    when a PDF has no text on any page ([extract_text] gave [None], the
    empty string or whitespace for each): neither case is an error. *)
Theorem extract_text_from_file_returns (fenv : FileEnv) (file_storage : upload)
  (d : disk) (name text : pystr) :
  filename file_storage = Some name ->
  fst (extract_text_from_file_on fenv file_storage d) = Ok text ->
  trimmed text
  /\ (supported (py_lower fenv name) = false -> text = [])
  /\ (forall pages,
        endswith (py_lower fenv name) (lit ".pdf") = true ->
        pdf_page_texts fenv (save_writes file_storage) = Ok pages ->
        forallb blank_page pages = true ->
        text = []).
Proof.
  intros Hn. rewrite extract_text_from_file_on_eq, Hn. cbv zeta.
  destruct (named_temporary fenv d _) as [tmp|e]; [|discriminate].
  destruct (save_raises file_storage); [discriminate|].
  destruct (text_of fenv (py_lower fenv name) (save_writes file_storage))
    as [raw|e] eqn:T; [|discriminate].
  cbn [fst]. intros H. injection H as <-.
  split; [apply strip_trimmed|]. split.
  - unfold supported. intros U.
    apply orb_false_iff in U as [U U3]. apply orb_false_iff in U as [U1 U2].
    unfold text_of in T. rewrite U1, U2, U3 in T. injection T as <-. reflexivity.
  - intros pages P R B. unfold text_of in T. rewrite P, R in T. injection T as <-.
    apply strip_all_space, join_pages_blank. exact B.
Qed.

Lemma extract_text_from_file_returns_witness :
  fst (extract_text_from_file_on demo_fenv
         {| filename := Some (lit "scan.pdf"); save_writes := [];
            save_raises := None |} [])
  = Ok [].
Proof.
  destruct (extract_text_from_file_on demo_fenv
              {| filename := Some (lit "scan.pdf"); save_writes := [];
                 save_raises := None |} []) as [[text|e] d'] eqn:E.
  - destruct (extract_text_from_file_returns demo_fenv
                {| filename := Some (lit "scan.pdf"); save_writes := [];
                   save_raises := None |} [] (lit "scan.pdf") text eq_refl)
      as [_ [_ H]]; [rewrite E; reflexivity|].
    cbn [fst]. f_equal. apply (H [None; Some (lit "  ")]); reflexivity.
  - vm_compute in E. discriminate E.
Defined.

(** X23.  [extract_text_from_file] catches nothing.  When it raises, the
    exception is the one a step raised: the [AttributeError] of an upload
    without a file name, or what the temporary-file service, the upload's
    [save] or the reader for the extension raised, in this order; a
    failed [save] is raised even when the extension is not supported. *)
Theorem extract_text_from_file_raises (fenv : FileEnv) (file_storage : upload)
  (d : disk) (e : file_exn) :
  fst (extract_text_from_file_on fenv file_storage d) = Err e ->
  (filename file_storage = None /\ e = NoneType_has_no_lower)
  \/ exists name,
       filename file_storage = Some name
       /\ (named_temporary fenv d (splitext_ext fenv (py_lower fenv name)) = Err e
           \/ (exists tmp,
                 named_temporary fenv d (splitext_ext fenv (py_lower fenv name))
                 = Ok tmp
                 /\ ((exists message,
                        save_raises file_storage = Some message
                        /\ e = External message)
                     \/ (save_raises file_storage = None
                         /\ supported (py_lower fenv name) = true
                         /\ text_of fenv (py_lower fenv name)
                              (save_writes file_storage)
                            = Err e)))).
Proof.
  rewrite extract_text_from_file_on_eq.
  destruct (filename file_storage) as [name|];
    [|cbn [fst]; intros H; injection H as <-; left; split; reflexivity].
  cbv zeta. intros H. right. exists name. split; [reflexivity|].
  destruct (named_temporary fenv d _) as [tmp|e'];
    [|cbn [fst] in H; left; exact H].
  right. exists tmp. split; [reflexivity|].
  destruct (save_raises file_storage) as [message|].
  - cbn [fst] in H. injection H as <-. left. exists message. split; reflexivity.
  - right. split; [reflexivity|].
    destruct (text_of fenv (py_lower fenv name) (save_writes file_storage))
      as [raw|e'] eqn:T; [discriminate H|].
    cbn [fst] in H. injection H as <-. split; [|reflexivity].
    unfold supported. unfold text_of in T.
    destruct (endswith _ (lit ".pdf")); [reflexivity|].
    destruct (endswith _ (lit ".docx")); [reflexivity|].
    destruct (endswith _ (lit ".txt")); [reflexivity|discriminate T].
Qed.

Lemma extract_text_from_file_raises_witness :
  fst (extract_text_from_file_on demo_fenv
         {| filename := Some (lit "cv.xyz"); save_writes := [];
            save_raises := Some (lit "disk full") |} [])
  = Err (External (lit "disk full"))
  /\ supported (lit "cv.xyz") = false
  /\ exists name tmp message,
       name = lit "cv.xyz" /\ tmp = lit "/tmp/upload.pdf"
       /\ message = lit "disk full".
Proof.
  assert (E : fst (extract_text_from_file_on demo_fenv
                     {| filename := Some (lit "cv.xyz"); save_writes := [];
                        save_raises := Some (lit "disk full") |} [])
              = Err (External (lit "disk full"))) by (vm_compute; reflexivity).
  split; [exact E|]. split; [reflexivity|].
  destruct (extract_text_from_file_raises _ _ _ _ E)
    as [[H _]|[name [Hn [H|[tmp [Ht [[message [Hm _]]|[H _]]]]]]]];
    try discriminate H.
  exists name, tmp, message.
  injection Hn as <-. injection Ht as <-. injection Hm as <-.
  repeat split; reflexivity.
Defined.

(** ** The listing script *)

Lemma print_models_eq (env : Env) (models : listing) (w : world) :
  print_models env models w
  = (match failure models with Some e => Raise e | None => Ret tt end,
     printed_all w (map (model_line env) (yielded models))).
Proof.
  revert w. induction models as [|model rest IH|e]; intros w.
  - unfold printed_all. cbn. rewrite app_nil_r. destruct w; reflexivity.
  - cbn [print_models yielded failure map]. run. rewrite IH.
    unfold printed_all. cbn [calls stdout files]. rewrite <- app_assoc.
    destruct (failure rest); reflexivity.
  - unfold printed_all. cbn. rewrite app_nil_r. destruct w; reflexivity.
Qed.

(** X24.  Once the key is configured, the listing script never raises,
    whatever the listing does.  It prints its heading first, then one line
    for each model the service yields, in order, and when the listing
    fails, at once or part way, the lines already printed stay and one
    line with the error ends the output.  Without the environment
    variable it lists with the placeholder key all the same. *)
Theorem list_gemini_models_never_raises (env : Env) (GEMINI_API_KEY : option pystr)
  (list_models : pystr -> listing) (w : world) :
  let models :=
    list_models (match GEMINI_API_KEY with
                 | Some key => key
                 | None => lit "YOUR_GEMINI_API_KEY"
                 end) in
  list_gemini_models env GEMINI_API_KEY list_models w
  = (Ret tt,
     printed_all w
       ([Text (lit "Available Gemini models for your API key:")]
        :: map (model_line env) (yielded models)
        ++ match failure models with
           | Some e => [[Text (lit "Error listing models: "); ExnText e]]
           | None => []
           end)).
Proof.
  cbv zeta. unfold list_gemini_models. run. rewrite print_models_eq.
  unfold printed_all. cbn [calls stdout files].
  destruct (failure _); cbn [calls stdout files];
    repeat rewrite <- app_assoc; cbn [app]; try rewrite app_nil_r; reflexivity.
Qed.
